(** * ping-watchdog: the reboot-decision engine of [ping-watchdog.py]

    A shallow embedding of the probe/retry policy ([ping_attempts],
    [ping_host]), of the 24-hour reboot governor ([num_reboots_24h]) and of
    the notify-then-reboot sequencing ([notify_and_reboot], [Pushover.notify],
    [MyLog.notify], [main]), with the properties of the specification stated
    and settled on it.

    Conventions.
    - A Python [int] is a [Z]; a Python [str] is a [string] whose characters
      are code points below 256 (the type [ascii]).
    - The configuration is a record of the values the code reads from
      [cfg.config]; the fields the code passes through [int(...)] are held
      as the resulting integer.
    - Reading a key of the configuration, [int(...)] of its value, the
      decoding of the log file and [socket.gethostname()] are taken to
      succeed.
    - Effects are explicit: a computation takes the world (the history of
      observable events and the file system) and returns an outcome and
      the new world.  What the outside answers (exit statuses, the clock,
      the reply of the push service) is an [environment], a function of
      the history so far. *)

From Stdlib Require Import ZArith List String Ascii Bool Lia DecimalString.
From stdpp Require Import base strings gmap.
From Equations Require Import Equations.
Import ListNotations.

Local Open Scope string_scope.
Local Open Scope list_scope.
Local Open Scope Z_scope.

(** ** Python [str] operations used by the program *)

Module PyStr.

(** [s.split(sep)] for a one-character separator: the fields between the
    occurrences of [sep], in order; never empty. *)
Fixpoint split (sep : ascii) (s : string) : list string :=
  match s with
  | EmptyString => [EmptyString]
  | String c rest =>
      if Ascii.eqb c sep then EmptyString :: split sep rest
      else match split sep rest with
           | [] => [String c EmptyString]
           | field :: fields => String c field :: fields
           end
  end.

(** [s.startswith(p)]. *)
Fixpoint startswith (p s : string) : bool :=
  match p, s with
  | EmptyString, _ => true
  | String a p', String b s' => Ascii.eqb a b && startswith p' s'
  | String _ _, EmptyString => false
  end.

(** [s.find(sub)]: the lowest index at which [sub] occurs in [s], or -1. *)
Fixpoint find_from (i : Z) (sub s : string) : Z :=
  if startswith sub s then i
  else match s with
       | EmptyString => -1
       | String _ s' => find_from (i + 1) sub s'
       end.

Definition find (s sub : string) : Z := find_from 0 sub s.

(** ["%s" % n] and ["%i" % n] for an integer [n]: its decimal numeral. *)
Definition str_of_int (n : Z) : string :=
  NilEmpty.string_of_int (Z.to_int n).

(** [f.readlines()] of a file opened in text mode with the default
    newline handling, on the decoded contents: CR LF and CR are read as
    LF, and every line keeps its LF (the last line may lack one). *)
Definition LF : ascii := "010"%char.
Definition CR : ascii := "013"%char.

Fixpoint universal_newlines (s : string) : string :=
  match s with
  | EmptyString => EmptyString
  | String c rest =>
      if Ascii.eqb c CR then
        String LF
          match rest with
          | String d rest' =>
              if Ascii.eqb d LF then universal_newlines rest'
              else universal_newlines rest
          | EmptyString => EmptyString
          end
      else String c (universal_newlines rest)
  end.

Fixpoint keepends (s : string) : list string :=
  match s with
  | EmptyString => []
  | String c rest =>
      if Ascii.eqb c LF then String LF EmptyString :: keepends rest
      else match keepends rest with
           | [] => [String c EmptyString]
           | line :: lines => String c line :: lines
           end
  end.

Definition readlines (contents : string) : list string :=
  keepends (universal_newlines contents).

End PyStr.

(** ** [datetime]: naive local date and time *)

Module DateTime.

Record datetime := mk_datetime {
  year : Z; month : Z; day : Z;
  hour : Z; minute : Z; second : Z; microsecond : Z
}.

Definition is_leap (y : Z) : bool :=
  (y mod 4 =? 0) && (negb (y mod 100 =? 0) || (y mod 400 =? 0)).

Definition days_in_month (y m : Z) : Z :=
  if m =? 2 then (if is_leap y then 29 else 28)
  else if (m =? 4) || (m =? 6) || (m =? 9) || (m =? 11) then 30
  else 31.

(** The checks of the [datetime] constructor ([ValueError] otherwise). *)
Definition valid (d : datetime) : bool :=
  (1 <=? year d) && (year d <=? 9999) &&
  (1 <=? month d) && (month d <=? 12) &&
  (1 <=? day d) && (day d <=? days_in_month (year d) (month d)) &&
  (0 <=? hour d) && (hour d <=? 23) &&
  (0 <=? minute d) && (minute d <=? 59) &&
  (0 <=? second d) && (second d <=? 59) &&
  (0 <=? microsecond d) && (microsecond d <=? 999999).

(** [a > b] on naive datetimes compares the tuples
    (year, month, day, hour, minute, second, microsecond). *)
Fixpoint lex_gt (a b : list Z) : bool :=
  match a, b with
  | x :: a', y :: b' => (y <? x) || ((x =? y) && lex_gt a' b')
  | _, _ => false
  end.

Definition fields (d : datetime) : list Z :=
  [year d; month d; day d; hour d; minute d; second d; microsecond d].

Definition gt (a b : datetime) : bool := lex_gt (fields a) (fields b).

(** [d - timedelta(hours=24)]: the same time of day on the previous
    calendar day; before 0001-01-01 the subtraction raises
    [OverflowError], here [None]. *)
Definition minus_24h (d : datetime) : option datetime :=
  let at_date y m dd :=
    mk_datetime y m dd (hour d) (minute d) (second d) (microsecond d) in
  if 1 <? day d then Some (at_date (year d) (month d) (day d - 1))
  else if 1 <? month d then
    Some (at_date (year d) (month d - 1)
                  (days_in_month (year d) (month d - 1)))
  else if 1 <? year d then Some (at_date (year d - 1) 12 31)
  else None.

(** The instant of a datetime, in microseconds since 0001-01-01 00:00:00
    (the proleptic Gregorian ordinal of [date.toordinal], refined to
    microseconds). *)
Definition days_before_year (y : Z) : Z :=
  let p := y - 1 in p * 365 + p / 4 - p / 100 + p / 400.

Fixpoint days_before_month_aux (y : Z) (n : nat) : Z :=
  match n with
  | O => 0
  | S k => days_before_month_aux y k + days_in_month y (Z.of_nat n)
  end.

Definition days_before_month (y m : Z) : Z :=
  days_before_month_aux y (Z.to_nat (m - 1)).

(** [_ymd2ord]: the days up to and including the given date. *)
Definition ymd2ord (y m d : Z) : Z :=
  days_before_year y + days_before_month y m + d.

Definition toordinal (d : datetime) : Z :=
  ymd2ord (year d) (month d) (day d).

Definition year_length (y : Z) : Z := if is_leap y then 366 else 365.

Definition valid_date (y m d : Z) : Prop :=
  1 <= y /\ 1 <= m <= 12 /\ 1 <= d <= days_in_month y m.

Definition instant (d : datetime) : Z :=
  ((((toordinal d - 1) * 24 + hour d) * 60 + minute d) * 60 + second d)
  * 1000000 + microsecond d.

(** *** [datetime.strptime(s, '%Y-%m-%d %H:%M:%S')]

    [_strptime] turns the format into the regular expression
<<
    (?P<Y>\d\d\d\d)-(?P<m>1[0-2]|0[1-9]|[1-9])-
    (?P<d>3[0-1]|[1-2]\d|0[1-9]|[1-9]| [1-9])\s+
    (?P<H>2[0-3]|[0-1]\d|\d):(?P<M>[0-5]\d|\d):(?P<S>6[0-1]|[0-5]\d|\d)
>>
    takes its first match at the start of [s], requires the match to
    end where [s] ends, converts the groups with [int] and builds the
    [datetime]; each failure is a [ValueError].  A matcher lists the ways
    a part of the expression matches a prefix, in the order the
    backtracking search tries them, each with the value read and the
    rest of the input. *)
Definition matcher := string -> list (Z * string).

Definition code (c : ascii) : Z := Z.of_N (N_of_ascii c).

(** [[lo-hi]] on decimal digits; [\d] is [digit 0 9] on code points
    below 256. *)
Definition digit (lo hi : Z) : matcher := fun s =>
  match s with
  | String c rest =>
      let v := code c - 48 in
      if (lo <=? v) && (v <=? hi) then [(v, rest)] else []
  | EmptyString => []
  end.

Definition chr (c : ascii) : matcher := fun s =>
  match s with
  | String c' rest => if Ascii.eqb c' c then [(0, rest)] else []
  | EmptyString => []
  end.

(** Two digits in sequence, read as a two-digit numeral. *)
Definition two (m1 m2 : matcher) : matcher := fun s =>
  '(a, s1) ← m1 s; '(b, s2) ← m2 s1; [(10 * a + b, s2)].

Definition orelse (m1 m2 : matcher) : matcher := fun s => (m1 s ++ m2 s)%list.

(** [\s] on code points below 256. *)
Definition is_space (c : ascii) : bool :=
  let n := code c in
  ((9 <=? n) && (n <=? 13)) || ((28 <=? n) && (n <=? 32))
  || (n =? 133) || (n =? 160).

(** [\s+], greedy: the longest run first. *)
Fixpoint spaces (s : string) : list (Z * string) :=
  match s with
  | String c rest => if is_space c then (spaces rest ++ [(0, rest)])%list else []
  | EmptyString => []
  end.

Definition re_Y : matcher := fun s =>
  '(a, s1) ← digit 0 9 s; '(b, s2) ← digit 0 9 s1;
  '(c, s3) ← digit 0 9 s2; '(d, s4) ← digit 0 9 s3;
  [(1000 * a + 100 * b + 10 * c + d, s4)].
Definition re_m : matcher :=
  orelse (two (digit 1 1) (digit 0 2))
    (orelse (two (digit 0 0) (digit 1 9)) (digit 1 9)).
Definition re_d : matcher :=
  orelse (two (digit 3 3) (digit 0 1))
    (orelse (two (digit 1 2) (digit 0 9))
       (orelse (two (digit 0 0) (digit 1 9))
          (orelse (digit 1 9)
             (fun s => '(_, s1) ← chr " " s; digit 1 9 s1)))).
Definition re_H : matcher :=
  orelse (two (digit 2 2) (digit 0 3))
    (orelse (two (digit 0 1) (digit 0 9)) (digit 0 9)).
Definition re_M : matcher :=
  orelse (two (digit 0 5) (digit 0 9)) (digit 0 9).
Definition re_S : matcher :=
  orelse (two (digit 6 6) (digit 0 1))
    (orelse (two (digit 0 5) (digit 0 9)) (digit 0 9)).

Definition format_regex (s : string) : list (datetime * string) :=
  '(yr, s) ← re_Y s; '(_, s) ← chr "-" s;
  '(mo, s) ← re_m s; '(_, s) ← chr "-" s;
  '(dy, s) ← re_d s; '(_, s) ← spaces s;
  '(hr, s) ← re_H s; '(_, s) ← chr ":" s;
  '(mi, s) ← re_M s; '(_, s) ← chr ":" s;
  '(sc, s) ← re_S s;
  [(mk_datetime yr mo dy hr mi sc 0, s)].

(** [None] stands for the [ValueError]. *)
Definition strptime (s : string) : option datetime :=
  match format_regex s with
  | [] => None
  | (d, EmptyString) :: _ => if valid d then Some d else None
  | (_, String _ _) :: _ => None
  end.

End DateTime.

(** ** The watchdog *)

Module Watchdog.
Import PyStr DateTime.

(** Exceptions the modelled code can raise; [sys.exit(n)] raises
    [SystemExit n]. *)
Inductive exn :=
| ValueError
| FileNotFoundError
| OverflowError
| OSError
| SystemExit (status : Z).

Inductive result (A : Type) :=
| Ok (a : A)
| Except (e : exn).
Arguments Ok {A} a.
Arguments Except {A} e.

(** The values read from [cfg.config]. *)
Record config := mk_config {
  host : string;
  attempts : Z;
  timeout : Z;
  retries : Z;
  retry_wait : Z;
  max_reboots_per_day : Z;
  reboot_cmd_nix : string;
  reboot_cmd_win : string;
  pushover_user_key : string;
  pushover_api_token : string;
  log_file : string;
  log_max_size : Z
}.

(** What the program does to the outside, in the order it does it. *)
Inductive event :=
| Debug (msg : string)        (* logger.debug(msg): console handler only *)
| Fatal (msg : string)        (* logger.fatal(msg): console and file handler *)
| Which (name : string)       (* shutil.which(name) *)
| System (cmd : string)       (* os.system(cmd) *)
| Sleep (secs : Z)            (* time.sleep(secs) *)
| OpenRead (path : string)    (* open(path, 'r') *)
| Today                       (* datetime.today() *)
| Post (user token message : string).
                              (* POST /1/messages.json to api.pushover.net *)

(** What the outside answers, given the events so far. *)
Record environment := mk_environment {
  nt : bool;                              (* os.name == 'nt' *)
  which : list event -> string -> bool;   (* which(name) is not None *)
  system : list event -> string -> Z;     (* exit status of os.system *)
  now : list event -> datetime;           (* the local clock *)
  asctime : list event -> string;         (* %(asctime)s of a log record *)
  gethostname : string;                   (* socket.gethostname() *)
  pushover : list event -> result Z;      (* response.status, or the
                                             exception of the exchange *)
  handler_file : string                   (* file of the FileHandler *)
}.

Record world := mk_world {
  trace : list event;
  files : gmap string string
}.

Definition M (A : Type) : Type := world -> result A * world.

Definition ret {A} (a : A) : M A := fun w => (Ok a, w).

Definition bind {A B} (m : M A) (k : A -> M B) : M B := fun w =>
  match m w with
  | (Ok a, w') => k a w'
  | (Except e, w') => (Except e, w')
  end.

Definition raise {A} (e : exn) : M A := fun w => (Except e, w).

(** [try: body except: handler] with a bare [except], which catches
    every exception. *)
Definition try_except {A} (body : M A) (handler : M A) : M A := fun w =>
  match body w with
  | (Ok a, w') => (Ok a, w')
  | (Except _, w') => handler w'
  end.

Declare Scope py_scope.
Delimit Scope py_scope with py.
Notation "x <- m ;; k" := (bind m (fun x => k))
  (at level 100, m at next level, right associativity) : py_scope.
Notation "m ;; k" := (bind m (fun _ => k))
  (at level 100, right associativity) : py_scope.
Local Open Scope py_scope.

Definition emit (e : event) : M unit := fun w =>
  (Ok tt, mk_world (trace w ++ [e]) (files w)).

Definition dquote : string := String "034"%char EmptyString.
Definition newline : string := String LF EmptyString.

(** [MyLog.log_msg] *)
Definition log_msg : string :=
  "(ping-watchdog) ping failed. requesting reboot".

Section Program.
Variable env : environment.

(** *** Primitives *)

Definition debug (msg : string) : M unit := emit (Debug msg).

(** The file handler formats the record as
    ['%(asctime)s | %(message)s'] and appends the line. *)
Definition fatal (msg : string) : M unit := fun w =>
  let line := (asctime env (trace w) ++ " | " ++ msg ++ newline)%string in
  let old := default EmptyString (files w !! handler_file env) in
  (Ok tt, mk_world (trace w ++ [Fatal msg])
            (<[handler_file env := (old ++ line)%string]> (files w))).

Definition os_system (cmd : string) : M Z := fun w =>
  (Ok (system env (trace w) cmd),
   mk_world (trace w ++ [System cmd]) (files w)).

Definition is_tool (name : string) : M bool := fun w =>
  (Ok (which env (trace w) name),
   mk_world (trace w ++ [Which name]) (files w)).

(** [time.sleep] refuses a negative length. *)
Definition sleep (secs : Z) : M unit :=
  if secs <? 0 then raise ValueError else emit (Sleep secs).

Definition datetime_today : M datetime := fun w =>
  (Ok (now env (trace w)), mk_world (trace w ++ [Today]) (files w)).

(** [with open(path, 'r') as f: lines = f.readlines()] *)
Definition open_readlines (path : string) : M (list string) := fun w =>
  match files w !! path with
  | Some contents =>
      (Ok (readlines contents),
       mk_world (trace w ++ [OpenRead path]) (files w))
  | None =>
      (Except FileNotFoundError,
       mk_world (trace w ++ [OpenRead path]) (files w))
  end.

(** *** [ping_attempts] *)

Definition ping_command (cfg : config) : string :=
  ((if nt env then "ping -n 1 -w" else "ping -c 1 -W")
   ++ " " ++ str_of_int (timeout cfg) ++ " " ++ host cfg ++ " > "
   ++ (if nt env then "NUL" else "/dev/null") ++ " 2>&1")%string.

(** The [for] loop over [range(0, 2 * attempts)], [n] iterations left. *)
Fixpoint ping_loop (cfg : config) (n : nat) (failed_attempts : Z) : M Z :=
  match n with
  | O => ret failed_attempts
  | S n' =>
      debug ("pinging " ++ host cfg)%string ;;
      result <- os_system (ping_command cfg) ;;
      ping_loop cfg n'
        (if negb (result =? 0) then failed_attempts + 1
         else failed_attempts)
  end.

Definition ping_attempts (cfg : config) : M Z :=
  tool <- is_tool "ping" ;;
  if negb tool then
    fatal "ping command not found" ;;
    raise (SystemExit 1)
  else
    ping_loop cfg (Z.to_nat (2 * attempts cfg)) 0.

(** *** [ping_host] *)

(** The body of the [while] loop down to the threshold test: the wait
    (not before the first round), the probes and the debug line.  The
    waiting line shows [retry_wait] as its decimal numeral. *)
Definition ping_round (cfg : config) (count : Z) : M Z :=
  (if 0 <? count then
     debug ("waiting " ++ str_of_int (retry_wait cfg)
            ++ "s for the next ping retry")%string ;;
     sleep (retry_wait cfg)
   else ret tt) ;;
  failed_attempts <- ping_attempts cfg ;;
  debug ("ping failed attempts: " ++ str_of_int failed_attempts)%string ;;
  ret failed_attempts.

Equations? ping_host_loop (cfg : config) (count : Z) (w : world)
  : result bool * world by wf (Z.to_nat (retries cfg - count)) lt :=
  ping_host_loop cfg count w with Z_lt_dec count (retries cfg) := {
    | right _ => (Ok false, w)
    | left _ with ping_round cfg count w := {
        | (Ok failed_attempts, w') =>
            if failed_attempts <=? attempts cfg then (Ok true, w')
            else ping_host_loop cfg (count + 1) w'
        | (Except e, w') => (Except e, w') } }.
Proof. lia. Qed.

Definition ping_host (cfg : config) : M bool := ping_host_loop cfg 0.

(** *** [num_reboots_24h] *)

(** The body of the [try] for one line: the new [dt_lst], or the
    exception raised. *)
Definition try_line (line : string) (dt_lst : list datetime)
  : result (list datetime) :=
  match split "|" line with
  | [dt; rest] =>                       (* dt, rest = line.split('|') *)
      if negb (find rest log_msg =? -1) then
        match split "," dt with         (* dt, *_ = dt.split(',') *)
        | dt :: _ =>
            match split "." dt with     (* dt, *_ = dt.split('.') *)
            | dt :: _ =>
                match strptime dt with
                | Some d => Ok (dt_lst ++ [d])%list
                | None => Except ValueError
                end
            | [] => Except ValueError
            end
        | [] => Except ValueError
        end
      else Ok dt_lst
  | _ => Except ValueError              (* wrong number of values *)
  end.

(** The [for line in lines] loop; [except Exception: continue]. *)
Fixpoint scan_lines (lines : list string) (dt_lst : list datetime)
  : list datetime :=
  match lines with
  | [] => dt_lst
  | line :: lines' =>
      match try_line line dt_lst with
      | Ok dt_lst' => scan_lines lines' dt_lst'
      | Except _ => scan_lines lines' dt_lst
      end
  end.

(** The [for log_date in dt_lst] loop. *)
Fixpoint count_after (yesterday : datetime) (dt_lst : list datetime)
  (count : Z) : Z :=
  match dt_lst with
  | [] => count
  | log_date :: dt_lst' =>
      count_after yesterday dt_lst'
        (if gt log_date yesterday then count + 1 else count)
  end.

Definition num_reboots_24h (cfg : config) : M Z :=
  lines <- open_readlines (log_file cfg) ;;
  let dt_lst := scan_lines lines [] in
  today <- datetime_today ;;
  match minus_24h today with
  | Some yesterday => ret (count_after yesterday dt_lst 0)
  | None => raise OverflowError
  end.

(** *** [MyLog.notify], [Pushover.notify], [send_reboot_cmd] *)

(** ['logger "%s"' % MyLog.log_msg] *)
Definition logger_command : string :=
  ("logger " ++ dquote ++ log_msg ++ dquote)%string.

Definition MyLog_notify : M unit :=
  fatal log_msg ;;
  if negb (nt env) then
    _ <- os_system logger_command ;;
    ret tt
  else ret tt.

(** The exchange inside the [try]: the request, the response and the
    test of its status. *)
Definition pushover_exchange (key token text : string) : M bool :=
  fun w =>
    let w' := mk_world (trace w ++ [Post key token text]) (files w) in
    match pushover env (trace w) with
    | Ok status => (Ok (status =? 200), w')
    | Except e => (Except e, w')
    end.

Definition Pushover_notify (key token : string) : M unit :=
  if (Z.of_nat (String.length key) <? 30)
     || (Z.of_nat (String.length token) <? 30) then
    debug "pushover not properly configured"
  else
    let text :=
      ("ping failed. performing reboot for " ++ gethostname env)%string in
    sent <- try_except (pushover_exchange key token text) (ret false) ;;
    if negb sent then debug "failed sending pushover notification"
    else debug "push notification sent".

(** The reboot command according to the OS. *)
Definition reboot_command (cfg : config) : string :=
  if nt env then reboot_cmd_win cfg else reboot_cmd_nix cfg.

Definition send_reboot_cmd (cfg : config) : M bool :=
  let cmd := reboot_command cfg in
  result <- os_system cmd ;;
  if negb (result =? 0) then ret false else ret true.

(** *** [notify_and_reboot] and [main] *)

Definition notify_and_reboot (cfg : config) : M unit :=
  reboots <- num_reboots_24h cfg ;;
  debug ("number of reboot attemps in the last 24h: "
         ++ str_of_int reboots ++ " ")%string ;;
  if max_reboots_per_day cfg <=? reboots then
    fatal "reboot canceled. max reboots allowed in 24h reached"
  else
    MyLog_notify ;;
    Pushover_notify (pushover_user_key cfg) (pushover_api_token cfg) ;;
    sent <- send_reboot_cmd cfg ;;
    if negb sent then fatal "reboot command failed" else ret tt.

(** [config_items] of [main], the defaults of a fresh configuration
    file, for the log file and size limit [main] sets. *)
Definition config_items (log_file : string) (log_max_size : Z) : config :=
  {| host := "127.0.0.1"; attempts := 4; timeout := 2; retries := 2;
     retry_wait := 60; max_reboots_per_day := 3;
     reboot_cmd_nix := "sudo /sbin/shutdown --no-wall --reboot +2";
     reboot_cmd_win := "shutdown /r /t 120";
     pushover_user_key := ""; pushover_api_token := "";
     log_file := log_file; log_max_size := log_max_size |}.

(** [main] once the log and the configuration are set up. *)
Definition main (cfg : config) : M unit :=
  reachable <- ping_host cfg ;;
  if reachable then fatal "no reboot required"
  else notify_and_reboot cfg.

End Program.
End Watchdog.

Import PyStr DateTime Watchdog.

(** * Observations on histories *)

Module Observe.

Fixpoint count (p : event -> bool) (t : list event) : nat :=
  match t with
  | [] => 0%nat
  | e :: t' => ((if p e then 1 else 0) + count p t')%nat
  end.

(** A probe round begins with the look-up of the ping tool, the first
    thing [ping_attempts] does. *)
Definition is_round (e : event) : bool :=
  match e with
  | Which name => String.eqb name "ping"
  | _ => false
  end.

(** A probe is one run of the ping command. *)
Definition is_probe (env : environment) (cfg : config) (e : event) : bool :=
  match e with
  | System cmd => String.eqb cmd (ping_command env cfg)
  | _ => false
  end.

Definition rounds (w : world) : nat := count is_round (trace w).

Definition probes (env : environment) (cfg : config) (w : world) : nat :=
  count (is_probe env cfg) (trace w).

(** [failed_rounds env cfg n count w w']: from [w], with the loop counter
    at [count], [n] rounds in a row ran to their end, each with more than
    [attempts] failures, and left the world [w']. *)
Inductive failed_rounds (env : environment) (cfg : config)
  : nat -> Z -> world -> world -> Prop :=
| failed_none count w : failed_rounds env cfg 0 count w w
| failed_next n count w failed_attempts w1 w2 :
    ping_round env cfg count w = (Ok failed_attempts, w1) ->
    attempts cfg < failed_attempts ->
    failed_rounds env cfg n (count + 1) w1 w2 ->
    failed_rounds env cfg (S n) count w w2.

(** The events of [MyLog.notify]: the marker line sent to the log, and
    the call of the system logger. *)
Definition is_local_notification (e : event) : bool :=
  match e with
  | Fatal msg => String.eqb msg log_msg
  | System cmd => String.eqb cmd logger_command
  | _ => false
  end.

(** The request to the push service. *)
Definition is_push (e : event) : bool :=
  match e with
  | Post _ _ _ => true
  | _ => false
  end.

(** Any command handed to [os.system]; the reboot command is one. *)
Definition is_command (e : event) : bool :=
  match e with
  | System _ => true
  | _ => false
  end.

Definition is_reboot (env : environment) (cfg : config) (e : event) : bool :=
  match e with
  | System cmd => String.eqb cmd (reboot_command env cfg)
  | _ => false
  end.

(** What [num_reboots_24h] computes from the contents of the log. *)
Definition history_count (contents : string) (yesterday : datetime) : Z :=
  count_after yesterday (scan_lines (readlines contents) []) 0.

(** The events [ping_host] can cause. *)
Definition ping_event (e : event) : Prop :=
  match e with
  | Debug _ | Which _ | System _ | Sleep _ => True
  | Fatal msg => msg = "ping command not found"
  | _ => False
  end.

(** Events that leave the log file alone. *)
Definition quiet_event (e : event) : Prop :=
  match e with
  | Debug _ | Which _ | System _ | Sleep _ => True
  | _ => False
  end.

(** The events [Pushover.notify] can cause. *)
Definition push_event (e : event) : Prop :=
  match e with
  | Debug _ | Post _ _ _ => True
  | _ => False
  end.

(** The events that can follow the marker line within a cycle. *)
Definition after_marker_event (e : event) : Prop :=
  match e with
  | Debug _ | System _ | Post _ _ _ => True
  | Fatal msg => msg = "reboot command failed"
  | _ => False
  end.

(** The retry bound as the specification words it: [false] comes only
    after [retries + 1] failed rounds. *)
Definition false_after_retries_plus_one
  (env : environment) (cfg : config) (w : world) : Prop :=
  forall res w', ping_host env cfg w = (res, w') ->
    (rounds w' <= rounds w + Z.to_nat (retries cfg + 1))%nat
    /\ (res = Ok false ->
          rounds w' = (rounds w + Z.to_nat (retries cfg + 1))%nat).

End Observe.
Import Observe.

(** * The reboot history as the specification words it *)

Module History.

(** How many times the character [c] occurs in [s]. *)
Fixpoint occurrences (c : ascii) (s : string) : nat :=
match s with
| EmptyString => 0%nat
| String x rest =>
    ((if Ascii.eqb x c then 1 else 0) + occurrences c rest)%nat
end.

Definition lacks (c : ascii) (s : string) : Prop := occurrences c s = 0%nat.

(** The text [sub] occurs in [s]. *)
Definition occurs (sub s : string) : Prop :=
exists pre post, s = (pre ++ sub ++ post)%string.

(** A timestamp field without its sub-second fraction: what stands before
    its first comma or period. *)
Fixpoint strip_fraction (field : string) : string :=
match field with
| EmptyString => EmptyString
| String x rest =>
    if Ascii.eqb x "," || Ascii.eqb x "." then EmptyString
    else String x (strip_fraction rest)
end.

(** [line] records a reboot at [t] for the scan: the line holds the
    character ['|'] once, what follows it contains the marker text, and
    what stands before it, cut at its first comma or period, reads as a
    whole as [t] in the format YYYY-MM-DD HH:MM:SS.  The blank that
    ["<timestamp> | <message>"] puts before the delimiter belongs to the
    text before it: only a fraction sets it off from the seconds. *)
Definition reboot_event (line : string) (t : datetime) : Prop :=
exists timestamp message,
  line = (timestamp ++ "|" ++ message)%string
  /\ lacks "|" timestamp
  /\ lacks "|" message
  /\ occurs log_msg message
  /\ strptime (strip_fraction timestamp) = Some t.

(** The window, in microseconds. *)
Definition window : Z := 24 * 3600 * 1000000.

(** [t] is strictly later than [now] minus the window. *)
Definition in_window (now t : datetime) : Prop :=
instant now - window < instant t.

Definition counted (now : datetime) (line : string) : Prop :=
exists t, reboot_event line t /\ in_window now t.

(** [number_of P lines n]: [n] of the [lines] satisfy [P]. *)
Inductive number_of (P : string -> Prop) : list string -> Z -> Prop :=
| number_nil : number_of P [] 0
| number_in line lines n :
    P line -> number_of P lines n -> number_of P (line :: lines) (n + 1)
| number_out line lines n :
    ~ P line -> number_of P lines n -> number_of P (line :: lines) n.

(** The record of a reboot as the specification words it: the line has
    the format ["<timestamp> | <message>"], the message contains the
    marker text, and the timestamp, its sub-second fraction stripped,
    reads as [t] in the format YYYY-MM-DD HH:MM:SS. *)
Definition worded_event (line : string) (t : datetime) : Prop :=
exists timestamp message,
  line = (timestamp ++ " | " ++ message)%string
  /\ occurs log_msg message
  /\ strptime (strip_fraction timestamp) = Some t.

Definition worded_counted (now : datetime) (line : string) : Prop :=
exists t, worded_event line t /\ in_window now t.

(** The count as the specification words it: whatever the log holds, the
    number returned is the number of its lines that record a reboot
    within the window. *)
Definition counts_as_worded
  (env : environment) (cfg : config) (w : world) : Prop :=
forall contents n w',
  files w !! log_file cfg = Some contents ->
  num_reboots_24h env cfg w = (Ok n, w') ->
  number_of
    (worded_counted (now env (trace w ++ [OpenRead (log_file cfg)])))
    (readlines contents) n.

(** A line the scan passes over: with or without it the history is the
    same. *)
Definition skipped (line : string) : Prop :=
forall before after dt_lst,
  scan_lines (before ++ line :: after) dt_lst
  = scan_lines (before ++ after) dt_lst.

End History.
Import History.

(** * Scenarios *)

Module Scenario.

(** A POSIX machine whose pings all fail and whose push service cannot
    be reached; it is noon on 2021-08-12. *)
Definition env_down : environment :=
  {| nt := false;
     which := fun _ _ => true;
     system := fun _ cmd => if String.eqb cmd "true" then 0 else 1;
     now := fun _ => mk_datetime 2021 8 12 12 0 0 0;
     asctime := fun _ => "2021-08-12 12:00:00,000";
     gethostname := "box";
     pushover := fun _ => Except OSError;
     handler_file := "ping-watchdog.log" |}.

(** The same machine with a host that answers every ping. *)
Definition env_up : environment :=
  {| nt := false;
     which := fun _ _ => true;
     system := fun _ _ => 0;
     now := fun _ => mk_datetime 2021 8 12 12 0 0 0;
     asctime := fun _ => "2021-08-12 12:00:00,000";
     gethostname := "box";
     pushover := fun _ => Ok 200;
     handler_file := "ping-watchdog.log" |}.

(** A host that answers no ping until the program has slept once, and
    every ping from then on. *)
Definition env_flaky : environment :=
  {| nt := false;
     which := fun _ _ => true;
     system := fun t _ =>
       if existsb (fun e => match e with Sleep _ => true | _ => false end) t
       then 0 else 1;
     now := fun _ => mk_datetime 2021 8 12 12 0 0 0;
     asctime := fun _ => "2021-08-12 12:00:00,000";
     gethostname := "box";
     pushover := fun _ => Ok 200;
     handler_file := "ping-watchdog.log" |}.

Definition cfg_default : config := config_items "ping-watchdog.log" 2097152.

Definition cfg_no_retries : config :=
  {| host := "127.0.0.1"; attempts := 4; timeout := 2; retries := 0;
     retry_wait := 60; max_reboots_per_day := 3;
     reboot_cmd_nix := "true"; reboot_cmd_win := "true";
     pushover_user_key := ""; pushover_api_token := "";
     log_file := "ping-watchdog.log"; log_max_size := 2097152 |}.

(** Both credentials 30 characters long. *)
Definition cfg_push : config :=
  {| host := "127.0.0.1"; attempts := 4; timeout := 2; retries := 1;
     retry_wait := 0; max_reboots_per_day := 3;
     reboot_cmd_nix := "true"; reboot_cmd_win := "true";
     pushover_user_key := "uuuuuuuuuuuuuuuuuuuuuuuuuuuuuu";
     pushover_api_token := "tttttttttttttttttttttttttttttt";
     log_file := "ping-watchdog.log"; log_max_size := 2097152 |}.

(** A log with three reboot markers of the same morning. *)
Definition w_three_reboots : world :=
  mk_world []
    {[ "ping-watchdog.log" :=
         ("2021-08-12 09:00:00,123 | " ++ log_msg ++ newline
          ++ "2021-08-12 10:00:00,456 | " ++ log_msg ++ newline
          ++ "2021-08-12 11:00:00,789 | " ++ log_msg ++ newline)%string ]}.

(** A line with a second delimiter after a well-formed reboot record. *)
Definition line_two_delimiters : string :=
("2021-08-12 10:00:00,123 | " ++ log_msg ++ " | again" ++ newline)%string.

Definition line_reboot : string :=
("2021-08-12 10:00:00,123 | " ++ log_msg ++ newline)%string.

(** Noon of 2021-08-12, the time of the scenarios, and the times one hour,
    23 hours and 25 hours before it. *)
Definition noon : datetime := mk_datetime 2021 8 12 12 0 0 0.
Definition ago_1h : datetime := mk_datetime 2021 8 12 11 0 0 0.
Definition ago_23h : datetime := mk_datetime 2021 8 11 13 0 0 0.
Definition ago_25h : datetime := mk_datetime 2021 8 11 11 0 0 0.

(** A log with a reboot marker at each of the three times. *)
Definition log_three_ages : string :=
("2021-08-12 11:00:00,250 | " ++ log_msg ++ newline
 ++ "2021-08-11 13:00:00,500 | " ++ log_msg ++ newline
 ++ "2021-08-11 11:00:00,750 | " ++ log_msg ++ newline)%string.

Definition w_three_ages : world :=
mk_world [] {[ "ping-watchdog.log" := log_three_ages ]}.

Definition w_empty_log : world :=
  mk_world [] {[ "ping-watchdog.log" := EmptyString ]}.

(** The same three markers with timestamps that end with the seconds. *)
Definition log_plain_stamps : string :=
("2021-08-12 11:00:00 | " ++ log_msg ++ newline
 ++ "2021-08-11 13:00:00 | " ++ log_msg ++ newline
 ++ "2021-08-11 11:00:00 | " ++ log_msg ++ newline)%string.

Definition w_plain_stamps : world :=
mk_world [] {[ "ping-watchdog.log" := log_plain_stamps ]}.

(** A marker one hour old whose message goes on after a second
    delimiter. *)
Definition w_two_delimiters : world :=
mk_world []
  {[ "ping-watchdog.log" :=
       ("2021-08-12 11:00:00,250 | " ++ log_msg ++ " | again" ++ newline)
       %string ]}.

End Scenario.

(** * The log: its set-up and the lines written to it *)

Module MyLog.

(** The timestamp of a log record, as the default [logging.Formatter]
    writes it: [time.strftime('%Y-%m-%d %H:%M:%S', ...)], a comma and the
    milliseconds as ['%03d'].  Years have four digits. *)
Definition digit_char (k : Z) : ascii := ascii_of_N (Z.to_N (48 + k mod 10)).

Definition pad2 (n : Z) : string :=
  String (digit_char (n / 10)) (String (digit_char n) EmptyString).

Definition pad3 (n : Z) : string := String (digit_char (n / 100)) (pad2 n).

Definition pad4 (n : Z) : string := String (digit_char (n / 1000)) (pad3 n).

Definition strftime (d : datetime) : string :=
  (pad4 (year d) ++ "-" ++ pad2 (month d) ++ "-" ++ pad2 (day d) ++ " "
   ++ pad2 (hour d) ++ ":" ++ pad2 (minute d) ++ ":" ++ pad2 (second d))%string.

Definition format_asctime (d : datetime) (msecs : Z) : string :=
  (strftime d ++ "," ++ pad3 msecs)%string.

(** The line the file handler appends for a record:
    ['%(asctime)s | %(message)s'] and the line end. *)
Definition record_line (asctime msg : string) : string :=
  (asctime ++ " | " ++ msg ++ newline)%string.

Section Setup.
Variable env : environment.

(** [os.path.getsize], as a function of the decoded contents of the file. *)
Variable getsize : string -> Z.

(** [_log_setup]: the handlers; opening the [FileHandler] in mode ['a']
    creates the file when it is not there.  The open is taken to succeed:
    the directory of the log is there and can be written to. *)
Definition _log_setup : M unit := fun w =>
  match files w !! handler_file env with
  | Some _ => (Ok tt, w)
  | None =>
      (Ok tt, mk_world (trace w) (<[handler_file env := EmptyString]> (files w)))
  end.

(** [with open(self.log_file, 'w') as f: pass] *)
Definition truncate : M unit := fun w =>
  (Ok tt, mk_world (trace w) (<[handler_file env := EmptyString]> (files w))).

(** [_log_rotate] *)
Definition _log_rotate (log_max_size : Z) : M unit :=
  if 0 <? log_max_size then
    fun w =>
      match files w !! handler_file env with
      | Some contents =>
          let fsize := getsize contents in
          if log_max_size <? fsize then
            bind (debug "log file too large. trucating log file")
                 (fun _ => truncate) w
          else debug "log rotation not required" w
      | None => (Except FileNotFoundError, w)
      end
  else debug "log rotation disabled".

(** [__init__], from the point where [self.log_file] is known: it is the
    file of the handler. *)
Definition __init__ (log_max_size : Z) : M unit :=
  bind _log_setup (fun _ => _log_rotate log_max_size).

End Setup.
End MyLog.

(** * Further observations *)

Module Cycle.

(** A wait between two rounds. *)
Definition is_sleep (e : event) : bool :=
  match e with
  | Sleep _ => true
  | _ => false
  end.

(** The opening of a file for reading. *)
Definition is_read (e : event) : bool :=
  match e with
  | OpenRead _ => true
  | _ => false
  end.

(** Among the events [evs] that follow [history], the commands that the
    environment answered with a status other than 0. *)
Fixpoint failed_commands (env : environment) (history evs : list event) : Z :=
  match evs with
  | [] => 0
  | e :: evs' =>
      (match e with
       | System cmd => if system env history cmd =? 0 then 0 else 1
       | _ => 0
       end)
      + failed_commands env (history ++ [e]) evs'
  end.

(** The text of the log the handler writes to. *)
Definition log_text (env : environment) (w : world) : string :=
  default EmptyString (files w !! handler_file env).

(** Every character of [s] satisfies [p]. *)
Fixpoint string_all (p : ascii -> bool) (s : string) : bool :=
  match s with
  | EmptyString => true
  | String c rest => p c && string_all p rest
  end.

(** The characters of [strftime]: digits, hyphen, colon and space. *)
Definition clock_char (c : ascii) : bool :=
  let n := code c in
  ((48 <=? n) && (n <=? 57)) || (n =? 45) || (n =? 58) || (n =? 32).

(** What the file handler appends for the events [evs] that follow
    [history]: one line a [Fatal] record. *)
Fixpoint written (env : environment) (history evs : list event) : string :=
  match evs with
  | [] => EmptyString
  | e :: evs' =>
      ((match e with
        | Fatal msg => MyLog.record_line (asctime env history) msg
        | _ => EmptyString
        end)
       ++ written env (history ++ [e]) evs')%string
  end.

(** A computation that only appends to the log: from any world, the log
    grows by what its events write, and every other file stays as it
    was. *)
Definition appends {A : Type} (env : environment) (m : M A) : Prop :=
  forall w res w',
    m w = (res, w') ->
    exists evs,
      trace w' = trace w ++ evs
      /\ log_text env w' = (log_text env w ++ written env (trace w) evs)%string
      /\ forall path,
           path <> handler_file env -> files w' !! path = files w !! path.

(** The fatal records that are no reboot marker. *)
Definition harmless (e : event) : Prop :=
  match e with
  | Fatal msg =>
      msg = "ping command not found"
      \/ msg = "no reboot required"
      \/ msg = "reboot canceled. max reboots allowed in 24h reached"
      \/ msg = "reboot command failed"
  | _ => True
  end.

(** A text without line ends. *)
Definition one_line (body : string) : Prop := lacks CR body /\ lacks LF body.

(** The log is empty or ends with a line end. *)
Definition terminated (text : string) : Prop :=
  text = EmptyString \/ exists body, text = (body ++ newline)%string.

(** A datetime cut to whole seconds. *)
Definition seconds (d : datetime) : datetime :=
  mk_datetime (year d) (month d) (day d) (hour d) (minute d) (second d) 0.

(** The clock-time stamps of the handler are in the default format. *)
Definition default_asctime (env : environment) : Prop :=
  forall history,
    exists d msecs,
      valid d = true /\ 1000 <= year d
      /\ asctime env history = MyLog.format_asctime d msecs.

(** The events of the [for] loop of [ping_attempts] when it runs [n]
    times: each time the debug line, then the ping command. *)
Fixpoint pings (env : environment) (cfg : config) (n : nat) : list event :=
  match n with
  | O => []
  | S n' =>
      Debug ("pinging " ++ host cfg)%string
      :: System (ping_command env cfg) :: pings env cfg n'
  end.

(** The events of a round of [ping_host] that counts [failed_attempts]
    failures: the lookup of the tool, the pings and the debug line of the
    count. *)
Definition round_events
  (env : environment) (cfg : config) (failed_attempts : Z) : list event :=
  Which "ping"
  :: pings env cfg (Z.to_nat (2 * attempts cfg))
  ++ [Debug ("ping failed attempts: " ++ str_of_int failed_attempts)%string].

(** The events of the wait of [ping_host]: its debug line and the sleep. *)
Definition wait_events (cfg : config) : list event :=
  [Debug ("waiting " ++ str_of_int (retry_wait cfg)
          ++ "s for the next ping retry")%string;
   Sleep (retry_wait cfg)].

(** The event lists [rs] in order with [sep] between any two of them:
    none before the first, none after the last. *)
Definition between (sep : list event) (rs : list (list event)) : list event :=
  match rs with
  | [] => []
  | r :: rest => r ++ flat_map (fun r' => sep ++ r') rest
  end.

(** What [ping_host] and [notify_and_reboot] may do to the outside: the
    commands they may hand to [os.system], the tool they may look up, the
    wait they may take, the file they may open and the request they may
    send. *)
Definition permitted (env : environment) (cfg : config) (e : event) : Prop :=
  match e with
  | System cmd =>
      cmd = ping_command env cfg
      \/ (nt env = false /\ cmd = logger_command)
      \/ cmd = reboot_command env cfg
  | Which name => name = "ping"
  | Sleep secs => secs = retry_wait cfg /\ 0 <= secs
  | OpenRead path => path = log_file cfg
  | Post user token message =>
      user = pushover_user_key cfg /\ token = pushover_api_token cfg
      /\ (30 <= String.length user)%nat /\ (30 <= String.length token)%nat
      /\ message
         = ("ping failed. performing reboot for " ++ gethostname env)%string
  | Debug _ | Fatal _ | Today => True
  end.

(** A computation all of whose events satisfy [P]. *)
Definition confined {A : Type} (P : event -> Prop) (m : M A) : Prop :=
  forall w res w',
    m w = (res, w') -> exists evs, trace w' = trace w ++ evs /\ Forall P evs.

End Cycle.
Import Cycle.

(** * Further scenarios *)

Module Cases.

(** A machine without the ping tool. *)
Definition env_no_ping : environment :=
  {| nt := false;
     which := fun _ _ => false;
     system := fun _ _ => 0;
     now := fun _ => Scenario.noon;
     asctime := fun _ => "2021-08-12 12:00:00,000";
     gethostname := "box";
     pushover := fun _ => Ok 200;
     handler_file := "ping-watchdog.log" |}.

(** A machine whose reboot command fails, like every other command, and
    whose push service answers 201. *)
Definition env_created : environment :=
  {| nt := false;
     which := fun _ _ => true;
     system := fun _ _ => 1;
     now := fun _ => Scenario.noon;
     asctime := fun _ => "2021-08-12 12:00:00,000";
     gethostname := "box";
     pushover := fun _ => Ok 201;
     handler_file := "ping-watchdog.log" |}.


Definition cfg_no_attempts : config :=
  {| host := "127.0.0.1"; attempts := 0; timeout := 2; retries := 2;
     retry_wait := 60; max_reboots_per_day := 3;
     reboot_cmd_nix := "true"; reboot_cmd_win := "true";
     pushover_user_key := ""; pushover_api_token := "";
     log_file := "ping-watchdog.log"; log_max_size := 2097152 |}.


Definition cfg_never_reboot : config :=
  {| host := "127.0.0.1"; attempts := 4; timeout := 2; retries := 1;
     retry_wait := 60; max_reboots_per_day := 0;
     reboot_cmd_nix := "true"; reboot_cmd_win := "true";
     pushover_user_key := ""; pushover_api_token := "";
     log_file := "ping-watchdog.log"; log_max_size := 2097152 |}.

(** The configuration names a log that is not there. *)
Definition cfg_other_log : config :=
  {| host := "127.0.0.1"; attempts := 4; timeout := 2; retries := 1;
     retry_wait := 60; max_reboots_per_day := 3;
     reboot_cmd_nix := "true"; reboot_cmd_win := "true";
     pushover_user_key := ""; pushover_api_token := "";
     log_file := "/var/log/missing.log"; log_max_size := 2097152 |}.

(** File sizes for texts of one byte a character. *)
Definition size_in_characters (contents : string) : Z :=
  Z.of_nat (String.length contents).

End Cases.

(** * Properties *)

(** ** The library models on sample inputs *)

Example split_sample : split "|" "a|b|" = ["a"; "b"; ""].
Proof. reflexivity. Qed.

Example find_sample : find "hello" "lo" = 3 /\ find "hello" "xy" = -1.
Proof. split; reflexivity. Qed.

Example readlines_sample :
  readlines ("ab" ++ String CR (String LF "cd") ++ String CR "e")%string
  = [("ab" ++ newline)%string; ("cd" ++ newline)%string; "e"].
Proof. reflexivity. Qed.

Example strptime_sample :
  strptime "2021-08-12 10:00:00" = Some (mk_datetime 2021 8 12 10 0 0 0)
  /\ strptime "2021-8- 2   1:2:3" = Some (mk_datetime 2021 8 2 1 2 3 0)
  /\ strptime "2021-02-30 10:00:00" = None
  /\ strptime "2021-02-20 10:00:60" = None
  /\ strptime "2021-02-20 10:00:00 " = None
  /\ strptime "2021-13-20 10:00:00" = None
  /\ strptime "0000-01-01 00:00:00" = None.
Proof. repeat split; vm_compute; reflexivity. Qed.

Example ping_command_sample :
  ping_command Scenario.env_down Scenario.cfg_default
  = "ping -c 1 -W 2 127.0.0.1 > /dev/null 2>&1".
Proof. reflexivity. Qed.

Example minus_24h_sample :
  minus_24h (mk_datetime 2024 3 1 12 0 0 5)
  = Some (mk_datetime 2024 2 29 12 0 0 5)
  /\ minus_24h (mk_datetime 2021 1 1 0 0 0 0)
     = Some (mk_datetime 2020 12 31 0 0 0 0)
  /\ minus_24h (mk_datetime 1 1 1 0 0 0 0) = None.
Proof. repeat split; reflexivity. Qed.

Section PingHost.
Variable env : environment.
Variable cfg : config.

Lemma count_app p (t1 t2 : list event) :
  count p (t1 ++ t2) = (count p t1 + count p t2)%nat.
Proof. induction t1 as [|e t1 IH]; simpl; [reflexivity | rewrite IH; lia]. Qed.

Lemma is_probe_ping_command : is_probe env cfg (System (ping_command env cfg)) = true.
Proof. simpl. apply String.eqb_refl. Qed.

(** The [for] loop always runs to its end: [n] probes, no round begun,
    between none and [n] new failures. *)
Lemma ping_loop_spec n : forall failed w,
  exists f w',
    ping_loop env cfg n failed w = (Ok f, w')
    /\ failed <= f <= failed + Z.of_nat n
    /\ rounds w' = rounds w
    /\ probes env cfg w' = (probes env cfg w + n)%nat
    /\ files w' = files w.
Proof.
  induction n as [|n IH]; intros failed w.
  - exists failed, w. simpl. unfold ret. repeat split; lia.
  - cbn [ping_loop]. unfold bind at 1. unfold debug, emit.
    unfold bind at 1. unfold os_system at 1. cbn [trace files].
    match goal with |- context [ping_loop env cfg n ?f ?w1] =>
      destruct (IH f w1) as (f' & w' & Hrun & Hf & Hr & Hp & Hfs) end.
    exists f', w'. split; [exact Hrun|].
    unfold rounds, probes in *. cbn [trace files] in *.
    rewrite !count_app in Hr, Hp. cbn [count] in Hr, Hp.
    rewrite is_probe_ping_command in Hp. cbn [is_round is_probe] in Hr, Hp.
    repeat split; try lia; try assumption.
    + destruct (negb _); lia.
    + destruct (negb _); lia.
Qed.

(** A call of [ping_attempts] begins exactly one round, whatever its
    result; when it returns, it has run [2 * attempts] probes (none for a
    negative [attempts]) and returns how many failed. *)
Lemma ping_attempts_spec w res w' :
  ping_attempts env cfg w = (res, w') ->
  rounds w' = S (rounds w)
  /\ forall f, res = Ok f ->
       Z.of_nat (probes env cfg w') =
         Z.of_nat (probes env cfg w) + Z.max 0 (2 * attempts cfg)
       /\ 0 <= f <= Z.max 0 (2 * attempts cfg).
Proof.
  unfold ping_attempts, bind at 1, is_tool. cbn [trace files].
  destruct (which env (trace w) "ping"); cbn [negb].
  - match goal with |- ping_loop env cfg ?n ?f ?w1 = _ -> _ =>
      destruct (ping_loop_spec n f w1) as (f' & w1' & Hrun & Hf & Hr & Hp & _) end.
    rewrite Hrun. intros [= <- <-].
    unfold rounds, probes in *. cbn [trace] in *.
    rewrite !count_app in Hr, Hp. cbn in Hr, Hp.
    split; [lia|]. intros f [= <-]. lia.
  - unfold bind, fatal, raise. cbn [trace files]. intros [= <- <-].
    unfold rounds. cbn [trace]. rewrite !count_app. cbn.
    split; [lia|]. intros f [=].
Qed.

(** A pass through the loop body begins at most one round; when it runs
    to its end it has begun exactly one. *)
Lemma ping_round_spec count w res w' :
  ping_round env cfg count w = (res, w') ->
  (rounds w' <= S (rounds w))%nat
  /\ forall f, res = Ok f ->
       rounds w' = S (rounds w)
       /\ Z.of_nat (probes env cfg w') =
            Z.of_nat (probes env cfg w) + Z.max 0 (2 * attempts cfg)
       /\ 0 <= f <= Z.max 0 (2 * attempts cfg).
Proof.
  unfold ping_round. unfold bind at 1.
  destruct ((if 0 <? count then _ else ret tt) w) as [[[]|e] w1] eqn:Hwait.
  - assert (Hw1 : rounds w1 = rounds w /\ probes env cfg w1 = probes env cfg w).
    { destruct (0 <? count).
      - revert Hwait. unfold bind, debug, emit, sleep. cbn [trace files].
        destruct (retry_wait cfg <? 0); unfold raise, emit; cbn [trace files].
        + intros [=].
        + intros [= <-]. unfold rounds, probes. cbn [trace].
          rewrite !count_app. cbn. lia.
      - revert Hwait. unfold ret. intros [= <-]. auto. }
    destruct Hw1 as [Hr1 Hp1].
    unfold bind at 1.
    destruct (ping_attempts env cfg w1) as [[f1|e] w2] eqn:Hpa.
    + apply ping_attempts_spec in Hpa as [Hr2 Hok].
      destruct (Hok f1 eq_refl) as [Hp2 Hf].
      unfold bind, debug, emit, ret. cbn [trace files]. intros [= <- <-].
      unfold rounds, probes in *. cbn [trace]. rewrite !count_app. cbn.
      split; [lia|]. intros f [= <-]. lia.
    + apply ping_attempts_spec in Hpa as [Hr2 _].
      intros [= <- <-]. split; [lia|]. intros f [=].
  - assert (Hr1 : rounds w1 = rounds w).
    { destruct (0 <? count).
      - revert Hwait. unfold bind, debug, emit, sleep. cbn [trace files].
        destruct (retry_wait cfg <? 0); unfold raise, emit; cbn [trace files].
        + intros [= <- <-]. unfold rounds. cbn [trace].
          rewrite !count_app. cbn. lia.
        + intros [=].
      - revert Hwait. unfold ret. intros [=]. }
    intros [= <- <-]. split; [lia|]. intros f [=].
Qed.

(** The [while] loop, one test and one pass at a time. *)
Lemma ping_host_loop_unfold count w :
  ping_host_loop env cfg count w =
    if count <? retries cfg then
      match ping_round env cfg count w with
      | (Ok failed_attempts, w') =>
          if failed_attempts <=? attempts cfg then (Ok true, w')
          else ping_host_loop env cfg (count + 1) w'
      | (Except e, w') => (Except e, w')
      end
    else (Ok false, w).
Proof.
  rewrite ping_host_loop_equation_1.
  destruct (Z_lt_dec count (retries cfg)) as [H|H]; simpl.
  - destruct (Z.ltb_spec count (retries cfg)); [|lia].
    destruct (ping_round env cfg count w) as [[f|e] w']; reflexivity.
  - destruct (Z.ltb_spec count (retries cfg)); [lia|]. reflexivity.
Qed.

Lemma failed_rounds_rounds n count w w' :
  failed_rounds env cfg n count w w' -> rounds w' = (rounds w + n)%nat.
Proof.
  induction 1 as [|n count w f w1 w2 Hround Hf _ IH]; [lia|].
  apply ping_round_spec in Hround as [_ Hok].
  destruct (Hok f eq_refl) as [Hr _]. lia.
Qed.

(** After failed rounds the loop goes on from where they left it. *)
Lemma ping_host_loop_skip n count w wn :
  failed_rounds env cfg n count w wn ->
  count + Z.of_nat n <= retries cfg ->
  ping_host_loop env cfg count w =
  ping_host_loop env cfg (count + Z.of_nat n) wn.
Proof.
  induction 1 as [count w|n count w f w1 w2 Hround Hf _ IH]; intros Hle.
  - f_equal. lia.
  - rewrite ping_host_loop_unfold.
    destruct (Z.ltb_spec count (retries cfg)); [|lia].
    rewrite Hround. destruct (Z.leb_spec f (attempts cfg)); [lia|].
    rewrite IH by lia. f_equal. lia.
Qed.

(** The loop answers [False] only from the failed rounds that use up
    the counter. *)
Lemma ping_host_loop_false n : forall count w w',
  Z.to_nat (retries cfg - count) = n ->
  ping_host_loop env cfg count w = (Ok false, w') ->
  failed_rounds env cfg n count w w'.
Proof.
  induction n as [|n IH]; intros count w w' Hn; rewrite ping_host_loop_unfold.
  - destruct (Z.ltb_spec count (retries cfg)); [lia|].
    intros [= <-]. constructor.
  - destruct (Z.ltb_spec count (retries cfg)); [|lia].
    destruct (ping_round env cfg count w) as [[f|e] w1] eqn:Hround; [|discriminate].
    destruct (Z.leb_spec f (attempts cfg)); [discriminate|].
    intros Hrest. apply IH in Hrest; [|lia].
    econstructor; eassumption.
Qed.

(** The loop answers [True] only at the end of a round within the
    threshold that follows failed rounds. *)
Lemma ping_host_loop_true n : forall count w w',
  Z.to_nat (retries cfg - count) = n ->
  ping_host_loop env cfg count w = (Ok true, w') ->
  exists k wk failed_attempts,
    failed_rounds env cfg k count w wk
    /\ count + Z.of_nat k < retries cfg
    /\ ping_round env cfg (count + Z.of_nat k) wk = (Ok failed_attempts, w')
    /\ failed_attempts <= attempts cfg.
Proof.
  induction n as [|n IH]; intros count w w' Hn; rewrite ping_host_loop_unfold.
  - destruct (Z.ltb_spec count (retries cfg)); [lia|]. discriminate.
  - destruct (Z.ltb_spec count (retries cfg)); [|lia].
    destruct (ping_round env cfg count w) as [[f|e] w1] eqn:Hround; [|discriminate].
    destruct (Z.leb_spec f (attempts cfg)).
    + intros [= <-]. exists 0%nat, w, f.
      rewrite Z.add_0_r. repeat split; try assumption. constructor.
    + intros Hrest. apply IH in Hrest as (k & wk & f' & Hk & Hlt & Hlast & Hf'); [|lia].
      exists (S k), wk, f'. repeat split; try assumption.
      * econstructor; eassumption.
      * lia.
      * rewrite <- Hlast. f_equal. lia.
Qed.

(** The loop begins no more rounds than the counter allows. *)
Lemma ping_host_loop_rounds n : forall count w res w',
  Z.to_nat (retries cfg - count) = n ->
  ping_host_loop env cfg count w = (res, w') ->
  (rounds w' <= rounds w + n)%nat.
Proof.
  induction n as [|n IH]; intros count w res w' Hn; rewrite ping_host_loop_unfold.
  - destruct (Z.ltb_spec count (retries cfg)); [lia|].
    intros [= <- <-]. lia.
  - destruct (Z.ltb_spec count (retries cfg)); [|lia].
    destruct (ping_round env cfg count w) as [[f|e] w1] eqn:Hround;
      apply ping_round_spec in Hround as [Hle _].
    + destruct (f <=? attempts cfg).
      * intros [= <- <-]. lia.
      * intros Hrest. apply IH in Hrest; lia.
    + intros [= <- <-]. lia.
Qed.

End PingHost.

(** C1, as the code has it: with [retries = r >= 0], [ping_host] begins at
    most [r] probe rounds, and when it returns [False] exactly [r] rounds
    have run, each to its end and each with more than [attempts] failed
    probes.  (The specification says [r + 1].) *)
Theorem ping_host_false_after_retries_rounds env cfg w res w' :
  0 <= retries cfg ->
  ping_host env cfg w = (res, w') ->
  (rounds w' <= rounds w + Z.to_nat (retries cfg))%nat
  /\ (res = Ok false ->
        rounds w' = (rounds w + Z.to_nat (retries cfg))%nat
        /\ failed_rounds env cfg (Z.to_nat (retries cfg)) 0 w w').
Proof.
  intros Hr Hrun. unfold ping_host in Hrun. split.
  - eapply ping_host_loop_rounds; [|exact Hrun]. f_equal. lia.
  - intros ->. apply ping_host_loop_false with (n := Z.to_nat (retries cfg)) in Hrun.
    + split; [|exact Hrun]. eapply failed_rounds_rounds; eassumption.
    + f_equal. lia.
Qed.

Lemma ping_host_false_after_retries_rounds_witness :
  0 <= retries Scenario.cfg_default
  /\ rounds (snd (ping_host Scenario.env_down Scenario.cfg_default
                            Scenario.w_empty_log)) = 2%nat.
Proof.
  split; [vm_compute; discriminate|].
  destruct (ping_host_false_after_retries_rounds
              Scenario.env_down Scenario.cfg_default Scenario.w_empty_log
              (Ok false)
              (snd (ping_host Scenario.env_down Scenario.cfg_default
                              Scenario.w_empty_log)))
    as [_ Hfalse].
  - vm_compute; discriminate.
  - vm_compute; reflexivity.
  - destruct (Hfalse eq_refl) as [Hrounds _]. exact Hrounds.
Defined.

(** C1, as the specification words it, fails on the default configuration
    ([retries = 2]) when every ping fails: [ping_host] returns [False]
    after two rounds, not three. *)
Lemma ping_host_retries_plus_one_counterexample :
  ~ false_after_retries_plus_one
      Scenario.env_down Scenario.cfg_default Scenario.w_empty_log.
Proof.
  intros H.
  destruct (H (Ok false)
              (snd (ping_host Scenario.env_down Scenario.cfg_default
                              Scenario.w_empty_log))) as [_ Hfalse].
  - vm_compute; reflexivity.
  - specialize (Hfalse eq_refl). vm_compute in Hfalse. discriminate.
Qed.

(** C2: with [retries = 0], [ping_host] returns [False] at once and leaves
    the world as it found it (no event: no round is begun, [ping_attempts]
    is not called), whatever the environment would answer to a ping; and
    [main] then does what [notify_and_reboot] does. *)
Theorem ping_host_no_retries_no_probe env cfg w :
  retries cfg = 0 ->
  ping_host env cfg w = (Ok false, w)
  /\ main env cfg w = notify_and_reboot env cfg w.
Proof.
  intros Hr.
  assert (Hhost : ping_host env cfg w = (Ok false, w)).
  { unfold ping_host. rewrite ping_host_loop_unfold, Hr. reflexivity. }
  split; [exact Hhost|].
  unfold main, bind at 1. rewrite Hhost. reflexivity.
Qed.

Lemma ping_host_no_retries_no_probe_witness :
  retries Scenario.cfg_no_retries = 0
  /\ ping_host Scenario.env_up Scenario.cfg_no_retries Scenario.w_empty_log
     = (Ok false, Scenario.w_empty_log).
Proof.
  split; [reflexivity|].
  apply (ping_host_no_retries_no_probe
           Scenario.env_up Scenario.cfg_no_retries Scenario.w_empty_log).
  reflexivity.
Defined.

(** C5: a round that runs to its end has run [2 * attempts] probes (none
    when [attempts] is negative); after [k] failed rounds, with the counter
    still below [retries], [ping_host] returns [True] in the world the
    next round leaves, so without another round, exactly when that round
    counted at most [attempts] failures; otherwise the loop goes on with
    the counter at [k + 1]. *)
Theorem ping_host_round_short_circuit env cfg w k wk failed_attempts w1 :
  failed_rounds env cfg k 0 w wk ->
  Z.of_nat k < retries cfg ->
  ping_round env cfg (Z.of_nat k) wk = (Ok failed_attempts, w1) ->
  Z.of_nat (probes env cfg w1)
    = Z.of_nat (probes env cfg wk) + Z.max 0 (2 * attempts cfg)
  /\ rounds w1 = S (rounds wk)
  /\ (failed_attempts <= attempts cfg <->
        ping_host env cfg w = (Ok true, w1))
  /\ (attempts cfg < failed_attempts ->
        ping_host env cfg w = ping_host_loop env cfg (Z.of_nat k + 1) w1).
Proof.
  intros Hfailed Hk Hround.
  destruct (ping_round_spec env cfg _ _ _ _ Hround) as [_ Hok].
  destruct (Hok _ eq_refl) as (Hr & Hp & _).
  assert (Hhost : ping_host env cfg w =
                  if failed_attempts <=? attempts cfg then (Ok true, w1)
                  else ping_host_loop env cfg (Z.of_nat k + 1) w1).
  { unfold ping_host.
    rewrite (ping_host_loop_skip env cfg k 0 w wk Hfailed) by lia.
    rewrite Z.add_0_l, ping_host_loop_unfold.
    destruct (Z.ltb_spec (Z.of_nat k) (retries cfg)); [|lia].
    rewrite Hround. reflexivity. }
  repeat split; try assumption.
  - intros Hle. rewrite Hhost.
    destruct (Z.leb_spec failed_attempts (attempts cfg)); [reflexivity|lia].
  - rewrite Hhost.
    destruct (Z.leb_spec failed_attempts (attempts cfg)); [lia|].
    intros Hlater.
    apply ping_host_loop_true
      with (n := Z.to_nat (retries cfg - (Z.of_nat k + 1))) in Hlater;
      [|reflexivity].
    destruct Hlater as (k' & wk' & f' & Hk' & _ & Hlast & _).
    apply failed_rounds_rounds in Hk'.
    apply ping_round_spec in Hlast as [_ Hok'].
    destruct (Hok' _ eq_refl) as (Hr' & _). lia.
  - intros Hgt. rewrite Hhost.
    destruct (Z.leb_spec failed_attempts (attempts cfg)); [lia|reflexivity].
Qed.

Lemma ping_host_round_short_circuit_witness :
  exists wk w1,
    failed_rounds Scenario.env_flaky Scenario.cfg_default 1 0
      Scenario.w_empty_log wk
    /\ ping_round Scenario.env_flaky Scenario.cfg_default 1 wk = (Ok 0, w1)
    /\ ping_host Scenario.env_flaky Scenario.cfg_default Scenario.w_empty_log
       = (Ok true, w1)
    /\ probes Scenario.env_flaky Scenario.cfg_default w1 = 16%nat.
Proof.
  set (wk := snd (ping_round Scenario.env_flaky Scenario.cfg_default 0
                             Scenario.w_empty_log)).
  set (w1 := snd (ping_round Scenario.env_flaky Scenario.cfg_default 1 wk)).
  assert (Hfailed : failed_rounds Scenario.env_flaky Scenario.cfg_default 1 0
                      Scenario.w_empty_log wk).
  { apply failed_next with (failed_attempts := 8) (w1 := wk).
    - vm_compute; reflexivity.
    - vm_compute; reflexivity.
    - constructor. }
  assert (Hround : ping_round Scenario.env_flaky Scenario.cfg_default
                     (Z.of_nat 1) wk = (Ok 0, w1)).
  { vm_compute; reflexivity. }
  destruct (ping_host_round_short_circuit
              Scenario.env_flaky Scenario.cfg_default Scenario.w_empty_log
              1 wk 0 w1 Hfailed ltac:(vm_compute; reflexivity) Hround)
    as (_ & _ & Hiff & _).
  exists wk, w1. split; [exact Hfailed|]. split; [exact Hround|]. split.
  - apply Hiff. vm_compute; discriminate.
  - vm_compute; reflexivity.
Defined.

(** ** The events of a cycle *)

Section Events.
Variable env : environment.
Variable cfg : config.

Lemma quiet_ping_event e : quiet_event e -> ping_event e.
Proof. destruct e; simpl; tauto. Qed.

Lemma ping_loop_trace n : forall failed w,
  exists evs,
    trace (snd (ping_loop env cfg n failed w)) = trace w ++ evs
    /\ Forall quiet_event evs.
Proof.
  induction n as [|n IH]; intros failed w.
  - exists []. simpl. rewrite app_nil_r. split; constructor.
  - cbn [ping_loop]. unfold bind at 1. unfold debug, emit.
    unfold bind at 1. unfold os_system at 1. cbn [trace files].
    match goal with |- context [ping_loop env cfg n ?f ?w1] =>
      destruct (IH f w1) as (evs & Htr & Hq) end.
    eexists (_ :: _ :: evs). rewrite Htr. cbn [trace].
    rewrite <- !app_assoc. split; [reflexivity|].
    repeat constructor. exact Hq.
Qed.

Lemma ping_attempts_trace w res w' :
  ping_attempts env cfg w = (res, w') ->
  exists evs,
    trace w' = trace w ++ evs
    /\ Forall ping_event evs
    /\ forall f, res = Ok f -> Forall quiet_event evs /\ files w' = files w.
Proof.
  unfold ping_attempts, bind at 1, is_tool. cbn [trace files].
  destruct (which env (trace w) "ping"); cbn [negb].
  - match goal with |- ping_loop env cfg ?n ?f ?w1 = _ -> _ =>
      destruct (ping_loop_trace n f w1) as (evs & Htr & Hq);
      destruct (ping_loop_spec env cfg n f w1) as (f' & w1' & Hrun & _ & _ & _ & Hfs)
    end.
    rewrite Hrun in *. intros [= <- <-]. cbn [snd trace files] in *.
    exists (Which "ping" :: evs). rewrite Htr, <- app_assoc.
    split; [reflexivity|]. split.
    + constructor; [exact I|]. eapply Forall_impl; [exact Hq|apply quiet_ping_event].
    + intros f _. split; [|exact Hfs]. constructor; [exact I|exact Hq].
  - unfold bind, fatal, raise. cbn [trace files]. intros [= <- <-].
    cbn [trace]. eexists [_; _]. rewrite <- app_assoc.
    split; [reflexivity|]. split.
    + repeat constructor.
    + intros f [=].
Qed.

Lemma ping_round_trace count w res w' :
  ping_round env cfg count w = (res, w') ->
  exists evs,
    trace w' = trace w ++ evs
    /\ Forall ping_event evs
    /\ forall f, res = Ok f -> Forall quiet_event evs /\ files w' = files w.
Proof.
  unfold ping_round. unfold bind at 1.
  destruct ((if 0 <? count then _ else ret tt) w) as [[[]|e] w1] eqn:Hwait.
  - assert (Hw1 : exists evs1, trace w1 = trace w ++ evs1
                    /\ Forall quiet_event evs1 /\ files w1 = files w).
    { destruct (0 <? count).
      - revert Hwait. unfold bind, debug, emit, sleep. cbn [trace files].
        destruct (retry_wait cfg <? 0); unfold raise, emit; cbn [trace files].
        + intros [=].
        + intros [= <-]. cbn [trace files]. eexists [_; _].
          rewrite <- app_assoc. repeat split; repeat constructor.
      - revert Hwait. unfold ret. intros [= <-]. exists [].
        rewrite app_nil_r. repeat split; constructor. }
    destruct Hw1 as (evs1 & Htr1 & Hq1 & Hfs1).
    unfold bind at 1.
    destruct (ping_attempts env cfg w1) as [[f1|e] w2] eqn:Hpa;
      apply ping_attempts_trace in Hpa as (evs2 & Htr2 & Hp2 & Hok2).
    + destruct (Hok2 f1 eq_refl) as [Hq2 Hfs2].
      unfold bind, debug, emit, ret. cbn [trace files]. intros [= <- <-].
      cbn [trace files]. eexists (evs1 ++ evs2 ++ [_]).
      rewrite Htr2, Htr1, <- !app_assoc. split; [reflexivity|].
      assert (Hq : Forall quiet_event
                     (evs1 ++ evs2 ++
                      [Debug ("ping failed attempts: " ++ str_of_int f1)%string])).
      { rewrite !Forall_app. repeat split; try assumption.
        repeat constructor. }
      split.
      * eapply Forall_impl; [exact Hq|apply quiet_ping_event].
      * intros f _. split; [exact Hq|congruence].
    + intros [= <- <-]. exists (evs1 ++ evs2).
      rewrite Htr2, Htr1, <- app_assoc. split; [reflexivity|]. split.
      * rewrite Forall_app. split; [|exact Hp2].
        eapply Forall_impl; [exact Hq1|apply quiet_ping_event].
      * intros f [=].
  - intros [= <- <-].
    destruct (0 <? count).
    + revert Hwait. unfold bind, debug, emit, sleep. cbn [trace files].
      destruct (retry_wait cfg <? 0); unfold raise, emit; cbn [trace files].
      * intros [= <- <-]. cbn [trace]. eexists [_].
        split; [reflexivity|]. split; [repeat constructor|]. intros f [=].
      * intros [=].
    + revert Hwait. unfold ret. intros [=].
Qed.

Lemma ping_host_loop_trace n : forall count w res w',
  Z.to_nat (retries cfg - count) = n ->
  ping_host_loop env cfg count w = (res, w') ->
  exists evs,
    trace w' = trace w ++ evs
    /\ Forall ping_event evs
    /\ forall b, res = Ok b -> Forall quiet_event evs /\ files w' = files w.
Proof.
  induction n as [|n IH]; intros count w res w' Hn;
    rewrite ping_host_loop_unfold.
  - destruct (Z.ltb_spec count (retries cfg)); [lia|].
    intros [= <- <-]. exists []. rewrite app_nil_r.
    repeat split; constructor.
  - destruct (Z.ltb_spec count (retries cfg)); [|lia].
    destruct (ping_round env cfg count w) as [[f|e] w1] eqn:Hround;
      apply ping_round_trace in Hround as (evs1 & Htr1 & Hp1 & Hok1).
    + destruct (Hok1 f eq_refl) as [Hq1 Hfs1].
      destruct (f <=? attempts cfg).
      * intros [= <- <-]. exists evs1. repeat split; assumption.
      * intros Hrest.
        apply IH in Hrest as (evs2 & Htr2 & Hp2 & Hok2); [|lia].
        exists (evs1 ++ evs2). rewrite Htr2, Htr1, <- app_assoc.
        split; [reflexivity|]. split.
        -- rewrite Forall_app. split; assumption.
        -- intros b Hb. destruct (Hok2 b Hb) as [Hq2 Hfs2].
           split; [|congruence]. rewrite Forall_app. split; assumption.
    + intros [= <- <-]. exists evs1.
      split; [assumption|]. split; [assumption|]. intros b [=].
Qed.

(** [ping_host] pings, waits and writes to the console; it writes to
    the log only before [sys.exit], and when it returns it has left
    every file as it was. *)
Lemma ping_host_trace w res w' :
  ping_host env cfg w = (res, w') ->
  exists evs,
    trace w' = trace w ++ evs
    /\ Forall ping_event evs
    /\ forall b, res = Ok b -> Forall quiet_event evs /\ files w' = files w.
Proof. apply ping_host_loop_trace with (n := Z.to_nat (retries cfg - 0)). reflexivity. Qed.

End Events.

Section Decision.
Variable env : environment.
Variable cfg : config.

Lemma count_none p (P : event -> Prop) evs :
  (forall e, P e -> p e = false) -> Forall P evs -> count p evs = 0%nat.
Proof.
  intros Hp. induction 1 as [|e evs He _ IH]; simpl; [reflexivity|].
  rewrite (Hp e He), IH. reflexivity.
Qed.

(** [num_reboots_24h] opens the log, then asks the time; it changes no
    file, and what it returns is [history_count] of the contents it
    found. *)
Lemma num_reboots_24h_spec w res w' :
  num_reboots_24h env cfg w = (res, w') ->
  files w' = files w
  /\ ((files w !! log_file cfg = None
       /\ res = Except FileNotFoundError
       /\ trace w' = trace w ++ [OpenRead (log_file cfg)])
      \/ exists contents,
           files w !! log_file cfg = Some contents
           /\ trace w' = trace w ++ [OpenRead (log_file cfg); Today]
           /\ res = match minus_24h
                            (now env (trace w ++ [OpenRead (log_file cfg)])) with
                    | Some yesterday => Ok (history_count contents yesterday)
                    | None => Except OverflowError
                    end).
Proof.
  unfold num_reboots_24h, bind at 1, open_readlines.
  destruct (files w !! log_file cfg) as [contents|] eqn:Hfile.
  - unfold bind, datetime_today. cbn [trace files].
    destruct (minus_24h _) as [yesterday|] eqn:Hy;
      unfold ret, raise; intros [= <- <-]; cbn [trace files];
      (split; [reflexivity|]); right; exists contents;
      rewrite <- app_assoc; repeat split; reflexivity.
  - intros [= <- <-]. cbn [trace files]. split; [reflexivity|].
    left. repeat split.
Qed.

(** [Pushover.notify] always returns: without a request when a credential
    is shorter than 30 characters, and otherwise after one request and a
    debug line, whatever the service answered and whatever exception the
    exchange raised. *)
Lemma Pushover_notify_spec key token w :
  exists evs,
    Pushover_notify env key token w
      = (Ok tt, mk_world (trace w ++ evs) (files w))
    /\ Forall push_event evs
    /\ ((String.length key < 30)%nat \/ (String.length token < 30)%nat ->
        evs = [Debug "pushover not properly configured"])
    /\ ((30 <= String.length key)%nat /\ (30 <= String.length token)%nat ->
        exists line,
          evs = [Post key token
                   ("ping failed. performing reboot for "
                    ++ gethostname env)%string;
                 Debug line]).
Proof.
  unfold Pushover_notify.
  destruct (Z.ltb_spec (Z.of_nat (String.length key)) 30) as [Hk|Hk];
    [|destruct (Z.ltb_spec (Z.of_nat (String.length token)) 30) as [Ht|Ht]];
    cbn [orb].
  1,2: exists [Debug "pushover not properly configured"];
       split; [reflexivity|]; split; [repeat constructor|];
       split; [reflexivity|]; intros [? ?]; lia.
  unfold bind, try_except, pushover_exchange.
  destruct (pushover env (trace w)) as [status|e]; cbn [trace files].
  - destruct (status =? 200); cbn [negb]; unfold debug, emit;
      cbn [trace files]; rewrite <- app_assoc;
      eexists [_; _]; (split; [reflexivity|]);
      (split; [repeat constructor|]); (split; [intros [?|?]; lia|]);
      intros _; eexists; reflexivity.
  - unfold ret. cbn [negb]. unfold debug, emit. cbn [trace files].
    rewrite <- app_assoc. eexists [_; _]. split; [reflexivity|].
    split; [repeat constructor|]. split; [intros [?|?]; lia|].
    intros _. eexists. reflexivity.
Qed.

(** The throttled branch of [notify_and_reboot]. *)
Lemma notify_and_reboot_throttled w reboots w1 :
  num_reboots_24h env cfg w = (Ok reboots, w1) ->
  max_reboots_per_day cfg <= reboots ->
  exists w2,
    notify_and_reboot env cfg w = (Ok tt, w2)
    /\ trace w2 = trace w1
         ++ [Debug ("number of reboot attemps in the last 24h: "
                    ++ str_of_int reboots ++ " ")%string;
             Fatal "reboot canceled. max reboots allowed in 24h reached"].
Proof.
  intros Hnum Hmax. unfold notify_and_reboot, bind at 1. rewrite Hnum.
  unfold bind, debug, emit. cbn [trace files].
  destruct (Z.leb_spec (max_reboots_per_day cfg) reboots); [|lia].
  unfold fatal. cbn [trace files]. eexists. split; [reflexivity|].
  cbn [trace]. rewrite <- app_assoc. reflexivity.
Qed.

(** The other branch: the marker goes to the log and to the system
    logger, the push is tried, and the reboot command is run. *)
Lemma notify_and_reboot_proceeds w reboots w1 :
  num_reboots_24h env cfg w = (Ok reboots, w1) ->
  reboots < max_reboots_per_day cfg ->
  exists push tail w2,
    notify_and_reboot env cfg w = (Ok tt, w2)
    /\ trace w2 = trace w1
         ++ [Debug ("number of reboot attemps in the last 24h: "
                    ++ str_of_int reboots ++ " ")%string;
             Fatal log_msg]
         ++ (if nt env then [] else [System logger_command])
         ++ push
         ++ [System (reboot_command env cfg)]
         ++ tail
    /\ Forall push_event push
    /\ ((String.length (pushover_user_key cfg) < 30)%nat
        \/ (String.length (pushover_api_token cfg) < 30)%nat ->
        push = [Debug "pushover not properly configured"])
    /\ ((30 <= String.length (pushover_user_key cfg))%nat
        /\ (30 <= String.length (pushover_api_token cfg))%nat ->
        exists line,
          push = [Post (pushover_user_key cfg) (pushover_api_token cfg)
                    ("ping failed. performing reboot for "
                     ++ gethostname env)%string;
                  Debug line])
    /\ (tail = [] \/ tail = [Fatal "reboot command failed"]).
Proof.
  intros Hnum Hmax. unfold notify_and_reboot, bind at 1. rewrite Hnum.
  unfold bind at 1. unfold debug at 1, emit at 1.
  destruct (Z.leb_spec (max_reboots_per_day cfg) reboots); [lia|].
  set (wd := mk_world _ (files w1)).
  assert (Hlog : exists wl, MyLog_notify env wd = (Ok tt, wl)
             /\ trace wl = trace wd ++ [Fatal log_msg]
                  ++ (if nt env then [] else [System logger_command])).
  { unfold MyLog_notify, bind at 1, fatal. cbn [trace files].
    destruct (nt env); cbn [negb].
    - eexists. split; [reflexivity|]. reflexivity.
    - unfold bind, os_system, ret. cbn [trace files].
      eexists. split; [reflexivity|]. cbn [trace].
      rewrite <- app_assoc. reflexivity. }
  destruct Hlog as (wl & Hlog & Htrl).
  unfold bind at 1. rewrite Hlog.
  destruct (Pushover_notify_spec (pushover_user_key cfg)
              (pushover_api_token cfg) wl) as (push & Hpush & Hpe & Hshort & Hlong).
  unfold bind at 1. rewrite Hpush.
  assert (Htrace : trace wl ++ push
            = trace w1
              ++ [Debug ("number of reboot attemps in the last 24h: "
                         ++ str_of_int reboots ++ " ")%string;
                  Fatal log_msg]
              ++ (if nt env then [] else [System logger_command]) ++ push).
  { rewrite Htrl. subst wd. cbn [trace]. rewrite <- !app_assoc. reflexivity. }
  unfold send_reboot_cmd, bind, os_system. cbn [trace files snd].
  destruct (system env _ (reboot_command env cfg) =? 0); cbn [negb].
  - unfold ret. exists push, []. eexists. split; [reflexivity|].
    cbn [trace]. rewrite Htrace, <- !app_assoc.
    repeat split; auto.
  - unfold fatal. cbn [trace files].
    exists push, [Fatal "reboot command failed"]. eexists.
    split; [reflexivity|]. cbn [trace]. rewrite Htrace, <- !app_assoc.
    repeat split; auto.
Qed.

Lemma notify_and_reboot_raises w e w1 :
  num_reboots_24h env cfg w = (Except e, w1) ->
  notify_and_reboot env cfg w = (Except e, w1).
Proof.
  intros Hnum. unfold notify_and_reboot, bind at 1. rewrite Hnum. reflexivity.
Qed.

(** The five ways a cycle can go, with the events of each. *)
Lemma main_cases w res w2 :
  main env cfg w = (res, w2) ->
  exists pings,
    Forall ping_event pings
    /\ ((exists e, ping_host env cfg w = (Except e, w2)
                  /\ trace w2 = trace w ++ pings)
        \/ (ping_host env cfg w
              = (Ok true, mk_world (trace w ++ pings) (files w))
            /\ Forall quiet_event pings
            /\ trace w2 = trace w ++ pings ++ [Fatal "no reboot required"])
        \/ (ping_host env cfg w
              = (Ok false, mk_world (trace w ++ pings) (files w))
            /\ Forall quiet_event pings
            /\ ((exists e history,
                   num_reboots_24h env cfg
                     (mk_world (trace w ++ pings) (files w))
                     = (Except e, w2)
                   /\ res = Except e
                   /\ trace w2 = trace w ++ pings ++ history
                   /\ (history = [OpenRead (log_file cfg)]
                       \/ history = [OpenRead (log_file cfg); Today]))
                \/ (exists reboots w1 line,
                     num_reboots_24h env cfg
                       (mk_world (trace w ++ pings) (files w))
                       = (Ok reboots, w1)
                     /\ max_reboots_per_day cfg <= reboots
                     /\ res = Ok tt
                     /\ trace w2 = trace w ++ pings
                          ++ [OpenRead (log_file cfg); Today; Debug line;
                              Fatal "reboot canceled. max reboots allowed in 24h reached"])
                \/ (exists reboots w1 line push tail,
                     num_reboots_24h env cfg
                       (mk_world (trace w ++ pings) (files w))
                       = (Ok reboots, w1)
                     /\ reboots < max_reboots_per_day cfg
                     /\ res = Ok tt
                     /\ trace w2 = trace w
                          ++ (pings ++ [OpenRead (log_file cfg); Today;
                                       Debug line])
                          ++ Fatal log_msg
                          :: ((if nt env then [] else [System logger_command])
                              ++ push
                              ++ [System (reboot_command env cfg)]
                              ++ tail)
                     /\ Forall push_event push
                     /\ ((String.length (pushover_user_key cfg) < 30)%nat
                         \/ (String.length (pushover_api_token cfg) < 30)%nat ->
                         push = [Debug "pushover not properly configured"])
                     /\ (tail = [] \/ tail = [Fatal "reboot command failed"]))))).
Proof.
  unfold main, bind at 1.
  destruct (ping_host env cfg w) as [[[]|e] w0] eqn:Hhost;
    destruct (ping_host_trace env cfg _ _ _ Hhost) as (pings & Htr0 & Hpe & Hok);
    intros Hmain; exists pings; (split; [exact Hpe|]).
  - destruct (Hok true eq_refl) as [Hq Hfs].
    right; left.
    assert (Hw0 : w0 = mk_world (trace w ++ pings) (files w)).
    { destruct w0 as [t0 f0]. cbn in *. congruence. }
    split; [congruence|]. split; [exact Hq|].
    revert Hmain. unfold fatal. intros [= <- <-]. cbn [trace].
    rewrite Htr0, <- app_assoc. reflexivity.
  - destruct (Hok false eq_refl) as [Hq Hfs].
    right; right.
    assert (Hw0 : w0 = mk_world (trace w ++ pings) (files w)).
    { destruct w0 as [t0 f0]. cbn in *. congruence. }
    split; [congruence|]. split; [exact Hq|]. rewrite <- Hw0.
    destruct (num_reboots_24h env cfg w0) as [[reboots|e] w1] eqn:Hnum.
    + destruct (num_reboots_24h_spec _ _ _ Hnum) as [_ [(_ & [=] & _)|Hread]].
      destruct Hread as (contents & _ & Htr1 & _).
      destruct (Z_lt_le_dec reboots (max_reboots_per_day cfg)) as [Hlt|Hle].
      * right; right.
        destruct (notify_and_reboot_proceeds _ _ _ Hnum Hlt)
          as (push & tail & w2' & Hrun & Htr2 & Hpush & Hshort & _ & Htail).
        rewrite Hrun in Hmain. injection Hmain as <- <-.
        eexists reboots, w1, _, push, tail.
        split; [reflexivity|]. split; [exact Hlt|]. split; [reflexivity|].
        split; [|auto].
        rewrite Htr2, Htr1, Htr0. cbn [app]. rewrite <- !app_assoc.
        reflexivity.
      * right; left.
        destruct (notify_and_reboot_throttled _ _ _ Hnum Hle)
          as (w2' & Hrun & Htr2).
        rewrite Hrun in Hmain. injection Hmain as <- <-.
        eexists reboots, w1, _.
        split; [reflexivity|]. split; [exact Hle|]. split; [reflexivity|].
        rewrite Htr2, Htr1, Htr0. rewrite <- !app_assoc. reflexivity.
    + left. rewrite (notify_and_reboot_raises _ _ _ Hnum) in Hmain.
      injection Hmain as <- <-.
      destruct (num_reboots_24h_spec _ _ _ Hnum)
        as [_ [(_ & _ & Htr1)|(contents & _ & Htr1 & _)]].
      * exists e, [OpenRead (log_file cfg)].
        split; [reflexivity|]. split; [reflexivity|].
        rewrite Htr1, Htr0, <- app_assoc. auto.
      * exists e, [OpenRead (log_file cfg); Today].
        split; [reflexivity|]. split; [reflexivity|].
        rewrite Htr1, Htr0, <- app_assoc. auto.
  - injection Hmain as <- <-. left. exists e.
    split; [reflexivity|exact Htr0].
Qed.

End Decision.

(** C3: in a cycle that judged the host unreachable, when the history
    count has reached [max_reboots_per_day] the cycle ends normally with,
    since the verdict, no marker sent to the log or to the system logger,
    no request to the push service and no command run at all; and the
    reboot command is run only after a count strictly below
    [max_reboots_per_day] was read. *)
Theorem throttled_abort_invokes_nothing env cfg w w0 res w2 :
  ping_host env cfg w = (Ok false, w0) ->
  main env cfg w = (res, w2) ->
  (forall reboots w1,
     num_reboots_24h env cfg w0 = (Ok reboots, w1) ->
     max_reboots_per_day cfg <= reboots ->
     res = Ok tt
     /\ count is_local_notification (trace w2)
        = count is_local_notification (trace w0)
     /\ count is_push (trace w2) = count is_push (trace w0)
     /\ count is_command (trace w2) = count is_command (trace w0))
  /\ ((count (is_reboot env cfg) (trace w0)
        < count (is_reboot env cfg) (trace w2))%nat ->
      exists reboots w1,
        num_reboots_24h env cfg w0 = (Ok reboots, w1)
        /\ reboots < max_reboots_per_day cfg).
Proof.
  intros Hhost Hmain. unfold main, bind at 1 in Hmain. rewrite Hhost in Hmain.
  assert (Hthrottled : forall reboots w1,
             num_reboots_24h env cfg w0 = (Ok reboots, w1) ->
             max_reboots_per_day cfg <= reboots ->
             res = Ok tt
             /\ forall p, (forall line, p (Debug line) = false) ->
                  p (OpenRead (log_file cfg)) = false -> p Today = false ->
                  p (Fatal "reboot canceled. max reboots allowed in 24h reached")
                    = false ->
                  count p (trace w2) = count p (trace w0)).
  { intros reboots w1 Hnum Hmax.
    destruct (notify_and_reboot_throttled env cfg _ _ _ Hnum Hmax)
      as (w2' & Hrun & Htr2).
    rewrite Hrun in Hmain. injection Hmain as <- <-.
    split; [reflexivity|]. intros p Hd Ho Ht Hf.
    destruct (num_reboots_24h_spec env cfg _ _ _ Hnum)
      as [_ [(_ & [=] & _)|(contents & _ & Htr1 & _)]].
    rewrite Htr2, Htr1, !count_app. cbn [count].
    rewrite Hd, Ho, Ht, Hf. lia. }
  split.
  - intros reboots w1 Hnum Hmax.
    destruct (Hthrottled reboots w1 Hnum Hmax) as [Hres Hcount].
    split; [exact Hres|]. repeat split; apply Hcount; reflexivity.
  - intros Hreboot.
    destruct (num_reboots_24h env cfg w0) as [[reboots|e] w1] eqn:Hnum.
    + destruct (Z_lt_le_dec reboots (max_reboots_per_day cfg)) as [Hlt|Hle].
      * exists reboots, w1. split; [reflexivity|exact Hlt].
      * destruct (Hthrottled reboots w1 eq_refl Hle) as [_ Hcount].
        rewrite (Hcount (is_reboot env cfg)) in Hreboot by reflexivity. lia.
    + rewrite (notify_and_reboot_raises env cfg _ _ _ Hnum) in Hmain.
      injection Hmain as <- <-.
      destruct (num_reboots_24h_spec env cfg _ _ _ Hnum)
        as [_ [(_ & _ & Htr1)|(contents & _ & Htr1 & _)]];
        rewrite Htr1, count_app in Hreboot; cbn in Hreboot; lia.
Qed.

Lemma throttled_abort_invokes_nothing_witness :
  fst (main Scenario.env_down Scenario.cfg_default Scenario.w_three_reboots)
  = Ok tt
  /\ count is_command
       (trace (snd (main Scenario.env_down Scenario.cfg_default
                         Scenario.w_three_reboots)))
     = count is_command
         (trace (snd (ping_host Scenario.env_down Scenario.cfg_default
                                Scenario.w_three_reboots))).
Proof.
  destruct (throttled_abort_invokes_nothing
              Scenario.env_down Scenario.cfg_default Scenario.w_three_reboots
              (snd (ping_host Scenario.env_down Scenario.cfg_default
                              Scenario.w_three_reboots))
              (fst (main Scenario.env_down Scenario.cfg_default
                         Scenario.w_three_reboots))
              (snd (main Scenario.env_down Scenario.cfg_default
                         Scenario.w_three_reboots)))
    as [Hthrottled _].
  - vm_compute; reflexivity.
  - vm_compute; reflexivity.
  - destruct (Hthrottled 3
                (snd (num_reboots_24h Scenario.env_down Scenario.cfg_default
                        (snd (ping_host Scenario.env_down Scenario.cfg_default
                                        Scenario.w_three_reboots)))))
      as (Hres & _ & _ & Hcmd).
    + vm_compute; reflexivity.
    + vm_compute; discriminate.
    + split; [exact Hres|exact Hcmd].
Defined.

(** C6: when the history count is below [max_reboots_per_day],
    [Pushover.notify] returns normally from any world, whatever the
    service answers and whatever the exchange raises, and
    [notify_and_reboot] returns normally with the reboot command run right
    after the events of the push (the request and its debug line, when both
    credentials have 30 characters or more). *)
Theorem push_failure_never_blocks_reboot env cfg w reboots w1 :
  num_reboots_24h env cfg w = (Ok reboots, w1) ->
  reboots < max_reboots_per_day cfg ->
  (forall wp,
     fst (Pushover_notify env (pushover_user_key cfg) (pushover_api_token cfg)
            wp) = Ok tt)
  /\ exists before push tail w2,
       notify_and_reboot env cfg w = (Ok tt, w2)
       /\ trace w2
          = before ++ push ++ [System (reboot_command env cfg)] ++ tail
       /\ Forall push_event push
       /\ ((30 <= String.length (pushover_user_key cfg))%nat
           /\ (30 <= String.length (pushover_api_token cfg))%nat ->
           exists line,
             push = [Post (pushover_user_key cfg) (pushover_api_token cfg)
                       ("ping failed. performing reboot for "
                        ++ gethostname env)%string;
                     Debug line])
       /\ (tail = [] \/ tail = [Fatal "reboot command failed"]).
Proof.
  intros Hnum Hlt. split.
  - intros wp.
    destruct (Pushover_notify_spec env (pushover_user_key cfg)
                (pushover_api_token cfg) wp) as (evs & Hrun & _).
    rewrite Hrun. reflexivity.
  - destruct (notify_and_reboot_proceeds env cfg _ _ _ Hnum Hlt)
      as (push & tail & w2 & Hrun & Htr & Hpush & _ & Hlong & Htail).
    eexists _, push, tail, w2. split; [exact Hrun|].
    split; [|auto]. rewrite Htr, !app_assoc. reflexivity.
Qed.

Lemma push_failure_never_blocks_reboot_witness :
  pushover Scenario.env_down [] = Except OSError
  /\ exists before line tail,
       trace (snd (notify_and_reboot Scenario.env_down Scenario.cfg_push
                     Scenario.w_empty_log))
       = before
         ++ [Post (pushover_user_key Scenario.cfg_push)
                  (pushover_api_token Scenario.cfg_push)
                  "ping failed. performing reboot for box";
             Debug line]
         ++ [System "true"] ++ tail.
Proof.
  split; [reflexivity|].
  destruct (push_failure_never_blocks_reboot
              Scenario.env_down Scenario.cfg_push Scenario.w_empty_log 0
              (snd (num_reboots_24h Scenario.env_down Scenario.cfg_push
                      Scenario.w_empty_log)))
    as (_ & before & push & tail & w2 & Hrun & Htr & _ & Hlong & _).
  - vm_compute; reflexivity.
  - vm_compute; reflexivity.
  - destruct Hlong as [line Hpush]; [split; vm_compute; lia|].
    exists before, line, tail. rewrite Hrun. cbn [snd].
    rewrite Htr, Hpush. reflexivity.
Defined.

(** C9: with a user key or an API token shorter than 30 characters,
    [Pushover.notify] returns after its debug line alone; then a whole
    cycle sends no request to the push service, and so does every cycle
    with the default configuration, whose credentials are empty. *)
Theorem pushover_short_credentials_no_request env :
  (forall key token w,
     (String.length key < 30)%nat \/ (String.length token < 30)%nat ->
     Pushover_notify env key token w
     = (Ok tt,
        mk_world (trace w ++ [Debug "pushover not properly configured"])
                 (files w)))
  /\ (forall cfg w res w2,
        (String.length (pushover_user_key cfg) < 30)%nat
        \/ (String.length (pushover_api_token cfg) < 30)%nat ->
        main env cfg w = (res, w2) ->
        count is_push (trace w2) = count is_push (trace w))
  /\ (forall log_file log_max_size w res w2,
        main env (config_items log_file log_max_size) w = (res, w2) ->
        count is_push (trace w2) = count is_push (trace w)).
Proof.
  assert (Hping : forall pings, Forall ping_event pings ->
                    count is_push pings = 0%nat).
  { intros pings Hpe. eapply count_none; [|exact Hpe].
    intros [] He; try reflexivity; destruct He. }
  assert (Hmain : forall cfg w res w2,
        (String.length (pushover_user_key cfg) < 30)%nat
        \/ (String.length (pushover_api_token cfg) < 30)%nat ->
        main env cfg w = (res, w2) ->
        count is_push (trace w2) = count is_push (trace w)).
  { intros cfg w res w2 Hshort Hrun.
    destruct (main_cases env cfg _ _ _ Hrun) as (pings & Hpe & Hcases).
    specialize (Hping pings Hpe).
    destruct Hcases as [(e & _ & Htr)|[(_ & _ & Htr)|(_ & _ & Hcases)]].
    - rewrite Htr, count_app. lia.
    - rewrite Htr, !count_app. cbn. lia.
    - destruct Hcases
        as [(e & history & _ & _ & Htr & Hhist)
           |[(reboots & w1 & line & _ & _ & _ & Htr)
            |(reboots & w1 & line & push & tail & _ & _ & _ & Htr & _
              & Hpush & Htail)]].
      + rewrite Htr, !count_app.
        destruct Hhist as [-> | ->]; cbn; lia.
      + rewrite Htr, !count_app. cbn. lia.
      + rewrite Htr, (Hpush Hshort).
        destruct Htail as [-> | ->]; destruct (nt env);
          rewrite !count_app; cbn [count app];
          rewrite ?count_app; cbn; lia. }
  split; [|split].
  - intros key token w Hshort.
    destruct (Pushover_notify_spec env key token w) as (evs & Hrun & _ & Hev & _).
    rewrite Hrun, (Hev Hshort). reflexivity.
  - exact Hmain.
  - intros log_file log_max_size w res w2. apply Hmain. left. simpl. lia.
Qed.

Lemma pushover_short_credentials_no_request_witness :
  fst (main Scenario.env_down Scenario.cfg_default Scenario.w_empty_log)
  = Ok tt
  /\ count is_push
       (trace (snd (main Scenario.env_down Scenario.cfg_default
                         Scenario.w_empty_log))) = 0%nat.
Proof.
  split; [vm_compute; reflexivity|].
  destruct (pushover_short_credentials_no_request Scenario.env_down)
    as (_ & _ & Hdefault).
  apply (Hdefault "ping-watchdog.log" 2097152 Scenario.w_empty_log
           (fst (main Scenario.env_down Scenario.cfg_default
                      Scenario.w_empty_log))).
  vm_compute; reflexivity.
Defined.

(** ** The place of the marker line among the events of a cycle *)

Lemma marker_absent (evs pre post : list event) :
  Forall (fun e => e <> Fatal log_msg) evs ->
  evs <> pre ++ Fatal log_msg :: post.
Proof.
  intros Hall ->. rewrite Forall_app, Forall_cons in Hall.
  destruct Hall as (_ & Hm & _). apply Hm. reflexivity.
Qed.

Lemma marker_unique (before : list event) : forall after pre post,
  Forall (fun e => e <> Fatal log_msg) before ->
  Forall (fun e => e <> Fatal log_msg) after ->
  before ++ Fatal log_msg :: after = pre ++ Fatal log_msg :: post ->
  pre = before /\ post = after.
Proof.
  induction before as [|b before IH]; intros after pre post Hb Ha Heq.
  - destruct pre as [|p pre]; cbn in Heq.
    + injection Heq as <-. split; reflexivity.
    + injection Heq as <- Hrest. exfalso.
      exact (marker_absent _ _ _ Ha Hrest).
  - rewrite Forall_cons in Hb. destruct Hb as [Hb Hbefore].
    destruct pre as [|p pre]; cbn in Heq.
    + injection Heq as Hhead _. exfalso. apply Hb. exact Hhead.
    + injection Heq as <- Hrest.
      destruct (IH _ _ _ Hbefore Ha Hrest) as [-> ->]. split; reflexivity.
Qed.

Lemma ping_event_not_marker e : ping_event e -> e <> Fatal log_msg.
Proof. destruct e; simpl; intros He; try discriminate. subst. discriminate. Qed.

Lemma quiet_event_not_fatal e : quiet_event e -> forall msg, e <> Fatal msg.
Proof. destruct e; simpl; intros He; try discriminate. destruct He. Qed.

Lemma quiet_event_not_read e path : quiet_event e -> e <> OpenRead path.
Proof. destruct e; simpl; intros He; try discriminate. destruct He. Qed.

Lemma after_marker_event_not_marker e :
  after_marker_event e -> e <> Fatal log_msg.
Proof. destruct e; simpl; intros He; try discriminate. subst. discriminate. Qed.

Lemma after_marker_event_not_read e path :
  after_marker_event e -> e <> OpenRead path.
Proof. destruct e; simpl; intros He; try discriminate. destruct He. Qed.

Lemma push_after_marker_event e : push_event e -> after_marker_event e.
Proof. destruct e; simpl; tauto. Qed.

(** C8: among the events of a cycle, a marker line sent to the log has
    the opening of the log for the history count before it, no opening of
    the log after it and nothing sent to the log before it; and the count
    the cycle obtains is the count of the contents the log had when the
    cycle began. *)
Theorem history_read_before_marker_append env cfg w res w2 :
  main env cfg w = (res, w2) ->
  (exists evs,
     trace w2 = trace w ++ evs
     /\ forall pre post,
          evs = pre ++ Fatal log_msg :: post ->
          In (OpenRead (log_file cfg)) pre
          /\ ~ In (OpenRead (log_file cfg)) post
          /\ Forall (fun e => forall msg, e <> Fatal msg) pre)
  /\ (forall w0 reboots w1,
        ping_host env cfg w = (Ok false, w0) ->
        num_reboots_24h env cfg w0 = (Ok reboots, w1) ->
        exists contents yesterday,
          files w !! log_file cfg = Some contents
          /\ minus_24h (now env (trace w0 ++ [OpenRead (log_file cfg)]))
             = Some yesterday
          /\ reboots = history_count contents yesterday).
Proof.
  intros Hmain. split.
  - destruct (main_cases env cfg _ _ _ Hmain) as (pings & Hpe & Hcases).
    assert (Hpm : Forall (fun e => e <> Fatal log_msg) pings).
    { eapply Forall_impl; [exact Hpe|]. apply ping_event_not_marker. }
    destruct Hcases as [(e & _ & Htr)|[(_ & _ & Htr)|(_ & Hq & Hcases)]].
    + exists pings. split; [exact Htr|]. intros pre post Heq.
      exfalso. exact (marker_absent _ _ _ Hpm Heq).
    + eexists. split; [exact Htr|]. intros pre post Heq. exfalso.
      refine (marker_absent _ _ _ _ Heq).
      rewrite Forall_app. split; [exact Hpm|]. repeat constructor. discriminate.
    + destruct Hcases
        as [(e & history & _ & _ & Htr & Hhist)
           |[(reboots & w1 & line & _ & _ & _ & Htr)
            |(reboots & w1 & line & push & tail & _ & _ & _ & Htr & Hpush
              & _ & Htail)]].
      * eexists. split; [exact Htr|]. intros pre post Heq. exfalso.
        refine (marker_absent _ _ _ _ Heq).
        rewrite Forall_app. split; [exact Hpm|].
        destruct Hhist as [-> | ->]; repeat constructor; discriminate.
      * eexists. split; [exact Htr|]. intros pre post Heq. exfalso.
        refine (marker_absent _ _ _ _ Heq).
        rewrite Forall_app. split; [exact Hpm|].
        repeat constructor; discriminate.
      * eexists. split; [exact Htr|]. intros pre post Heq.
        assert (Hafter : Forall after_marker_event
                  ((if nt env then [] else [System logger_command])
                   ++ push ++ [System (reboot_command env cfg)] ++ tail)).
        { rewrite !Forall_app. repeat split.
          - destruct (nt env); repeat constructor.
          - eapply Forall_impl; [exact Hpush|]. apply push_after_marker_event.
          - repeat constructor.
          - destruct Htail as [-> | ->]; repeat constructor. }
        apply marker_unique in Heq as [-> ->].
        -- split; [|split].
           ++ apply in_or_app. right. left. reflexivity.
           ++ intros Hin. rewrite List.Forall_forall in Hafter.
              exact (after_marker_event_not_read _ _ (Hafter _ Hin) eq_refl).
           ++ rewrite Forall_app. split.
              ** eapply Forall_impl; [exact Hq|]. apply quiet_event_not_fatal.
              ** repeat constructor; discriminate.
        -- rewrite Forall_app. split; [exact Hpm|].
           repeat constructor; discriminate.
        -- eapply Forall_impl; [exact Hafter|].
           apply after_marker_event_not_marker.
  - intros w0 reboots w1 Hhost Hnum.
    destruct (ping_host_trace env cfg _ _ _ Hhost) as (pings & _ & _ & Hok).
    destruct (Hok false eq_refl) as [_ Hfs].
    destruct (num_reboots_24h_spec env cfg _ _ _ Hnum)
      as [_ [(_ & [=] & _)|(contents & Hfile & _ & Hres)]].
    destruct (minus_24h _) as [yesterday|] eqn:Hy; [|discriminate].
    injection Hres as ->. exists contents, yesterday.
    rewrite <- Hfs. repeat split; assumption.
Qed.

Lemma history_read_before_marker_append_witness :
  exists contents yesterday,
    files Scenario.w_empty_log !! log_file Scenario.cfg_default = Some contents
    /\ 0 = history_count contents yesterday
    /\ count is_local_notification
         (trace (snd (main Scenario.env_down Scenario.cfg_default
                           Scenario.w_empty_log))) = 2%nat
    /\ exists written,
         files (snd (main Scenario.env_down Scenario.cfg_default
                          Scenario.w_empty_log))
           !! log_file Scenario.cfg_default = Some written
         /\ history_count written yesterday = 1.
Proof.
  destruct (history_read_before_marker_append
              Scenario.env_down Scenario.cfg_default Scenario.w_empty_log
              (fst (main Scenario.env_down Scenario.cfg_default
                         Scenario.w_empty_log))
              (snd (main Scenario.env_down Scenario.cfg_default
                         Scenario.w_empty_log)))
    as [_ Hcount].
  - vm_compute; reflexivity.
  - destruct (Hcount
                (snd (ping_host Scenario.env_down Scenario.cfg_default
                                Scenario.w_empty_log))
                0
                (snd (num_reboots_24h Scenario.env_down Scenario.cfg_default
                        (snd (ping_host Scenario.env_down Scenario.cfg_default
                                        Scenario.w_empty_log)))))
      as (contents & yesterday & Hfile & Hy & Hzero).
    + vm_compute; reflexivity.
    + vm_compute; reflexivity.
    + exists contents, yesterday.
      split; [exact Hfile|]. split; [exact Hzero|].
      split; [vm_compute; reflexivity|].
      eexists. split; [vm_compute; reflexivity|].
      revert Hy. vm_compute. intros [= <-]. reflexivity.
Defined.


(** ** Python [str] operations against their descriptions *)

Section Strings.
Variable c : ascii.

Lemma occurrences_app (a b : string) :
  occurrences c (a ++ b)%string = (occurrences c a + occurrences c b)%nat.
Proof. induction a as [|x a IH]; simpl; [reflexivity|rewrite IH; lia]. Qed.

Lemma split_length (s : string) :
  length (split c s) = S (occurrences c s).
Proof.
  induction s as [|x s IH]; simpl; [reflexivity|].
  destruct (Ascii.eqb x c); simpl; [rewrite IH; reflexivity|].
  destruct (split c s) as [|field fields]; simpl in *; lia.
Qed.

Lemma split_lacks (s : string) : lacks c s -> split c s = [s].
Proof.
  unfold lacks. induction s as [|x s IH]; simpl; [reflexivity|].
  destruct (Ascii.eqb x c); [discriminate|]. simpl. intros Hs.
  rewrite (IH Hs). reflexivity.
Qed.

Lemma split_delimiter (a b : string) :
  lacks c a -> split c (a ++ String c b)%string = a :: split c b.
Proof.
  unfold lacks. induction a as [|x a IH]; simpl.
  - rewrite Ascii.eqb_refl. reflexivity.
  - destruct (Ascii.eqb x c); [discriminate|]. simpl. intros Ha.
    rewrite (IH Ha). reflexivity.
Qed.

Lemma split_one_field (s : string) : forall field,
  split c s = [field] -> field = s.
Proof.
  induction s as [|x s IH]; simpl; intros field.
  - intros [= <-]. reflexivity.
  - destruct (Ascii.eqb x c).
    + intros [= _ Hnil]. pose proof (split_length s) as Hlen.
      rewrite Hnil in Hlen. discriminate.
    + destruct (split c s) as [|f fs] eqn:Hs.
      * intros _. pose proof (split_length s) as Hlen.
        rewrite Hs in Hlen. discriminate.
      * intros [= <- ->]. rewrite (IH f eq_refl). reflexivity.
Qed.

(** Two fields come from a line with the delimiter once, between them. *)
Lemma split_two_fields (s : string) : forall a b,
  split c s = [a; b] ->
  s = (a ++ String c b)%string /\ lacks c a /\ lacks c b.
Proof.
  unfold lacks. induction s as [|x s IH]; simpl; intros a b.
  - discriminate.
  - destruct (Ascii.eqb x c) eqn:Hx.
    + intros [= <- Hrest]. apply Ascii.eqb_eq in Hx. subst x.
      pose proof (split_length s) as Hlen. rewrite Hrest in Hlen.
      apply split_one_field in Hrest. subst b. simpl in Hlen.
      repeat split; lia.
    + destruct (split c s) as [|f fs] eqn:Hs.
      * discriminate.
      * intros [= <- ->]. destruct (IH f b eq_refl) as (-> & Hf & Hb).
        simpl. rewrite Hx. repeat split; assumption.
Qed.

End Strings.

Lemma startswith_prefix (p s : string) :
  startswith p s = true <-> exists post, s = (p ++ post)%string.
Proof.
  revert s. induction p as [|a p IH]; intros s; simpl.
  - split; [intros _; exists s; reflexivity|reflexivity].
  - destruct s as [|b s].
    + split; [discriminate|intros [post [=]]].
    + rewrite andb_true_iff, Ascii.eqb_eq, IH. split.
      * intros [-> [post ->]]. exists post. reflexivity.
      * intros [post [= -> ->]]. split; [reflexivity|]. exists post. reflexivity.
Qed.

(** [find] answers -1 exactly when the text does not occur. *)
Lemma find_from_occurs (sub s : string) : forall i,
  0 <= i -> (find_from i sub s = -1 <-> ~ occurs sub s).
Proof.
  induction s as [|x s IH]; intros i Hi; cbn [find_from].
  - destruct (startswith sub EmptyString) eqn:Hp.
    + apply startswith_prefix in Hp as [post Hp]. split; [lia|].
      intros Hno. exfalso. apply Hno. exists EmptyString, post. exact Hp.
    + split; [|reflexivity]. intros _ [[|y pre] [post Heq]]; [|discriminate].
      simpl in Heq. assert (Hyes : startswith sub EmptyString = true).
      { apply startswith_prefix. exists post. exact Heq. }
      congruence.
  - destruct (startswith sub (String x s)) eqn:Hp.
    + apply startswith_prefix in Hp as [post Hp]. split; [lia|].
      intros Hno. exfalso. apply Hno. exists EmptyString, post. exact Hp.
    + rewrite (IH (i + 1)) by lia. split.
      * intros Hno [[|y pre] [post Heq]].
        -- simpl in Heq. assert (Hyes : startswith sub (String x s) = true).
           { apply startswith_prefix. exists post. exact Heq. }
           congruence.
        -- injection Heq as _ Heq. apply Hno. exists pre, post. exact Heq.
      * intros Hno [pre [post Heq]]. apply Hno.
        exists (String x pre), post. rewrite Heq. reflexivity.
Qed.

Lemma find_occurs (s sub : string) : find s sub = -1 <-> ~ occurs sub s.
Proof. apply find_from_occurs. lia. Qed.

Lemma find_from_found (sub s : string) : forall i,
  find_from i sub s <> -1 -> occurs sub s.
Proof.
  induction s as [|x s IH]; intros i; cbn [find_from].
  - destruct (startswith sub EmptyString) eqn:Hp; [|congruence].
    apply startswith_prefix in Hp as [post Hp]. intros _.
    exists EmptyString, post. exact Hp.
  - destruct (startswith sub (String x s)) eqn:Hp.
    + apply startswith_prefix in Hp as [post Hp]. intros _.
      exists EmptyString, post. exact Hp.
    + intros Hfound. destruct (IH _ Hfound) as (pre & post & ->).
      exists (String x pre), post. reflexivity.
Qed.

Lemma find_found (s sub : string) : find s sub <> -1 -> occurs sub s.
Proof. apply find_from_found. Qed.

(** The first field at the commas, then its first field at the periods, is
    the timestamp without its fraction. *)
Lemma split_strip_fraction (s : string) :
  exists fields1 fields2 field1,
    split "," s = field1 :: fields1
    /\ split "." field1 = strip_fraction s :: fields2.
Proof.
  induction s as [|x s (fields1 & fields2 & field1 & H1 & H2)].
  - exists [], [], EmptyString. split; reflexivity.
  - cbn [split strip_fraction]. destruct (Ascii.eqb x ",") eqn:Hc; cbn [orb].
    + exists (split "," s), [], EmptyString. split; reflexivity.
    + rewrite H1. destruct (Ascii.eqb x ".") eqn:Hp.
      * eexists fields1, _, _. split; [reflexivity|].
        cbn [split]. rewrite Hp. reflexivity.
      * eexists fields1, _, _. split; [reflexivity|].
        cbn [split]. rewrite Hp, H2. reflexivity.
Qed.

(** ** One line of the log *)

Lemma reboot_event_split (line : string) (t : datetime) :
  reboot_event line t ->
  exists timestamp message,
    split "|" line = [timestamp; message]
    /\ occurs log_msg message
    /\ strptime (strip_fraction timestamp) = Some t.
Proof.
  intros (timestamp & message & -> & Hts & Hmsg & Hocc & Hparse).
  exists timestamp, message. split; [|split; assumption].
  change (timestamp ++ "|" ++ message)%string
    with (timestamp ++ String "|" message)%string.
  rewrite split_delimiter by exact Hts.
  rewrite split_lacks by exact Hmsg. reflexivity.
Qed.

(** The [try] body appends [t] for a line that records a reboot at [t],
    and for any other line either leaves [dt_lst] alone or raises. *)
Lemma try_line_spec (line : string) (dt_lst : list datetime) :
  (exists t, reboot_event line t /\ try_line line dt_lst = Ok (dt_lst ++ [t]))
  \/ ((forall t, ~ reboot_event line t)
      /\ (try_line line dt_lst = Ok dt_lst
          \/ try_line line dt_lst = Except ValueError)).
Proof.
  unfold try_line.
  destruct (split "|" line) as [|dt [|rest [|extra more]]] eqn:Hsplit.
  1,2,4: right; split; [|right; reflexivity];
         intros t Hev; apply reboot_event_split in Hev as (ts & msg & Hs & _);
         congruence.
  destruct (split_two_fields _ _ _ _ Hsplit) as (Hline & Hdt & Hrest).
  destruct (Z.eqb_spec (find rest log_msg) (-1)) as [Hfind|Hfind]; cbn [negb].
  - right. split; [|left; reflexivity].
    intros t Hev. apply reboot_event_split in Hev as (ts & msg & Hs & Hocc & _).
    apply find_occurs in Hfind. congruence.
  - destruct (split_strip_fraction dt) as (fields1 & fields2 & field1 & H1 & H2).
    rewrite H1, H2.
    destruct (strptime (strip_fraction dt)) as [d|] eqn:Hparse.
    + left. exists d. split; [|reflexivity].
      exists dt, rest. repeat split; try assumption.
      apply find_found. exact Hfind.
    + right. split; [|right; reflexivity].
      intros t Hev. apply reboot_event_split in Hev as (ts & msg & Hs & _ & Hp).
      congruence.
Qed.

Lemma scan_lines_skip (line : string) :
  (forall dt_lst,
     try_line line dt_lst = Ok dt_lst
     \/ exists e, try_line line dt_lst = Except e) ->
  skipped line.
Proof.
  intros Hline before. induction before as [|l before IH]; intros after dt_lst.
  - cbn [app scan_lines].
    destruct (Hline dt_lst) as [-> | [e ->]]; reflexivity.
  - cbn [app scan_lines]. destruct (try_line l dt_lst); apply IH.
Qed.

Lemma not_reboot_event_skipped (line : string) :
  (forall t, ~ reboot_event line t) -> skipped line.
Proof.
  intros Hno. apply scan_lines_skip. intros dt_lst.
  destruct (try_line_spec line dt_lst) as [(t & Hev & _)|[_ [H|H]]].
  - destruct (Hno t Hev).
  - left. exact H.
  - right. exists ValueError. exact H.
Qed.

(** C7: a line without the delimiter makes the [try] body raise, and the
    handler passes over the line; a line whose text before the first
    delimiter does not read as a timestamp once its fraction is stripped
    is passed over; so is a line whose message lacks the marker text,
    whatever its timestamp; and whatever lines the log holds,
    [num_reboots_24h] returns a count once the log is there and the day
    before exists. *)
Theorem malformed_lines_skipped :
  (forall line,
     lacks "|" line ->
     (forall dt_lst, try_line line dt_lst = Except ValueError)
     /\ skipped line)
  /\ (forall timestamp message,
        lacks "|" timestamp ->
        strptime (strip_fraction timestamp) = None ->
        skipped (timestamp ++ "|" ++ message)%string)
  /\ (forall timestamp message,
        ~ occurs log_msg message ->
        skipped (timestamp ++ "|" ++ message)%string)
  /\ (forall env cfg w contents yesterday,
        files w !! log_file cfg = Some contents ->
        minus_24h (now env (trace w ++ [OpenRead (log_file cfg)]))
        = Some yesterday ->
        exists w',
          num_reboots_24h env cfg w
          = (Ok (history_count contents yesterday), w')).
Proof.
  split; [|split; [|split]].
  - intros line Hlacks.
    assert (Hraise : forall dt_lst, try_line line dt_lst = Except ValueError).
    { intros dt_lst. unfold try_line.
      rewrite (split_lacks _ _ Hlacks). reflexivity. }
    split; [exact Hraise|]. apply scan_lines_skip.
    intros dt_lst. right. exists ValueError. apply Hraise.
  - intros timestamp message Hts Hparse. apply not_reboot_event_skipped.
    intros t Hev. apply reboot_event_split in Hev as (ts & msg & Hs & _ & Hp).
    change (timestamp ++ "|" ++ message)%string
      with (timestamp ++ String "|" message)%string in Hs.
    rewrite split_delimiter in Hs by exact Hts.
    injection Hs as <- _. congruence.
  - intros timestamp message Hno. apply not_reboot_event_skipped.
    intros t (ts & msg & Heq & Hts & Hmsg & Hocc & _).
    assert (Hsplit : split "|" (timestamp ++ "|" ++ message)%string = [ts; msg]).
    { rewrite Heq.
      change (ts ++ "|" ++ msg)%string with (ts ++ String "|" msg)%string.
      rewrite split_delimiter by exact Hts.
      rewrite split_lacks by exact Hmsg. reflexivity. }
    destruct (split_two_fields _ _ _ _ Hsplit) as (Heq' & _ & _).
    pose proof (split_length "|" (timestamp ++ "|" ++ message)%string) as Hlen.
    rewrite Hsplit in Hlen. cbn [length] in Hlen.
    change (timestamp ++ "|" ++ message)%string
      with (timestamp ++ String "|" message)%string in Hlen, Hsplit.
    rewrite occurrences_app in Hlen. cbn [occurrences] in Hlen.
    rewrite Ascii.eqb_refl in Hlen.
    assert (Hts' : lacks "|" timestamp) by (unfold lacks; lia).
    assert (Hmsg' : lacks "|" message) by (unfold lacks; lia).
    rewrite split_delimiter in Hsplit by exact Hts'.
    rewrite split_lacks in Hsplit by exact Hmsg'.
    injection Hsplit as _ <-. exact (Hno Hocc).
  - intros env cfg w contents yesterday Hfile Hy.
    destruct (num_reboots_24h env cfg w) as [res w'] eqn:Hnum.
    destruct (num_reboots_24h_spec env cfg _ _ _ Hnum)
      as [_ [(Hnone & _)|(contents' & Hfile' & _ & Hres)]]; [congruence|].
    rewrite Hy in Hres. exists w'. congruence.
Qed.

Lemma malformed_lines_skipped_witness :
  lacks "|" "kernel: link is down"
  /\ scan_lines ["kernel: link is down"; Scenario.line_reboot] []
     = scan_lines [Scenario.line_reboot] [].
Proof.
  split; [reflexivity|].
  destruct malformed_lines_skipped as [Hlacking _].
  destruct (Hlacking "kernel: link is down") as [_ Hskip]; [reflexivity|].
  exact (Hskip [] [Scenario.line_reboot] []).
Defined.

(** C10: a line with the delimiter more than once makes the unpacking of
    the split raise [ValueError], and the line is passed over, whatever
    else it holds. *)
Theorem line_with_two_delimiters_skipped (line : string) :
  (1 < occurrences "|" line)%nat ->
  (forall dt_lst, try_line line dt_lst = Except ValueError)
  /\ skipped line.
Proof.
  intros Hmany.
  assert (Hraise : forall dt_lst, try_line line dt_lst = Except ValueError).
  { intros dt_lst. unfold try_line.
    pose proof (split_length "|" line) as Hlen.
    destruct (split "|" line) as [|dt [|rest [|extra more]]];
      cbn [length] in Hlen; try reflexivity; lia. }
  split; [exact Hraise|]. apply scan_lines_skip.
  intros dt_lst. right. exists ValueError. apply Hraise.
Qed.

Lemma line_with_two_delimiters_skipped_witness :
  occurs log_msg Scenario.line_two_delimiters
  /\ scan_lines [Scenario.line_reboot] []
     = [mk_datetime 2021 8 12 10 0 0 0]
  /\ scan_lines [Scenario.line_two_delimiters; Scenario.line_reboot] []
     = scan_lines [Scenario.line_reboot] [].
Proof.
  split; [|split].
  - exists "2021-08-12 10:00:00,123 | ", (" | again" ++ newline)%string.
    reflexivity.
  - vm_compute; reflexivity.
  - destruct (line_with_two_delimiters_skipped Scenario.line_two_delimiters)
      as [_ Hskip]; [vm_compute; lia|].
    exact (Hskip [] [Scenario.line_reboot] []).
Defined.

(** ** The calendar: ordinals, instants and the day before *)

Lemma days_before_year_succ y :
  days_before_year (y + 1) = days_before_year y + year_length y.
Proof.
  unfold days_before_year, year_length, is_leap.
  replace (y + 1 - 1) with y by lia.
  destruct (Z.eqb_spec (y mod 4) 0), (Z.eqb_spec (y mod 100) 0),
    (Z.eqb_spec (y mod 400) 0); cbn [negb andb orb];
    Z.div_mod_to_equations; lia.
Qed.

Lemma days_before_month_succ y m :
  1 <= m -> days_before_month y (m + 1) = days_before_month y m + days_in_month y m.
Proof.
  intros Hm. unfold days_before_month.
  replace (Z.to_nat (m + 1 - 1)) with (S (Z.to_nat (m - 1))) by lia.
  cbn [days_before_month_aux]. f_equal. f_equal. lia.
Qed.

Lemma days_in_month_pos y m : 28 <= days_in_month y m <= 31.
Proof.
  unfold days_in_month. destruct (m =? 2); [destruct (is_leap y); lia|].
  destruct (_ || _); lia.
Qed.

Lemma days_before_month_13 y : days_before_month y 13 = year_length y.
Proof.
  unfold days_before_month, year_length.
  change (Z.to_nat (13 - 1)) with 12%nat.
  cbn [days_before_month_aux]. unfold days_in_month. cbn -[is_leap].
  destruct (is_leap y); reflexivity.
Qed.

Lemma days_before_month_step y m n :
  1 <= m ->
  days_before_month y m + days_in_month y m
  <= days_before_month y (m + 1 + Z.of_nat n).
Proof.
  intros Hm. induction n as [|n IH].
  - rewrite Z.add_0_r, days_before_month_succ by lia. lia.
  - replace (m + 1 + Z.of_nat (S n)) with (m + 1 + Z.of_nat n + 1) by lia.
    rewrite days_before_month_succ by lia.
    pose proof (days_in_month_pos y (m + 1 + Z.of_nat n)). lia.
Qed.

Lemma days_before_month_lt y m m' :
  1 <= m < m' ->
  days_before_month y m + days_in_month y m <= days_before_month y m'.
Proof.
  intros Hm. replace m' with (m + 1 + Z.of_nat (Z.to_nat (m' - m - 1))) by lia.
  apply days_before_month_step. lia.
Qed.

Lemma days_before_year_step y n :
  1 <= y ->
  days_before_year y + year_length y <= days_before_year (y + 1 + Z.of_nat n).
Proof.
  intros Hy. induction n as [|n IH].
  - rewrite Z.add_0_r, days_before_year_succ. lia.
  - replace (y + 1 + Z.of_nat (S n)) with (y + 1 + Z.of_nat n + 1) by lia.
    rewrite days_before_year_succ.
    assert (365 <= year_length (y + 1 + Z.of_nat n))
      by (unfold year_length; destruct (is_leap _); lia).
    lia.
Qed.

Lemma days_before_year_lt y y' :
  1 <= y < y' ->
  days_before_year y + year_length y <= days_before_year y'.
Proof.
  intros Hy. replace y' with (y + 1 + Z.of_nat (Z.to_nat (y' - y - 1))) by lia.
  apply days_before_year_step. lia.
Qed.


Lemma ymd2ord_year_bound y m d :
  valid_date y m d ->
  days_before_year y < ymd2ord y m d <= days_before_year y + year_length y.
Proof.
  intros (Hy & Hm & Hd). unfold ymd2ord.
  assert (0 <= days_before_month y m).
  { assert (H1 : days_before_month y 1 = 0) by reflexivity.
    destruct (Z.eq_dec m 1) as [->|]; [lia|].
    pose proof (days_before_month_lt y 1 m ltac:(lia)).
    pose proof (days_in_month_pos y 1). lia. }
  assert (days_before_month y m + days_in_month y m <= year_length y).
  { rewrite <- days_before_month_13.
    apply days_before_month_lt. lia. }
  lia.
Qed.

(** The ordinal grows with the date. *)
Lemma ymd2ord_lt y m d y' m' d' :
  valid_date y m d -> valid_date y' m' d' ->
  y < y' \/ (y = y' /\ (m < m' \/ (m = m' /\ d < d'))) ->
  ymd2ord y m d < ymd2ord y' m' d'.
Proof.
  intros Ha Hb Hlt.
  pose proof (ymd2ord_year_bound _ _ _ Ha) as Hba.
  pose proof (ymd2ord_year_bound _ _ _ Hb) as Hbb.
  destruct Ha as (Hy & Hm & Hd), Hb as (Hy' & Hm' & Hd').
  destruct Hlt as [Hlt|[<- [Hlt|[<- Hlt]]]].
  - pose proof (days_before_year_lt y y' ltac:(lia)). lia.
  - pose proof (days_before_month_lt y m m' ltac:(lia)). unfold ymd2ord. lia.
  - unfold ymd2ord. lia.
Qed.


Lemma valid_fields d :
  valid d = true ->
  valid_date (year d) (month d) (day d)
  /\ 0 <= hour d <= 23 /\ 0 <= minute d <= 59 /\ 0 <= second d <= 59
  /\ 0 <= microsecond d <= 999999.
Proof.
  unfold valid, valid_date. rewrite !andb_true_iff, !Z.leb_le. lia.
Qed.

Lemma toordinal_lex a b :
  valid a = true -> valid b = true ->
  (toordinal b < toordinal a <->
   year b < year a
   \/ (year a = year b
       /\ (month b < month a \/ (month a = month b /\ day b < day a)))).
Proof.
  intros Ha Hb. apply valid_fields in Ha as [Ha _]. apply valid_fields in Hb as [Hb _].
  destruct a as [y m d ? ? ? ?], b as [y' m' d' ? ? ? ?].
  unfold toordinal. cbn [year month day] in *. split.
  - intros Hlt.
    destruct (Z.lt_trichotomy y y') as [H|[H|H]]; [| |lia].
    + pose proof (ymd2ord_lt _ _ _ _ _ _ Ha Hb (or_introl H)). lia.
    + subst y'. right. split; [reflexivity|].
      destruct (Z.lt_trichotomy m m') as [H'|[H'|H']]; [| |lia].
      * pose proof (ymd2ord_lt y m d y m' d' Ha Hb ltac:(lia)). lia.
      * subst m'. right. split; [reflexivity|]. unfold ymd2ord in Hlt. lia.
  - intros Hlt. apply ymd2ord_lt; try assumption. lia.
Qed.

Lemma gt_instant a b :
  valid a = true -> valid b = true ->
  (gt a b = true <-> instant b < instant a).
Proof.
  intros Ha Hb. pose proof (toordinal_lex a b Ha Hb) as Hord.
  pose proof (toordinal_lex b a Hb Ha) as Hord'.
  apply valid_fields in Ha as (_ & Hh & Hm & Hs & Hu).
  apply valid_fields in Hb as (_ & Hh' & Hm' & Hs' & Hu').
  unfold gt, fields, lex_gt, instant.
  rewrite !orb_true_iff, !andb_true_iff, !orb_true_iff, !Z.ltb_lt, !Z.eqb_eq.
  lia.
Qed.

Lemma minus_24h_toordinal now y :
  valid now = true -> minus_24h now = Some y ->
  valid y = true
  /\ toordinal y = toordinal now - 1
  /\ hour y = hour now /\ minute y = minute now /\ second y = second now
  /\ microsecond y = microsecond now.
Proof.
  intros Hv. pose proof Hv as Hv'. apply valid_fields in Hv' as ((Hy & Hm & Hd) & Hh & Hmi & Hs & Hu).
  unfold minus_24h.
  destruct (Z.ltb_spec 1 (day now)) as [Hday|Hday];
    [|destruct (Z.ltb_spec 1 (month now)) as [Hmon|Hmon];
      [|destruct (Z.ltb_spec 1 (year now)) as [Hyr|Hyr]]];
    intros [= <-]; cbn [year month day hour minute second microsecond];
    unfold toordinal, valid; cbn [year month day hour minute second microsecond].
  - split; [|unfold ymd2ord; lia].
    unfold valid in Hv. rewrite !andb_true_iff, !Z.leb_le in *. lia.
  - pose proof (days_in_month_pos (year now) (month now - 1)) as Hdim.
    split.
    + unfold valid in Hv. rewrite !andb_true_iff, !Z.leb_le in *. lia.
    + unfold ymd2ord.
      pose proof (days_before_month_succ (year now) (month now - 1) ltac:(lia)) as Hsucc.
      replace (month now - 1 + 1) with (month now) in Hsucc by lia.
      repeat split; lia.
  - assert (Hm1 : month now = 1) by lia. assert (Hd1 : day now = 1) by lia.
    split.
    + unfold valid in Hv. rewrite !andb_true_iff, !Z.leb_le in *.
      assert (days_in_month (year now - 1) 12 = 31) by reflexivity. lia.
    + unfold ymd2ord. rewrite Hm1, Hd1.
      pose proof (days_before_year_succ (year now - 1)) as Hsucc.
      replace (year now - 1 + 1) with (year now) in Hsucc by lia.
      pose proof (days_before_month_13 (year now - 1)) as H13.
      pose proof (days_before_month_succ (year now - 1) 12 ltac:(lia)) as H12.
      change (12 + 1) with 13 in H12.
      assert (days_in_month (year now - 1) 12 = 31) by reflexivity.
      assert (days_before_month (year now) 1 = 0) by reflexivity.
      repeat split; lia.
Qed.

Lemma minus_24h_instant now y :
  valid now = true -> minus_24h now = Some y ->
  valid y = true /\ instant y = instant now - window.
Proof.
  intros Hv Hy.
  destruct (minus_24h_toordinal _ _ Hv Hy) as (Hvy & Hord & Hh & Hm & Hs & Hu).
  split; [exact Hvy|]. unfold instant, window. rewrite Hord, Hh, Hm, Hs, Hu. lia.
Qed.

Lemma minus_24h_defined now :
  valid now = true -> 1 < toordinal now -> exists y, minus_24h now = Some y.
Proof.
  intros Hv Hord. unfold minus_24h.
  destruct (Z.ltb_spec 1 (day now)); [eexists; reflexivity|].
  destruct (Z.ltb_spec 1 (month now)); [eexists; reflexivity|].
  destruct (Z.ltb_spec 1 (year now)); [eexists; reflexivity|].
  apply valid_fields in Hv as ((Hy & Hm & Hd) & _).
  exfalso. unfold toordinal in Hord.
  replace (year now) with 1 in Hord by lia.
  replace (month now) with 1 in Hord by lia.
  replace (day now) with 1 in Hord by lia.
  vm_compute in Hord. discriminate.
Qed.

(** ** The count of the window *)

Lemma strptime_valid (s : string) (t : datetime) :
  strptime s = Some t -> valid t = true.
Proof.
  unfold strptime. destruct (format_regex s) as [|[d [|x rest]] more];
    try discriminate.
  destruct (valid d) eqn:Hv; [|discriminate]. intros [= <-]. exact Hv.
Qed.

Lemma reboot_event_valid (line : string) (t : datetime) :
  reboot_event line t -> valid t = true.
Proof.
  intros (ts & msg & _ & _ & _ & _ & Hparse). exact (strptime_valid _ _ Hparse).
Qed.

(** A line records at most one reboot. *)
Lemma reboot_event_functional (line : string) (t t' : datetime) :
  reboot_event line t -> reboot_event line t' -> t = t'.
Proof.
  intros H H'.
  apply reboot_event_split in H as (ts & msg & Hs & _ & Hp).
  apply reboot_event_split in H' as (ts' & msg' & Hs' & _ & Hp').
  congruence.
Qed.

Lemma number_of_functional (P : string -> Prop) (lines : list string) :
  forall n m, number_of P lines n -> number_of P lines m -> n = m.
Proof.
  induction lines as [|line lines IH]; intros n m Hn Hm;
    inversion Hn; inversion Hm; subst; try reflexivity;
    try contradiction; try (f_equal; eapply IH; eassumption).
Qed.

Lemma try_line_acc (line : string) (dt_lst : list datetime) :
  try_line line dt_lst
  = match try_line line [] with
    | Ok found => Ok (dt_lst ++ found)
    | Except e => Except e
    end.
Proof.
  unfold try_line.
  destruct (split "|" line) as [|dt [|rest [|extra more]]]; try reflexivity.
  destruct (negb _); [|rewrite app_nil_r; reflexivity].
  destruct (split "," dt) as [|dt1 ?]; [reflexivity|].
  destruct (split "." dt1) as [|dt2 ?]; [reflexivity|].
  destruct (strptime dt2); reflexivity.
Qed.

Lemma scan_lines_acc (lines : list string) : forall dt_lst,
  scan_lines lines dt_lst = dt_lst ++ scan_lines lines [].
Proof.
  induction lines as [|line lines IH]; intros dt_lst; cbn [scan_lines].
  - rewrite app_nil_r. reflexivity.
  - rewrite (try_line_acc line dt_lst).
    destruct (try_line line []) as [found|e].
    + rewrite (IH (dt_lst ++ found)), (IH found), app_assoc. reflexivity.
    + apply IH.
Qed.

Lemma count_after_acc (yesterday : datetime) (dt_lst : list datetime) :
  forall count,
    count_after yesterday dt_lst count
    = count + count_after yesterday dt_lst 0.
Proof.
  induction dt_lst as [|d dt_lst IH]; intros count; cbn [count_after]; [lia|].
  rewrite (IH (if gt d yesterday then count + 1 else count)),
          (IH (if gt d yesterday then 0 + 1 else 0)).
  destruct (gt d yesterday); lia.
Qed.

(** The two loops together count the lines that record a reboot within
    the window. *)
Lemma count_after_scan_lines (today yesterday : datetime) (lines : list string) :
  valid today = true ->
  minus_24h today = Some yesterday ->
  number_of (counted today) lines
    (count_after yesterday (scan_lines lines []) 0).
Proof.
  intros Hv Hy.
  destruct (minus_24h_instant _ _ Hv Hy) as [Hvy Hinst].
  assert (Hwin : forall t, valid t = true ->
                   (gt t yesterday = true <-> in_window today t)).
  { intros t Ht. rewrite (gt_instant t yesterday Ht Hvy), Hinst.
    unfold in_window. reflexivity. }
  induction lines as [|line lines IH]; cbn [scan_lines]; [constructor|].
  destruct (try_line_spec line []) as [(t & Hev & ->)|[Hno [-> | ->]]].
  - rewrite scan_lines_acc. cbn [app count_after].
    rewrite count_after_acc.
    pose proof (Hwin t (reboot_event_valid _ _ Hev)) as Ht.
    destruct (gt t yesterday).
    + rewrite Z.add_comm. apply number_in; [|exact IH].
      exists t. split; [exact Hev|]. apply Ht. reflexivity.
    + cbn [Z.add]. apply number_out; [|exact IH].
      intros (t' & Hev' & Hin).
      rewrite (reboot_event_functional _ _ _ Hev' Hev) in Hin.
      apply Ht in Hin. discriminate.
  - apply number_out; [|exact IH]. intros (t & Hev & _). exact (Hno t Hev).
  - apply number_out; [|exact IH]. intros (t & Hev & _). exact (Hno t Hev).
Qed.

Lemma number_of_nonneg (P : string -> Prop) (lines : list string) :
  forall n, number_of P lines n -> 0 <= n.
Proof.
  induction lines as [|line lines IH]; intros n Hn; inversion Hn; subst.
  - lia.
  - match goal with H : number_of P lines _ |- _ => apply IH in H end. lia.
  - apply IH. assumption.
Qed.

(** No line that is counted leaves the number at 0. *)
Lemma number_of_counted (P : string -> Prop) line lines :
  P line -> ~ number_of P (line :: lines) 0.
Proof.
  intros Hline Hn. inversion Hn; subst.
  - match goal with H : number_of P lines _ |- _ =>
      apply number_of_nonneg in H end. lia.
  - contradiction.
Qed.

(** C4, as the specification words it, fails on a log whose lines have
    the format ["<timestamp> | <message>"] with timestamps that end with
    the seconds: of its markers, one hour, 23 hours and 25 hours old, two
    are in the window, and [num_reboots_24h] returns 0, since the blank
    before the delimiter is left to [strptime]. *)
Lemma num_reboots_24h_plain_stamps_counterexample :
  ~ counts_as_worded
      Scenario.env_down Scenario.cfg_default Scenario.w_plain_stamps.
Proof.
  intros H.
  specialize (H Scenario.log_plain_stamps 0
                (snd (num_reboots_24h Scenario.env_down Scenario.cfg_default
                        Scenario.w_plain_stamps))).
  assert (Hlines : exists lines,
            readlines Scenario.log_plain_stamps
            = ("2021-08-12 11:00:00 | " ++ log_msg ++ newline)%string :: lines).
  { eexists. vm_compute. reflexivity. }
  destruct Hlines as [lines Hlines]. rewrite Hlines in H.
  refine (number_of_counted _ _ lines _ (H _ _)).
  - exists Scenario.ago_1h. split.
    + exists "2021-08-12 11:00:00", (log_msg ++ newline)%string.
      split; [reflexivity|]. split.
      * exists EmptyString, newline. reflexivity.
      * vm_compute; reflexivity.
    + vm_compute; reflexivity.
  - vm_compute; reflexivity.
  - vm_compute; reflexivity.
Qed.

(** It fails as well on a marker line of the file handler's format whose
    message holds the delimiter: the line is in the window as the
    specification words it, and [num_reboots_24h] returns 0. *)
Lemma num_reboots_24h_second_delimiter_uncounted :
  ~ counts_as_worded
      Scenario.env_down Scenario.cfg_default Scenario.w_two_delimiters.
Proof.
  intros H.
  specialize (H ("2021-08-12 11:00:00,250 | " ++ log_msg ++ " | again"
                 ++ newline)%string
                0
                (snd (num_reboots_24h Scenario.env_down Scenario.cfg_default
                        Scenario.w_two_delimiters))).
  assert (Hlines :
            readlines ("2021-08-12 11:00:00,250 | " ++ log_msg ++ " | again"
                       ++ newline)%string
            = [("2021-08-12 11:00:00,250 | " ++ log_msg ++ " | again"
                ++ newline)%string]).
  { vm_compute. reflexivity. }
  rewrite Hlines in H.
  refine (number_of_counted _ _ [] _ (H _ _)).
  - exists Scenario.ago_1h. split.
    + exists "2021-08-12 11:00:00,250",
             (log_msg ++ " | again" ++ newline)%string.
      split; [reflexivity|]. split.
      * exists EmptyString, (" | again" ++ newline)%string. reflexivity.
      * vm_compute; reflexivity.
    + vm_compute; reflexivity.
  - vm_compute; reflexivity.
  - vm_compute; reflexivity.
Qed.

(** C4, amended: when the log is there and the clock shows a date after
    0001-01-01, [num_reboots_24h] returns the number of the lines of the
    log that hold the delimiter once, whose text after it contains the
    marker text and whose text before it, cut at its first comma or
    period, reads as a whole in the format YYYY-MM-DD HH:MM:SS as a time
    strictly later than the clock's time minus 24 hours; that number is
    unique; and for a log in the format of the file handler, with
    fractions, whose markers are one hour, 23 hours and 25 hours old it
    is 2. *)
Theorem num_reboots_24h_counts_window env cfg w contents today :
  files w !! log_file cfg = Some contents ->
  now env (trace w ++ [OpenRead (log_file cfg)]) = today ->
  valid today = true ->
  1 < toordinal today ->
  (exists n w',
     num_reboots_24h env cfg w = (Ok n, w')
     /\ number_of (counted today) (readlines contents) n
     /\ forall m, number_of (counted today) (readlines contents) m -> m = n)
  /\ (instant Scenario.noon - instant Scenario.ago_1h = 3600 * 1000000
      /\ instant Scenario.noon - instant Scenario.ago_23h
         = 23 * 3600 * 1000000
      /\ instant Scenario.noon - instant Scenario.ago_25h
         = 25 * 3600 * 1000000
      /\ scan_lines (readlines Scenario.log_three_ages) []
         = [Scenario.ago_1h; Scenario.ago_23h; Scenario.ago_25h]
      /\ fst (num_reboots_24h Scenario.env_down Scenario.cfg_default
                Scenario.w_three_ages) = Ok 2).
Proof.
  intros Hfile Hnow Hv Hord. split.
  - destruct (minus_24h_defined _ Hv Hord) as [yesterday Hy].
    destruct (num_reboots_24h env cfg w) as [res w'] eqn:Hnum.
    destruct (num_reboots_24h_spec env cfg _ _ _ Hnum)
      as [_ [(Hnone & _)|(contents' & Hfile' & _ & Hres)]]; [congruence|].
    rewrite Hnow, Hy in Hres. subst res.
    assert (contents' = contents) by congruence. subst contents'.
    pose proof (count_after_scan_lines today yesterday (readlines contents)
                  Hv Hy) as Hcount.
    exists (history_count contents yesterday), w'.
    split; [reflexivity|]. split; [exact Hcount|].
    intros m Hm. exact (number_of_functional _ _ _ _ Hm Hcount).
  - repeat split; vm_compute; reflexivity.
Qed.

Lemma num_reboots_24h_counts_window_witness :
  exists n,
    fst (num_reboots_24h Scenario.env_down Scenario.cfg_default
           Scenario.w_three_ages) = Ok n
    /\ number_of (counted Scenario.noon)
         (readlines Scenario.log_three_ages) n.
Proof.
  destruct (num_reboots_24h_counts_window
              Scenario.env_down Scenario.cfg_default Scenario.w_three_ages
              Scenario.log_three_ages Scenario.noon)
    as [(n & w' & Hrun & Hcount & _) _].
  - vm_compute; reflexivity.
  - reflexivity.
  - vm_compute; reflexivity.
  - vm_compute; reflexivity.
  - exists n. rewrite Hrun. split; [reflexivity|exact Hcount].
Defined.

(** * Further properties of the probe rounds *)

Section Rounds.
Variable env : environment.
Variable cfg : config.

Lemma ping_loop_failed_commands n : forall failed w,
  exists evs,
    ping_loop env cfg n failed w
    = (Ok (failed + failed_commands env (trace w) evs),
       mk_world (trace w ++ evs) (files w))
    /\ Forall (fun e => e = Debug ("pinging " ++ host cfg)%string
                        \/ e = System (ping_command env cfg)) evs
    /\ count is_sleep evs = 0%nat
    /\ count is_command evs = n.
Proof.
  induction n as [|n IH]; intros failed w.
  - exists []. cbn [ping_loop failed_commands]. unfold ret.
    rewrite app_nil_r, Z.add_0_r. destruct w. repeat split. constructor.
  - cbn [ping_loop]. unfold bind at 1. unfold debug, emit.
    unfold bind at 1. unfold os_system at 1. cbn [trace files].
    match goal with |- context [ping_loop env cfg n ?f ?w1] =>
      destruct (IH f w1) as (evs & Hrun & Hall & Hsleep & Hcmd) end.
    exists (Debug ("pinging " ++ host cfg)%string
            :: System (ping_command env cfg) :: evs).
    rewrite Hrun. cbn [trace files failed_commands].
    rewrite <- !app_assoc. cbn [app]. split.
    + f_equal. f_equal.
      destruct (system env _ (ping_command env cfg) =? 0); cbn [negb]; lia.
    + split.
      * constructor; [left; reflexivity|].
        constructor; [right; reflexivity|]. exact Hall.
      * cbn [count is_sleep is_command]. split; lia.
Qed.

Lemma ping_loop_pings n : forall failed w,
  ping_loop env cfg n failed w
  = (Ok (failed + failed_commands env (trace w) (pings env cfg n)),
     mk_world (trace w ++ pings env cfg n) (files w)).
Proof.
  induction n as [|n IH]; intros failed w.
  - cbn [ping_loop pings failed_commands]. unfold ret.
    rewrite app_nil_r, Z.add_0_r. destruct w. reflexivity.
  - cbn [ping_loop pings]. unfold bind at 1. unfold debug, emit.
    unfold bind at 1. unfold os_system at 1. cbn [trace files].
    rewrite IH. cbn [trace files failed_commands].
    rewrite <- !app_assoc. cbn [app]. f_equal. f_equal.
    destruct (system env _ (ping_command env cfg) =? 0); cbn [negb]; lia.
Qed.

(** X1: when [ping_attempts] returns, it has looked the tool up and then
    run the loop [2 * attempts] times, each time the debug line and then
    the ping command, and nothing else; the number it returns is the
    number of those commands that the environment answered with a status
    other than 0; no file is changed. *)
Theorem ping_attempts_counts_failed_pings w failed_attempts w' :
  ping_attempts env cfg w = (Ok failed_attempts, w') ->
  trace w'
  = trace w ++ Which "ping" :: pings env cfg (Z.to_nat (2 * attempts cfg))
  /\ failed_attempts
     = failed_commands env (trace w ++ [Which "ping"])
         (pings env cfg (Z.to_nat (2 * attempts cfg)))
  /\ files w' = files w.
Proof.
  unfold ping_attempts, bind at 1, is_tool. cbn [trace files].
  destruct (which env (trace w) "ping"); cbn [negb].
  - rewrite ping_loop_pings. intros [= <- <-]. cbn [trace files].
    rewrite <- app_assoc. repeat split.
  - unfold bind, fatal, raise. cbn [trace files]. intros [=].
Qed.

End Rounds.

Lemma ping_attempts_counts_failed_pings_witness :
  trace (snd (ping_attempts Scenario.env_down Scenario.cfg_default
                Scenario.w_empty_log))
  = Which "ping" :: pings Scenario.env_down Scenario.cfg_default 8
  /\ failed_commands Scenario.env_down [Which "ping"]
       (pings Scenario.env_down Scenario.cfg_default 8) = 8.
Proof.
  destruct (ping_attempts_counts_failed_pings
              Scenario.env_down Scenario.cfg_default Scenario.w_empty_log 8
              (snd (ping_attempts Scenario.env_down Scenario.cfg_default
                      Scenario.w_empty_log)))
    as (Htrace & Hfailed & _).
  - vm_compute; reflexivity.
  - split; [exact Htrace|symmetry; exact Hfailed].
Defined.

Section Verdict.
Variable env : environment.
Variable cfg : config.


Lemma failed_commands_none evs : forall history,
  (forall t, system env t (ping_command env cfg) = 0) ->
  Forall (fun e => e = Debug ("pinging " ++ host cfg)%string
                   \/ e = System (ping_command env cfg)) evs ->
  failed_commands env history evs = 0.
Proof.
  induction evs as [|e evs IH]; intros history Hsys Hall; [reflexivity|].
  rewrite Forall_cons in Hall. destruct Hall as [He Hall].
  cbn [failed_commands]. rewrite (IH _ Hsys Hall).
  destruct He as [-> | ->]; [reflexivity|]. rewrite Hsys. reflexivity.
Qed.




End Verdict.



(** X3: with the ping tool on the path, a non-negative [attempts], at
    least one round allowed and every ping answered with status 0,
    [ping_host] returns [True] after a single round of [2 * attempts]
    pings, without any wait. *)
Theorem ping_host_reachable env cfg w :
  (forall t, which env t "ping" = true) ->
  (forall t, system env t (ping_command env cfg) = 0) ->
  0 <= attempts cfg ->
  1 <= retries cfg ->
  exists w',
    ping_host env cfg w = (Ok true, w')
    /\ rounds w' = S (rounds w)
    /\ Z.of_nat (probes env cfg w')
       = Z.of_nat (probes env cfg w) + 2 * attempts cfg
    /\ count is_sleep (trace w') = count is_sleep (trace w)
    /\ files w' = files w.
Proof.
  intros Htool Hsys Hatt Hret.
  unfold ping_host. rewrite ping_host_loop_unfold.
  destruct (Z.ltb_spec 0 (retries cfg)); [|lia].
  assert (Hround : exists evs,
            ping_round env cfg 0 w
            = (Ok (failed_commands env (trace w ++ [Which "ping"]) evs),
               mk_world (trace w ++ Which "ping" :: evs
                         ++ [Debug ("ping failed attempts: "
                                    ++ str_of_int
                                         (failed_commands env
                                            (trace w ++ [Which "ping"]) evs))
                                   %string])
                        (files w))
            /\ Forall (fun e => e = Debug ("pinging " ++ host cfg)%string
                                \/ e = System (ping_command env cfg)) evs
            /\ count is_sleep evs = 0%nat).
  { unfold ping_round. cbn [Z.ltb Z.compare]. unfold bind at 1, ret.
    unfold bind at 1. unfold ping_attempts, bind at 1, is_tool.
    rewrite Htool. cbn [negb trace files].
    match goal with |- context [ping_loop env cfg ?n ?f ?w1] =>
      destruct (ping_loop_failed_commands env cfg n f w1)
        as (evs & Hrun & Hall & Hsleep & _) end.
    rewrite Hrun. unfold bind, debug, emit, ret. cbn [trace files].
    exists evs. rewrite Z.add_0_l, <- !app_assoc. cbn [app].
    repeat split; assumption. }
  destruct Hround as (evs & Hrun & Hall & Hsleep).
  rewrite (failed_commands_none env cfg evs _ Hsys Hall) in Hrun.
  pose proof (ping_round_spec env cfg _ _ _ _ Hrun) as [_ Hok].
  destruct (Hok _ eq_refl) as (Hr & Hp & _).
  rewrite Hrun.
  destruct (Z.leb_spec 0 (attempts cfg)); [|lia].
  eexists. split; [reflexivity|].
  split; [exact Hr|]. split; [lia|]. split; [|reflexivity].
  cbn [trace]. rewrite !count_app. cbn [count is_sleep].
  rewrite count_app, Hsleep. cbn. lia.
Qed.

Lemma ping_host_reachable_witness :
  exists w',
    ping_host Scenario.env_up Scenario.cfg_default Scenario.w_empty_log
    = (Ok true, w')
    /\ rounds w' = 1%nat.
Proof.
  destruct (ping_host_reachable Scenario.env_up Scenario.cfg_default
              Scenario.w_empty_log) as (w' & Hrun & Hrounds & _).
  - intros t. reflexivity.
  - intros t. reflexivity.
  - vm_compute; discriminate.
  - vm_compute; discriminate.
  - exists w'. split; [exact Hrun|exact Hrounds].
Defined.

(** X4: with [attempts = 0], at least one round allowed and the ping tool
    on the path, [ping_host] returns [True] after looking the tool up
    and writing one debug line: the host counts as reachable without a
    single ping, whatever the environment would answer. *)
Theorem ping_host_zero_attempts env cfg w :
  attempts cfg = 0 ->
  1 <= retries cfg ->
  which env (trace w) "ping" = true ->
  ping_host env cfg w
  = (Ok true,
     mk_world (trace w ++ [Which "ping"; Debug "ping failed attempts: 0"])
              (files w)).
Proof.
  intros Hatt Hret Htool. unfold ping_host. rewrite ping_host_loop_unfold.
  destruct (Z.ltb_spec 0 (retries cfg)); [|lia].
  unfold ping_round. cbn [Z.ltb Z.compare]. unfold bind at 1, ret.
  unfold bind at 1. unfold ping_attempts, bind at 1, is_tool.
  rewrite Htool, Hatt. cbn [negb trace files].
  change (Z.to_nat (2 * 0)) with 0%nat. cbn [ping_loop].
  unfold ret, bind, debug, emit. cbn [trace files].
  change (0 <=? 0) with true. cbv iota.
  rewrite <- app_assoc. reflexivity.
Qed.

Lemma ping_host_zero_attempts_witness :
  fst (ping_host Scenario.env_down Cases.cfg_no_attempts Scenario.w_empty_log)
  = Ok true.
Proof.
  rewrite (ping_host_zero_attempts Scenario.env_down Cases.cfg_no_attempts
             Scenario.w_empty_log).
  - reflexivity.
  - reflexivity.
  - vm_compute; discriminate.
  - reflexivity.
Defined.




(** X6: without the ping tool, a cycle that is allowed at least one round
    writes "ping command not found" to the console and the log and ends
    with [sys.exit(1)]: no ping, no look at the history, no notification
    and no reboot command. *)
Theorem main_without_ping_tool env cfg w :
  1 <= retries cfg ->
  which env (trace w) "ping" = false ->
  main env cfg w
  = (Except (SystemExit 1),
     mk_world (trace w ++ [Which "ping"; Fatal "ping command not found"])
       (<[handler_file env :=
            (log_text env w
             ++ MyLog.record_line (asctime env (trace w ++ [Which "ping"]))
                  "ping command not found")%string]> (files w))).
Proof.
  intros Hret Htool. unfold main, bind at 1, ping_host.
  rewrite ping_host_loop_unfold.
  destruct (Z.ltb_spec 0 (retries cfg)); [|lia].
  unfold ping_round. cbn [Z.ltb Z.compare]. unfold bind at 1, ret.
  unfold bind at 1. unfold ping_attempts, bind at 1, is_tool.
  rewrite Htool. cbn [negb trace files].
  unfold bind, fatal, raise. cbn [trace files].
  rewrite <- app_assoc. reflexivity.
Qed.

Lemma main_without_ping_tool_witness :
  fst (main Cases.env_no_ping Scenario.cfg_default Scenario.w_empty_log)
  = Except (SystemExit 1).
Proof.
  rewrite (main_without_ping_tool Cases.env_no_ping Scenario.cfg_default
             Scenario.w_empty_log).
  - reflexivity.
  - vm_compute; discriminate.
  - reflexivity.
Defined.



Section Waits.
Variable env : environment.
Variable cfg : config.

Lemma count_pings p n :
  (forall msg, p (Debug msg) = false) ->
  (forall cmd, p (System cmd) = false) ->
  count p (pings env cfg n) = 0%nat.
Proof.
  intros Hd Hs. induction n as [|n IH]; [reflexivity|].
  cbn [pings count]. rewrite Hd, Hs, IH. reflexivity.
Qed.

Lemma count_round_events p k :
  (forall msg, p (Debug msg) = false) ->
  (forall cmd, p (System cmd) = false) ->
  count p (round_events env cfg k)
  = (if p (Which "ping") then 1 else 0)%nat.
Proof.
  intros Hd Hs. unfold round_events. cbn [count].
  rewrite count_app, count_pings by assumption. cbn [count]. rewrite Hd.
  destruct (p (Which "ping")); reflexivity.
Qed.

Lemma count_waited_rounds p (counts : list Z) a b :
  count p (wait_events cfg) = a ->
  (forall k, count p (round_events env cfg k) = b) ->
  count p (flat_map (fun k => wait_events cfg ++ round_events env cfg k)
             counts)
  = (length counts * (a + b))%nat.
Proof.
  intros Ha Hb. induction counts as [|k counts IH]; [reflexivity|].
  cbn [flat_map length]. rewrite !count_app, Ha, Hb, IH. lia.
Qed.

(** A round that returns has waited if it is not the first, and then
    run as [round_events] says. *)
Lemma ping_round_events counter w k w1 :
  ping_round env cfg counter w = (Ok k, w1) ->
  trace w1
  = trace w ++ (if 0 <? counter then wait_events cfg else [])
    ++ round_events env cfg k.
Proof.
  unfold ping_round, ping_attempts, is_tool, wait_events, round_events.
  destruct (0 <? counter).
  - unfold sleep. destruct (retry_wait cfg <? 0).
    + unfold bind, debug, emit, raise. cbn [trace files]. intros [=].
    + unfold bind at 1. unfold bind at 1. unfold debug at 1, emit at 1 2.
      cbn [trace files]. unfold bind at 1. unfold bind at 1.
      cbn [trace files].
      destruct (which env _ "ping"); cbn [negb].
      * rewrite ping_loop_pings. unfold bind, debug, emit, ret.
        cbn [trace files]. intros [= <- <-]. cbn [trace].
        rewrite <- !app_assoc. reflexivity.
      * unfold bind, fatal, raise. cbn [trace files]. intros [=].
  - unfold bind at 1. unfold ret at 1. unfold bind at 1. unfold bind at 1.
    cbn [trace files].
    destruct (which env _ "ping"); cbn [negb].
    + rewrite ping_loop_pings. unfold bind, debug, emit, ret.
      cbn [trace files]. intros [= <- <-]. cbn [trace].
      rewrite <- !app_assoc. reflexivity.
    + unfold bind, fatal, raise. cbn [trace files]. intros [=].
Qed.

(** The events of the rounds of a loop that returns a verdict. *)
Lemma ping_host_loop_events n : forall counter w verdict w',
  0 <= counter ->
  Z.to_nat (retries cfg - counter) = n ->
  ping_host_loop env cfg counter w = (Ok verdict, w') ->
  exists counts,
    trace w'
    = trace w
      ++ match counts with
         | [] => []
         | k :: rest =>
             (if 0 <? counter then wait_events cfg else [])
             ++ round_events env cfg k
             ++ flat_map
                  (fun k' => wait_events cfg ++ round_events env cfg k') rest
         end.
Proof.
  induction n as [|n IH]; intros counter w verdict w' Hc Hn;
    rewrite ping_host_loop_unfold.
  - destruct (Z.ltb_spec counter (retries cfg)); [lia|].
    intros [= <- <-]. exists []. rewrite app_nil_r. reflexivity.
  - destruct (Z.ltb_spec counter (retries cfg)); [|lia].
    destruct (ping_round env cfg counter w) as [[k|e] w1] eqn:Hround;
      [|intros [=]].
    apply ping_round_events in Hround.
    destruct (k <=? attempts cfg).
    + intros [= <- <-]. exists [k]. cbn [flat_map].
      rewrite app_nil_r. exact Hround.
    + intros Hrest.
      destruct (IH (counter + 1) w1 verdict w' ltac:(lia) ltac:(lia) Hrest)
        as (counts & Htrace).
      exists (k :: counts). rewrite Htrace, Hround, <- !app_assoc.
      f_equal. f_equal. f_equal.
      destruct (Z.ltb_spec 0 (counter + 1)); [|lia].
      destruct counts as [|k' rest]; [reflexivity|].
      cbn [flat_map]. rewrite <- app_assoc. reflexivity.
Qed.

End Waits.

(** X8: when [ping_host] returns a verdict, what it has done is its
    rounds in order, each the lookup of the tool, the pings and the debug
    line of the count of the round, with the debug line of the wait and a
    sleep of [retry_wait] seconds between any two rounds that follow each
    other, and nowhere else: not before the first round and not after the
    last; so after [n] rounds it has slept [n - 1] times. *)
Theorem ping_host_waits_between_rounds env cfg w verdict w' :
  ping_host env cfg w = (Ok verdict, w') ->
  exists counts : list Z,
    trace w'
    = trace w
      ++ between (wait_events cfg) (map (round_events env cfg) counts)
    /\ (forall k, count is_sleep (round_events env cfg k) = 0%nat)
    /\ rounds w' = (rounds w + length counts)%nat
    /\ count is_sleep (trace w')
       = (count is_sleep (trace w) + (length counts - 1))%nat.
Proof.
  intros Hrun. unfold ping_host in Hrun.
  apply ping_host_loop_events with (n := Z.to_nat (retries cfg - 0)) in Hrun;
    [|lia|reflexivity].
  destruct Hrun as (counts & Htrace). exists counts.
  assert (Hsleep : forall k, count is_sleep (round_events env cfg k) = 0%nat).
  { intros k. rewrite count_round_events; reflexivity. }
  assert (Hround : forall k, count is_round (round_events env cfg k) = 1%nat).
  { intros k. rewrite count_round_events; reflexivity. }
  assert (Hshape :
            trace w'
            = trace w
              ++ match counts with
                 | [] => []
                 | k :: rest =>
                     round_events env cfg k
                     ++ flat_map
                          (fun k' => wait_events cfg ++ round_events env cfg k')
                          rest
                 end).
  { rewrite Htrace. destruct counts; reflexivity. }
  clear Htrace. split; [|split; [exact Hsleep|]].
  - rewrite Hshape. f_equal. destruct counts as [|k rest]; [reflexivity|].
    cbn [map between]. f_equal. clear Hshape.
    induction rest as [|k' rest IH]; [reflexivity|].
    cbn [map flat_map]. rewrite IH. reflexivity.
  - unfold rounds. rewrite Hshape, !count_app.
    destruct counts as [|k rest]; cbn [count length]; [split; lia|].
    rewrite !count_app, Hsleep, Hround.
    rewrite (count_waited_rounds env cfg is_round rest 0 1)
      by (reflexivity || exact Hround).
    rewrite (count_waited_rounds env cfg is_sleep rest 1 0)
      by (reflexivity || exact Hsleep).
    split; lia.
Qed.

Lemma ping_host_waits_between_rounds_witness :
  exists counts,
    trace (snd (ping_host Scenario.env_down Scenario.cfg_default
                  Scenario.w_empty_log))
    = between (wait_events Scenario.cfg_default)
        (map (round_events Scenario.env_down Scenario.cfg_default) counts)
    /\ length counts = 2%nat.
Proof.
  destruct (ping_host_waits_between_rounds
              Scenario.env_down Scenario.cfg_default Scenario.w_empty_log
              false
              (snd (ping_host Scenario.env_down Scenario.cfg_default
                              Scenario.w_empty_log)))
    as (counts & Htrace & _ & Hrounds & _).
  - vm_compute; reflexivity.
  - exists counts. split; [exact Htrace|].
    vm_compute in Hrounds. symmetry. exact Hrounds.
Defined.

(** * The timestamps of the log *)

Import MyLog.

Lemma digit_char_cases k :
  exists r, 0 <= r <= 9 /\ k mod 10 = r
    /\ digit_char k = ascii_of_N (Z.to_N (48 + r)).
Proof.
  exists (k mod 10). pose proof (Z.mod_pos_bound k 10 ltac:(lia)).
  repeat split; try lia.
Qed.

Ltac digit_cases r Hr :=
  assert (r = 0 \/ r = 1 \/ r = 2 \/ r = 3 \/ r = 4 \/ r = 5 \/ r = 6 \/ r = 7
          \/ r = 8 \/ r = 9) as Hcases by lia;
  clear Hr;
  destruct Hcases as [->|[->|[->|[->|[->|[->|[->|[->|[->| ->]]]]]]]]].

Lemma digit_digit_char k rest :
  digit 0 9 (String (digit_char k) rest) = [(k mod 10, rest)].
Proof.
  destruct (digit_char_cases k) as (r & Hr & -> & ->).
  digit_cases r Hr; reflexivity.
Qed.

Lemma re_Y_pad4 y rest :
  0 <= y <= 9999 -> re_Y (pad4 y ++ rest)%string = [(y, rest)].
Proof.
  intros Hy. unfold re_Y, pad4, pad3, pad2. cbv [String.append].
  rewrite digit_digit_char. cbn [mbind list_bind app].
  rewrite digit_digit_char. cbn [mbind list_bind app].
  rewrite digit_digit_char. cbn [mbind list_bind app].
  rewrite digit_digit_char. cbn [mbind list_bind app].
  f_equal. f_equal. Z.div_mod_to_equations. lia.
Qed.

Lemma spaces_digit k rest :
  spaces (String " " (String (digit_char k) rest))
  = [(0, String (digit_char k) rest)].
Proof.
  destruct (digit_char_cases k) as (r & Hr & _ & ->).
  digit_cases r Hr; reflexivity.
Qed.

Ltac small_cases n bound :=
  let k := fresh "k" in
  let Hk := fresh "Hk" in
  assert (Hk : exists k : nat, n = Z.of_nat k /\ (k <= bound)%nat)
    by (exists (Z.to_nat n); lia);
  destruct Hk as (k & -> & Hk);
  do 62 (destruct k as [|k]; [try (eexists; reflexivity); try lia|]);
  lia.

Lemma re_m_pad2 m rest :
  1 <= m <= 12 ->
  exists more, re_m (pad2 m ++ rest)%string = (m, rest) :: more.
Proof. intros Hm. small_cases m 12%nat. Qed.

Lemma re_d_pad2 d rest :
  1 <= d <= 31 ->
  exists more, re_d (pad2 d ++ rest)%string = (d, rest) :: more.
Proof. intros Hd. small_cases d 31%nat. Qed.

Lemma re_H_pad2 h rest :
  0 <= h <= 23 ->
  exists more, re_H (pad2 h ++ rest)%string = (h, rest) :: more.
Proof. intros Hh. small_cases h 23%nat. Qed.

Lemma re_M_pad2 m rest :
  0 <= m <= 59 ->
  exists more, re_M (pad2 m ++ rest)%string = (m, rest) :: more.
Proof. intros Hm. small_cases m 59%nat. Qed.

Lemma re_S_pad2 s rest :
  0 <= s <= 59 ->
  exists more, re_S (pad2 s ++ rest)%string = (s, rest) :: more.
Proof. intros Hs. small_cases s 59%nat. Qed.

Lemma chr_same c rest : chr c (String c rest) = [(0, rest)].
Proof. unfold chr. rewrite Ascii.eqb_refl. reflexivity. Qed.

Lemma pad2_head n : exists rest1, pad2 n = String (digit_char (n / 10)) rest1.
Proof. eexists. reflexivity. Qed.

Lemma lit_append c t : (String c EmptyString ++ t)%string = String c t.
Proof. reflexivity. Qed.

Lemma append_empty_r s : (s ++ EmptyString)%string = s.
Proof. induction s as [|c s IH]; [reflexivity|]. cbv [String.append] in *. fold String.append in *. rewrite IH. reflexivity. Qed.

Lemma spaces_pad2 h rest :
  spaces (String " " (pad2 h ++ rest)%string) = [(0, (pad2 h ++ rest)%string)].
Proof. unfold pad2. cbv [String.append]. apply spaces_digit. Qed.

Lemma valid_year d : valid d = true -> year d <= 9999.
Proof. unfold valid. rewrite !andb_true_iff, !Z.leb_le. lia. Qed.

Lemma format_regex_strftime d :
  valid d = true -> 1000 <= year d ->
  match format_regex (strftime d) with
  | (found, rest) :: _ => found = seconds d /\ rest = EmptyString
  | [] => False
  end.
Proof.
  intros Hv Hy. pose proof (valid_year d Hv) as Hy9.
  apply valid_fields in Hv as ((Hy1 & Hm & Hd) & Hh & Hmi & Hs & _).
  pose proof (days_in_month_pos (year d) (month d)) as Hdim.
  unfold format_regex, strftime.
  rewrite <- (append_empty_r (pad2 (second d))).
  rewrite !lit_append.
  rewrite re_Y_pad4 by lia. cbn [mbind list_bind].
  rewrite chr_same. cbn [mbind list_bind].
  match goal with |- context [re_m (pad2 ?m ++ ?r)%string] =>
    destruct (re_m_pad2 m r ltac:(lia)) as [more1 ->] end.
  cbn [mbind list_bind]. rewrite chr_same. cbn [mbind list_bind].
  match goal with |- context [re_d (pad2 ?m ++ ?r)%string] =>
    destruct (re_d_pad2 m r ltac:(lia)) as [more2 ->] end.
  cbn [mbind list_bind]. rewrite spaces_pad2. cbn [mbind list_bind].
  match goal with |- context [re_H (pad2 ?m ++ ?r)%string] =>
    destruct (re_H_pad2 m r ltac:(lia)) as [more3 ->] end.
  cbn [mbind list_bind]. rewrite chr_same. cbn [mbind list_bind].
  match goal with |- context [re_M (pad2 ?m ++ ?r)%string] =>
    destruct (re_M_pad2 m r ltac:(lia)) as [more4 ->] end.
  cbn [mbind list_bind]. rewrite chr_same. cbn [mbind list_bind].
  match goal with |- context [re_S (pad2 ?m ++ ?r)%string] =>
    destruct (re_S_pad2 m r ltac:(lia)) as [more5 ->] end.
  cbn [mbind list_bind app]. split; reflexivity.
Qed.

Lemma strptime_strftime d :
  valid d = true -> 1000 <= year d ->
  strptime (strftime d) = Some (seconds d).
Proof.
  intros Hv Hy. unfold strptime.
  pose proof (format_regex_strftime d Hv Hy) as Hfound.
  destruct (format_regex (strftime d)) as [|[found rest] more]; [destruct Hfound|].
  destruct Hfound as [-> ->].
  assert (Hs : valid (seconds d) = true).
  { revert Hv. unfold valid, seconds. cbn [year month day hour minute second microsecond].
    rewrite !andb_true_iff, !Z.leb_le. lia. }
  rewrite Hs. reflexivity.
Qed.

Lemma append_cons c s t : (String c s ++ t)%string = String c (s ++ t)%string.
Proof. reflexivity. Qed.

Lemma append_assoc (s t u : string) :
  ((s ++ t) ++ u)%string = (s ++ t ++ u)%string.
Proof.
  induction s as [|c s IH]; [reflexivity|].
  rewrite !append_cons, IH. reflexivity.
Qed.

Lemma string_all_app p (a b : string) :
  string_all p (a ++ b)%string = string_all p a && string_all p b.
Proof.
  induction a as [|c a IH]; [reflexivity|].
  rewrite append_cons. cbn [string_all]. rewrite IH, andb_assoc. reflexivity.
Qed.

Lemma string_all_lacks p c (s : string) :
  string_all p s = true -> p c = false -> lacks c s.
Proof.
  unfold lacks. induction s as [|x s IH]; cbn [string_all occurrences];
    [reflexivity|].
  rewrite andb_true_iff. intros [Hx Hs] Hc.
  destruct (Ascii.eqb_spec x c) as [->|_]; [congruence|].
  rewrite (IH Hs Hc). reflexivity.
Qed.

Lemma clock_digit_char k : clock_char (digit_char k) = true.
Proof.
  destruct (digit_char_cases k) as (r & Hr & _ & ->).
  digit_cases r Hr; reflexivity.
Qed.

Lemma string_all_pad2 n : string_all clock_char (pad2 n) = true.
Proof. unfold pad2. cbn [string_all]. rewrite !clock_digit_char. reflexivity. Qed.

Lemma string_all_pad3 n : string_all clock_char (pad3 n) = true.
Proof.
  unfold pad3. cbn [string_all]. rewrite clock_digit_char, string_all_pad2.
  reflexivity.
Qed.

Lemma string_all_strftime d : string_all clock_char (strftime d) = true.
Proof.
  unfold strftime, pad4. rewrite !string_all_app, !string_all_pad2.
  cbn [string_all]. rewrite clock_digit_char, string_all_pad3. reflexivity.
Qed.

(** A text of clock characters is what stands before the comma or the
    period that follows it. *)
Lemma strip_fraction_cut (a : string) x rest :
  string_all clock_char a = true ->
  x = ","%char \/ x = "."%char ->
  strip_fraction (a ++ String x rest)%string = a.
Proof.
  intros Ha Hx. induction a as [|c a IH].
  - destruct Hx as [-> | ->]; reflexivity.
  - rewrite append_cons. cbn [string_all] in Ha.
    apply andb_true_iff in Ha as [Hc Ha]. cbn [strip_fraction].
    rewrite (IH Ha).
    destruct (Ascii.eqb_spec c ",") as [->|_]; [discriminate|].
    destruct (Ascii.eqb_spec c ".") as [->|_]; [discriminate|].
    reflexivity.
Qed.

(** A marker line whose timestamp is a clock time followed by a comma or
    a period and a fraction records a reboot at that time. *)
Lemma stamped_line_reboot_event d sep frac :
  valid d = true -> 1000 <= year d ->
  sep = ","%char \/ sep = "."%char ->
  lacks "|" frac ->
  reboot_event
    (strftime d ++ String sep frac ++ " | " ++ log_msg ++ newline)%string
    (seconds d).
Proof.
  intros Hv Hy Hsep Hfrac.
  exists (strftime d ++ String sep (frac ++ " "))%string,
         (" " ++ log_msg ++ newline)%string.
  split; [|split; [|split; [|split]]].
  - rewrite append_assoc, !append_cons, append_assoc. reflexivity.
  - unfold lacks. rewrite occurrences_app. cbn [occurrences].
    rewrite occurrences_app.
    rewrite (string_all_lacks clock_char "|" _ (string_all_strftime d) eq_refl).
    rewrite Hfrac. destruct Hsep as [-> | ->]; reflexivity.
  - reflexivity.
  - exists " ", newline. reflexivity.
  - rewrite (strip_fraction_cut _ _ _ (string_all_strftime d) Hsep).
    apply strptime_strftime; assumption.
Qed.

Lemma try_line_stamped d sep frac dt_lst :
  valid d = true -> 1000 <= year d ->
  sep = ","%char \/ sep = "."%char ->
  lacks "|" frac ->
  try_line
    (strftime d ++ String sep frac ++ " | " ++ log_msg ++ newline)%string
    dt_lst
  = Ok (dt_lst ++ [seconds d]).
Proof.
  intros Hv Hy Hsep Hfrac.
  pose proof (stamped_line_reboot_event d sep frac Hv Hy Hsep Hfrac) as Hev.
  destruct (try_line_spec
              (strftime d ++ String sep frac ++ " | " ++ log_msg ++ newline)
              dt_lst) as [(t & Ht & ->)|[Hno _]].
  - rewrite (reboot_event_functional _ _ _ Ht Hev). reflexivity.
  - destruct (Hno _ Hev).
Qed.

Lemma record_line_stamped d msecs msg :
  record_line (format_asctime d msecs) msg
  = (strftime d ++ String "," (pad3 msecs) ++ " | " ++ msg ++ newline)%string.
Proof.
  unfold record_line, format_asctime.
  rewrite append_assoc, !append_cons, append_assoc. reflexivity.
Qed.

(** X9: a marker record stamped by the default formatter is read back by
    the scan of [num_reboots_24h] as a reboot at the time of the stamp, to
    the second; the same holds when a period instead of a comma sets off
    the fraction, whatever the fraction without the delimiter is. *)
Theorem logged_reboot_read_back d msecs sep frac dt_lst :
  valid d = true -> 1000 <= year d ->
  sep = ","%char \/ sep = "."%char ->
  lacks "|" frac ->
  try_line (record_line (format_asctime d msecs) log_msg) dt_lst
  = Ok (dt_lst ++ [seconds d])
  /\ try_line
       (strftime d ++ String sep frac ++ " | " ++ log_msg ++ newline)%string
       dt_lst
     = Ok (dt_lst ++ [seconds d])
  /\ reboot_event (record_line (format_asctime d msecs) log_msg) (seconds d).
Proof.
  intros Hv Hy Hsep Hfrac.
  assert (Hpad : lacks "|" (pad3 msecs)).
  { exact (string_all_lacks clock_char "|" _ (string_all_pad3 msecs) eq_refl). }
  split; [|split].
  - rewrite record_line_stamped.
    apply try_line_stamped; auto.
  - apply try_line_stamped; assumption.
  - rewrite record_line_stamped.
    apply stamped_line_reboot_event; auto.
Qed.

Lemma logged_reboot_read_back_witness :
  try_line ("2021-08-12 12:00:00.5 | " ++ log_msg ++ newline)%string []
  = Ok [Scenario.noon].
Proof.
  destruct (logged_reboot_read_back Scenario.noon 0 "." "5" [])
    as (_ & Hperiod & _).
  - reflexivity.
  - vm_compute; discriminate.
  - right; reflexivity.
  - reflexivity.
  - exact Hperiod.
Defined.

(** * The log only grows *)

Section Appends.
Variable env : environment.

Lemma written_app (a : list event) : forall history b,
  written env history (a ++ b)
  = (written env history a ++ written env (history ++ a) b)%string.
Proof.
  induction a as [|e a IH]; intros history b.
  - cbn [app written]. rewrite app_nil_r. reflexivity.
  - cbn [app written]. rewrite IH, append_assoc, <- app_assoc. reflexivity.
Qed.

Lemma appends_ret {A} (a : A) : appends env (ret a).
Proof.
  intros w res w' [= <- <-]. exists []. rewrite app_nil_r.
  cbn [written]. rewrite append_empty_r. repeat split.
Qed.

Lemma appends_raise {A} (e : exn) : appends env (@raise A e).
Proof.
  intros w res w' [= <- <-]. exists []. rewrite app_nil_r.
  cbn [written]. rewrite append_empty_r. repeat split.
Qed.

(** An event other than a [Fatal] record, added to the history alone. *)
Lemma appends_event {A} (e : event) (res0 : world -> result A) :
  (forall msg, e <> Fatal msg) ->
  appends env (fun w => (res0 w, mk_world (trace w ++ [e]) (files w))).
Proof.
  intros He w res w' [= <- <-]. exists [e]. cbn [trace files written].
  split; [reflexivity|]. split; [|reflexivity].
  unfold log_text. cbn [files]. destruct e; try (rewrite !append_empty_r; reflexivity).
  destruct (He msg eq_refl).
Qed.

Lemma appends_debug msg : appends env (debug msg).
Proof. apply (appends_event (Debug msg) (fun _ => Ok tt)). discriminate. Qed.

Lemma appends_os_system cmd : appends env (os_system env cmd).
Proof.
  apply (appends_event (System cmd) (fun w => Ok (system env (trace w) cmd))).
  discriminate.
Qed.

Lemma appends_is_tool name : appends env (is_tool env name).
Proof.
  apply (appends_event (Which name) (fun w => Ok (which env (trace w) name))).
  discriminate.
Qed.

Lemma appends_sleep secs : appends env (sleep secs).
Proof.
  unfold sleep. destruct (secs <? 0); [apply appends_raise|].
  apply (appends_event (Sleep secs) (fun _ => Ok tt)). discriminate.
Qed.

Lemma appends_today : appends env (datetime_today env).
Proof.
  apply (appends_event Today (fun w => Ok (now env (trace w)))). discriminate.
Qed.

Lemma appends_open path : appends env (open_readlines path).
Proof.
  intros w res w'. unfold open_readlines.
  destruct (files w !! path) as [contents|]; intros [= <- <-];
    exists [OpenRead path]; cbn [trace files written];
    (split; [reflexivity|]); (split; [|reflexivity]);
    unfold log_text; cbn [files]; rewrite !append_empty_r; reflexivity.
Qed.

Lemma appends_exchange key token text :
  appends env (pushover_exchange env key token text).
Proof.
  intros w res w'. unfold pushover_exchange.
  destruct (pushover env (trace w)); intros [= <- <-];
    exists [Post key token text]; cbn [trace files written];
    (split; [reflexivity|]); (split; [|reflexivity]);
    unfold log_text; cbn [files]; rewrite !append_empty_r; reflexivity.
Qed.

Lemma appends_fatal msg : appends env (fatal env msg).
Proof.
  intros w res w'. unfold fatal. intros [= <- <-].
  exists [Fatal msg]. cbn [trace files written].
  split; [reflexivity|]. split.
  - unfold log_text. cbn [files]. rewrite lookup_insert_eq. cbn [default].
    rewrite append_empty_r. reflexivity.
  - intros path Hpath. rewrite lookup_insert_ne by congruence. reflexivity.
Qed.

(** Growth composes. *)
Lemma appends_step (w w1 w2 : world) evs1 evs2 :
  trace w1 = trace w ++ evs1 ->
  log_text env w1 = (log_text env w ++ written env (trace w) evs1)%string ->
  (forall path,
     path <> handler_file env -> files w1 !! path = files w !! path) ->
  trace w2 = trace w1 ++ evs2 ->
  log_text env w2 = (log_text env w1 ++ written env (trace w1) evs2)%string ->
  (forall path,
     path <> handler_file env -> files w2 !! path = files w1 !! path) ->
  trace w2 = trace w ++ evs1 ++ evs2
  /\ log_text env w2
     = (log_text env w ++ written env (trace w) (evs1 ++ evs2))%string
  /\ forall path,
       path <> handler_file env -> files w2 !! path = files w !! path.
Proof.
  intros Ht1 Hl1 Hf1 Ht2 Hl2 Hf2. split; [|split].
  - rewrite Ht2, Ht1, app_assoc. reflexivity.
  - rewrite Hl2, Hl1, written_app, Ht1, append_assoc. reflexivity.
  - intros path Hpath. rewrite (Hf2 path Hpath). exact (Hf1 path Hpath).
Qed.

Lemma appends_bind {A B} (m : M A) (k : A -> M B) :
  appends env m -> (forall a, appends env (k a)) -> appends env (bind m k).
Proof.
  intros Hm Hk w res w'. unfold bind.
  destruct (m w) as [[a|e] w1] eqn:Hrun;
    destruct (Hm _ _ _ Hrun) as (evs1 & Ht1 & Hl1 & Hf1).
  - intros Hrest. destruct (Hk a _ _ _ Hrest) as (evs2 & Ht2 & Hl2 & Hf2).
    exists (evs1 ++ evs2). eapply appends_step; eassumption.
  - intros [= <- <-]. exists evs1. repeat split; assumption.
Qed.

Lemma appends_try_except {A} (body handler : M A) :
  appends env body -> appends env handler ->
  appends env (try_except body handler).
Proof.
  intros Hb Hh w res w'. unfold try_except.
  destruct (body w) as [[a|e] w1] eqn:Hrun;
    destruct (Hb _ _ _ Hrun) as (evs1 & Ht1 & Hl1 & Hf1).
  - intros [= <- <-]. exists evs1. repeat split; assumption.
  - intros Hrest. destruct (Hh _ _ _ Hrest) as (evs2 & Ht2 & Hl2 & Hf2).
    exists (evs1 ++ evs2). eapply appends_step; eassumption.
Qed.

Variable cfg : config.

Lemma appends_ping_loop n : forall failed,
  appends env (ping_loop env cfg n failed).
Proof.
  induction n as [|n IH]; intros failed; cbn [ping_loop].
  - apply appends_ret.
  - apply appends_bind; [apply appends_debug|]. intros _.
    apply appends_bind; [apply appends_os_system|]. intros result. apply IH.
Qed.

Lemma appends_ping_attempts : appends env (ping_attempts env cfg).
Proof.
  unfold ping_attempts. apply appends_bind; [apply appends_is_tool|].
  intros tool. destruct (negb tool).
  - apply appends_bind; [apply appends_fatal|]. intros _. apply appends_raise.
  - apply appends_ping_loop.
Qed.

Lemma appends_ping_round counter : appends env (ping_round env cfg counter).
Proof.
  unfold ping_round. apply appends_bind.
  - destruct (0 <? counter); [|apply appends_ret].
    apply appends_bind; [apply appends_debug|]. intros _. apply appends_sleep.
  - intros _. apply appends_bind; [apply appends_ping_attempts|].
    intros f. apply appends_bind; [apply appends_debug|]. intros _.
    apply appends_ret.
Qed.

Lemma appends_ping_host_loop n : forall counter,
  Z.to_nat (retries cfg - counter) = n ->
  appends env (ping_host_loop env cfg counter).
Proof.
  induction n as [|n IH]; intros counter Hn w res w';
    rewrite ping_host_loop_unfold.
  - destruct (Z.ltb_spec counter (retries cfg)); [lia|].
    apply (appends_ret false).
  - destruct (Z.ltb_spec counter (retries cfg)); [|lia].
    destruct (ping_round env cfg counter w) as [[f|e] w1] eqn:Hround;
      destruct (appends_ping_round counter _ _ _ Hround)
        as (evs1 & Ht1 & Hl1 & Hf1).
    + destruct (f <=? attempts cfg).
      * intros [= <- <-]. exists evs1. repeat split; assumption.
      * intros Hrest.
        destruct (IH (counter + 1) ltac:(lia) _ _ _ Hrest)
          as (evs2 & Ht2 & Hl2 & Hf2).
        exists (evs1 ++ evs2). eapply appends_step; eassumption.
    + intros [= <- <-]. exists evs1. repeat split; assumption.
Qed.

Lemma appends_ping_host : appends env (ping_host env cfg).
Proof. apply appends_ping_host_loop with (n := Z.to_nat (retries cfg - 0)). reflexivity. Qed.

Lemma appends_num_reboots_24h : appends env (num_reboots_24h env cfg).
Proof.
  unfold num_reboots_24h. apply appends_bind; [apply appends_open|].
  intros lines. apply appends_bind; [apply appends_today|].
  intros today. destruct (minus_24h today); [apply appends_ret|apply appends_raise].
Qed.

Lemma appends_MyLog_notify : appends env (MyLog_notify env).
Proof.
  unfold MyLog_notify. apply appends_bind; [apply appends_fatal|]. intros _.
  destruct (negb (nt env)); [|apply appends_ret].
  apply appends_bind; [apply appends_os_system|]. intros _. apply appends_ret.
Qed.

Lemma appends_Pushover_notify key token :
  appends env (Pushover_notify env key token).
Proof.
  unfold Pushover_notify. destruct (_ || _); [apply appends_debug|].
  apply appends_bind.
  - apply appends_try_except; [apply appends_exchange|apply appends_ret].
  - intros sent. destruct (negb sent); apply appends_debug.
Qed.

Lemma appends_send_reboot_cmd : appends env (send_reboot_cmd env cfg).
Proof.
  unfold send_reboot_cmd. apply appends_bind; [apply appends_os_system|].
  intros result. destruct (negb _); apply appends_ret.
Qed.

Lemma appends_notify_and_reboot : appends env (notify_and_reboot env cfg).
Proof.
  unfold notify_and_reboot. apply appends_bind; [apply appends_num_reboots_24h|].
  intros reboots. apply appends_bind; [apply appends_debug|]. intros _.
  destruct (_ <=? _); [apply appends_fatal|].
  apply appends_bind; [apply appends_MyLog_notify|]. intros _.
  apply appends_bind; [apply appends_Pushover_notify|]. intros _.
  apply appends_bind; [apply appends_send_reboot_cmd|]. intros sent.
  destruct (negb sent); [apply appends_fatal|apply appends_ret].
Qed.

End Appends.

(** X10: [ping_host] and [notify_and_reboot] only append to the log:
    whatever the outcome of the call, the log afterwards is the log before
    followed by one line for each fatal record of the call, in order,
    stamped as the environment stamps it; and every other file is as it
    was. *)
Theorem ping_and_reboot_only_append_to_log env cfg :
  appends env (ping_host env cfg)
  /\ appends env (notify_and_reboot env cfg).
Proof.
  split; intros w res w'.
  - apply appends_ping_host.
  - apply appends_notify_and_reboot.
Qed.

Lemma ping_and_reboot_only_append_to_log_witness :
  log_text Scenario.env_down
    (snd (notify_and_reboot Scenario.env_down Scenario.cfg_default
            Scenario.w_three_reboots))
  = (log_text Scenario.env_down Scenario.w_three_reboots
     ++ record_line "2021-08-12 12:00:00,000"
          "reboot canceled. max reboots allowed in 24h reached")%string.
Proof.
  destruct (ping_and_reboot_only_append_to_log
              Scenario.env_down Scenario.cfg_default) as [_ Happends].
  destruct (Happends Scenario.w_three_reboots
              (fst (notify_and_reboot Scenario.env_down Scenario.cfg_default
                      Scenario.w_three_reboots))
              (snd (notify_and_reboot Scenario.env_down Scenario.cfg_default
                      Scenario.w_three_reboots)))
    as (evs & Htrace & Hlog & _).
  - vm_compute; reflexivity.
  - vm_compute; reflexivity.
Defined.

(** * Lines added to a log that ends with a line end *)

Lemma universal_newlines_line_end n : forall body,
  (String.length body <= n)%nat ->
  exists translated, forall rest,
    universal_newlines (body ++ String LF rest)%string
    = (translated ++ String LF (universal_newlines rest))%string.
Proof.
  induction n as [|n IH]; intros body Hlen.
  - destruct body; [|cbn in Hlen; lia].
    exists EmptyString. intros rest. reflexivity.
  - destruct body as [|c body].
    + exists EmptyString. intros rest. reflexivity.
    + cbn [String.length] in Hlen.
      destruct (Ascii.eqb c CR) eqn:Hc.
      * destruct body as [|d body].
        -- exists EmptyString. intros rest.
           rewrite !append_cons. cbn [universal_newlines]. rewrite Hc.
           reflexivity.
        -- cbn [String.length] in Hlen.
           destruct (Ascii.eqb d LF) eqn:Hd.
           ++ destruct (IH body ltac:(lia)) as (translated & Ht).
              exists (String LF translated). intros rest.
              rewrite !append_cons. cbn [universal_newlines].
              rewrite Hc, Hd, Ht. reflexivity.
           ++ destruct (IH (String d body) ltac:(cbn [String.length]; lia))
                as (translated & Ht).
              exists (String LF translated). intros rest.
              rewrite (append_cons c). cbn [universal_newlines]. rewrite Hc.
              rewrite (append_cons d), Hd, <- (append_cons d), Ht.
              reflexivity.
      * destruct (IH body ltac:(lia)) as (translated & Ht).
        exists (String c translated). intros rest.
        rewrite append_cons. cbn [universal_newlines]. rewrite Hc, Ht.
        reflexivity.
Qed.

Lemma universal_newlines_one_line (body : string) :
  lacks CR body ->
  universal_newlines (body ++ newline)%string = (body ++ newline)%string.
Proof.
  unfold lacks. induction body as [|c body IH]; [reflexivity|].
  cbn [occurrences]. rewrite append_cons.
  destruct (Ascii.eqb c CR) eqn:Hc; [discriminate|]. intros Hbody.
  cbn [universal_newlines]. rewrite Hc, (IH Hbody). reflexivity.
Qed.

Lemma keepends_nonempty (body rest : string) :
  keepends (body ++ String LF rest)%string <> [].
Proof.
  destruct body as [|c body]; [discriminate|].
  rewrite append_cons. cbn [keepends].
  destruct (Ascii.eqb c LF); [discriminate|].
  destruct (keepends _); discriminate.
Qed.

Lemma keepends_line_end (body rest : string) :
  keepends (body ++ String LF rest)%string
  = keepends (body ++ newline)%string ++ keepends rest.
Proof.
  induction body as [|c body IH]; [reflexivity|].
  rewrite !append_cons. cbn [keepends].
  destruct (Ascii.eqb c LF); [rewrite IH; reflexivity|].
  rewrite IH.
  pose proof (keepends_nonempty body EmptyString) as Hne.
  fold newline in Hne.
  destruct (keepends (body ++ newline)%string); [congruence|reflexivity].
Qed.

Lemma keepends_one_line (body : string) :
  lacks LF body -> keepends (body ++ newline)%string = [(body ++ newline)%string].
Proof.
  unfold lacks. induction body as [|c body IH]; [reflexivity|].
  cbn [occurrences]. rewrite append_cons.
  destruct (Ascii.eqb c LF) eqn:Hc; [discriminate|]. intros Hbody.
  cbn [keepends]. rewrite Hc, (IH Hbody). reflexivity.
Qed.

(** A line added to a log that is empty or ends with a line end is read
    as one more line. *)
Lemma readlines_append (old body : string) :
  terminated old -> one_line body ->
  readlines (old ++ body ++ newline)%string
  = readlines old ++ [(body ++ newline)%string]
  /\ terminated (old ++ body ++ newline)%string.
Proof.
  intros Hold [Hcr Hlf]. split.
  - unfold readlines. destruct Hold as [-> | [pre ->]].
    + cbn [String.append universal_newlines keepends app].
      change (EmptyString ++ body ++ newline)%string with (body ++ newline)%string.
      rewrite (universal_newlines_one_line body Hcr).
      exact (keepends_one_line body Hlf).
    + destruct (universal_newlines_line_end (String.length pre) pre (le_n _))
        as (translated & Ht).
      rewrite append_assoc. unfold newline at 1 3. rewrite append_cons.
      change (EmptyString ++ body ++ newline)%string with (body ++ newline)%string.
      rewrite !Ht. cbn [universal_newlines].
      rewrite (universal_newlines_one_line body Hcr).
      rewrite keepends_line_end, (keepends_one_line body Hlf). reflexivity.
  - right. exists (old ++ body)%string. rewrite append_assoc. reflexivity.
Qed.

Lemma scan_lines_app (lines1 lines2 : list string) : forall dt_lst,
  scan_lines (lines1 ++ lines2) dt_lst
  = scan_lines lines2 (scan_lines lines1 dt_lst).
Proof.
  induction lines1 as [|line lines1 IH]; intros dt_lst; [reflexivity|].
  cbn [app scan_lines]. destruct (try_line line dt_lst); apply IH.
Qed.

Lemma count_after_app yesterday (a b : list datetime) : forall counted,
  count_after yesterday (a ++ b) counted
  = count_after yesterday b (count_after yesterday a counted).
Proof.
  induction a as [|d a IH]; intros counted; [reflexivity|].
  cbn [app count_after]. apply IH.
Qed.

(** What a line added to the log adds to the history count. *)
Lemma history_count_append (old body : string) yesterday :
  terminated old -> one_line body ->
  terminated (old ++ body ++ newline)%string
  /\ (forall t,
        (forall dt_lst,
           try_line (body ++ newline)%string dt_lst = Ok (dt_lst ++ [t])) ->
        history_count (old ++ body ++ newline)%string yesterday
        = history_count old yesterday + (if gt t yesterday then 1 else 0))
  /\ ((forall t, ~ reboot_event (body ++ newline)%string t) ->
      history_count (old ++ body ++ newline)%string yesterday
      = history_count old yesterday).
Proof.
  intros Hold Hbody.
  destruct (readlines_append old body Hold Hbody) as [Hread Hterm].
  split; [exact Hterm|]. unfold history_count. rewrite Hread, scan_lines_app.
  split.
  - intros t Ht. cbn [scan_lines]. rewrite Ht, count_after_app.
    cbn [count_after]. rewrite count_after_acc.
    destruct (gt t yesterday); lia.
  - intros Hno. cbn [scan_lines].
    destruct (try_line_spec (body ++ newline)%string
                (scan_lines (readlines old) [])) as [(t & Hev & _)|[_ [-> | ->]]];
      [destruct (Hno t Hev)|reflexivity|reflexivity].
Qed.

(** * What a cycle adds to the reboot history *)

Lemma message_without_marker (timestamp message : string) :
  ~ occurs log_msg message ->
  forall t, ~ reboot_event (timestamp ++ "|" ++ message)%string t.
Proof.
  intros Hno t (ts & msg & Heq & Hts & Hmsg & Hocc & _).
  assert (Hsplit : split "|" (timestamp ++ String "|" message)%string
                   = [ts; msg]).
  { change (timestamp ++ String "|" message)%string
      with (timestamp ++ "|" ++ message)%string.
    rewrite Heq.
    change (ts ++ "|" ++ msg)%string with (ts ++ String "|" msg)%string.
    rewrite split_delimiter by exact Hts.
    rewrite split_lacks by exact Hmsg. reflexivity. }
  pose proof (split_length "|" (timestamp ++ String "|" message)%string) as Hlen.
  rewrite Hsplit in Hlen. cbn [length] in Hlen.
  rewrite occurrences_app in Hlen. cbn [occurrences] in Hlen.
  rewrite Ascii.eqb_refl in Hlen.
  assert (Hts' : lacks "|" timestamp) by (unfold lacks; lia).
  assert (Hmsg' : lacks "|" message) by (unfold lacks; lia).
  rewrite split_delimiter in Hsplit by exact Hts'.
  rewrite split_lacks in Hsplit by exact Hmsg'.
  injection Hsplit as _ <-. exact (Hno Hocc).
Qed.

Lemma record_line_fields (stamp msg : string) :
  record_line stamp msg
  = ((stamp ++ " | " ++ msg) ++ newline)%string
  /\ record_line stamp msg
     = ((stamp ++ " ") ++ "|" ++ (" " ++ msg ++ newline))%string.
Proof.
  unfold record_line. split.
  - rewrite !append_assoc. reflexivity.
  - rewrite !append_assoc. reflexivity.
Qed.

Lemma one_line_record d msecs (msg : string) :
  one_line msg -> one_line (format_asctime d msecs ++ " | " ++ msg)%string.
Proof.
  intros [Hcr Hlf]. unfold one_line, lacks, format_asctime in *.
  rewrite !occurrences_app.
  rewrite (string_all_lacks clock_char CR _ (string_all_strftime d) eq_refl).
  rewrite (string_all_lacks clock_char LF _ (string_all_strftime d) eq_refl).
  rewrite (string_all_lacks clock_char CR _ (string_all_pad3 msecs) eq_refl).
  rewrite (string_all_lacks clock_char LF _ (string_all_pad3 msecs) eq_refl).
  rewrite Hcr, Hlf. split; reflexivity.
Qed.

Lemma harmless_message msg :
  harmless (Fatal msg) ->
  one_line msg /\ ~ occurs log_msg (" " ++ msg ++ newline)%string.
Proof.
  cbn [harmless]. intros [-> | [-> | [-> | ->]]];
    (split; [split; reflexivity|]); apply find_occurs; reflexivity.
Qed.

Section Growth.
Variable env : environment.
Hypothesis Hstamp : default_asctime env.

(** Records that are no marker add lines that the history passes over. *)
Lemma harmless_written evs : forall history old,
  Forall harmless evs ->
  terminated old ->
  terminated (old ++ written env history evs)%string
  /\ forall yesterday,
       history_count (old ++ written env history evs)%string yesterday
       = history_count old yesterday.
Proof.
  induction evs as [|e evs IH]; intros history old Hall Hold.
  - cbn [written]. rewrite append_empty_r. split; [exact Hold|reflexivity].
  - rewrite Forall_cons in Hall. destruct Hall as [He Hall].
    cbn [written].
    assert (Hquiet : (forall msg, e <> Fatal msg) ->
              terminated (old ++ EmptyString
                          ++ written env (history ++ [e]) evs)%string
              /\ forall yesterday,
                   history_count
                     (old ++ EmptyString
                      ++ written env (history ++ [e]) evs)%string yesterday
                   = history_count old yesterday).
    { intros _. exact (IH (history ++ [e]) old Hall Hold). }
    destruct e; try (apply Hquiet; discriminate). clear Hquiet.
    destruct (Hstamp history) as (d & msecs & Hv & Hy & ->).
    destruct (harmless_message msg He) as [Hmsg Hno].
    destruct (record_line_fields (format_asctime d msecs) msg) as [Hbody Hfields].
    pose proof (one_line_record d msecs msg Hmsg) as Hline.
    set (body := (format_asctime d msecs ++ " | " ++ msg)%string) in *.
    set (rest := written env (history ++ [Fatal msg]) evs).
    assert (Heq : (old ++ record_line (format_asctime d msecs) msg ++ rest)%string
                  = ((old ++ body ++ newline) ++ rest)%string).
    { rewrite Hbody. symmetry. apply append_assoc. }
    rewrite Heq.
    assert (Hskip : forall t, ~ reboot_event (body ++ newline)%string t).
    { rewrite <- Hbody, Hfields. apply message_without_marker. exact Hno. }
    destruct (history_count_append old body (mk_datetime 0 0 0 0 0 0 0)
                Hold Hline) as (Hterm & _ & _).
    destruct (IH (history ++ [Fatal msg]) _ Hall Hterm) as [Hterm' Hcount].
    split; [exact Hterm'|]. intros yesterday. rewrite Hcount.
    destruct (history_count_append old body yesterday Hold Hline)
      as (_ & _ & Hsame).
    exact (Hsame Hskip).
Qed.

(** A marker record adds a line that the history reads at its stamp. *)
Lemma marker_written history old yesterday :
  terminated old ->
  exists d msecs,
    asctime env history = format_asctime d msecs
    /\ valid d = true
    /\ terminated (old ++ record_line (asctime env history) log_msg)%string
    /\ history_count (old ++ record_line (asctime env history) log_msg)%string
         yesterday
       = history_count old yesterday
         + (if gt (seconds d) yesterday then 1 else 0).
Proof.
  intros Hold. destruct (Hstamp history) as (d & msecs & Hv & Hy & Ha).
  exists d, msecs. rewrite Ha. split; [reflexivity|]. split; [exact Hv|].
  destruct (record_line_fields (format_asctime d msecs) log_msg) as [Hbody _].
  assert (Hline : one_line (format_asctime d msecs ++ " | " ++ log_msg)%string).
  { apply one_line_record. split; reflexivity. }
  destruct (history_count_append old _ yesterday Hold Hline)
    as (Hterm & Hhit & _).
  rewrite Hbody.
  split; [exact Hterm|]. apply Hhit. intros dt_lst.
  rewrite <- Hbody, record_line_stamped.
  apply try_line_stamped; auto.
  exact (string_all_lacks clock_char "|" _ (string_all_pad3 msecs) eq_refl).
Qed.

End Growth.

Lemma ping_event_harmless e : ping_event e -> harmless e.
Proof. destruct e; cbn; auto. Qed.

Lemma after_marker_event_harmless e : after_marker_event e -> harmless e.
Proof. destruct e; cbn; auto. Qed.

Lemma appends_main env cfg : appends env (main env cfg).
Proof.
  unfold main. apply appends_bind; [apply appends_ping_host|].
  intros reachable. destruct reachable;
    [apply appends_fatal|apply appends_notify_and_reboot].
Qed.

(** The step of the history over the last statement of [main]. *)
Lemma main_history_step env cfg w res w2 yesterday :
  default_asctime env ->
  terminated (log_text env w) ->
  main env cfg w = (res, w2) ->
  terminated (log_text env w2)
  /\ exists evs,
       trace w2 = trace w ++ evs
       /\ ((Forall (fun e => e <> Fatal log_msg) evs
            /\ history_count (log_text env w2) yesterday
               = history_count (log_text env w) yesterday)
           \/ exists before after d msecs,
                evs = before ++ Fatal log_msg :: after
                /\ In (System (reboot_command env cfg)) after
                /\ asctime env (trace w ++ before) = format_asctime d msecs
                /\ valid d = true
                /\ history_count (log_text env w2) yesterday
                   = history_count (log_text env w) yesterday
                     + (if gt (seconds d) yesterday then 1 else 0)).
Proof.
  intros Hstamp Hold Hmain.
  destruct (appends_main env cfg _ _ _ Hmain) as (evs & Htrace & Hlog & _).
  assert (Hquiet : Forall harmless evs ->
            terminated (log_text env w2)
            /\ exists evs0,
                 trace w2 = trace w ++ evs0
                 /\ ((Forall (fun e => e <> Fatal log_msg) evs0
                      /\ history_count (log_text env w2) yesterday
                         = history_count (log_text env w) yesterday)
                     \/ exists before after d msecs,
                          evs0 = before ++ Fatal log_msg :: after
                          /\ In (System (reboot_command env cfg)) after
                          /\ asctime env (trace w ++ before)
                             = format_asctime d msecs
                          /\ valid d = true
                          /\ history_count (log_text env w2) yesterday
                             = history_count (log_text env w) yesterday
                               + (if gt (seconds d) yesterday then 1 else 0))).
  { intros Hall.
    destruct (harmless_written env Hstamp evs (trace w) _ Hall Hold)
      as [Hterm Hcount].
    rewrite Hlog. split; [exact Hterm|]. exists evs.
    split; [exact Htrace|]. left. split; [|apply Hcount].
    eapply Forall_impl; [exact Hall|].
    intros [] He; try discriminate. cbn in He.
    destruct He as [-> | [-> | [-> | ->]]]; discriminate. }
  destruct (main_cases env cfg _ _ _ Hmain) as (pings & Hpe & Hcases).
  assert (Hph : Forall harmless pings).
  { eapply Forall_impl; [exact Hpe|apply ping_event_harmless]. }
  destruct Hcases as [(e & _ & Htr)|[(_ & _ & Htr)|(_ & _ & Hcases)]].
  - apply Hquiet. rewrite Htrace in Htr. apply app_inv_head in Htr.
    rewrite Htr. exact Hph.
  - apply Hquiet. rewrite Htrace in Htr. apply app_inv_head in Htr.
    rewrite Htr, Forall_app. split; [exact Hph|].
    repeat (constructor; [cbn; auto 6|]). constructor.
  - destruct Hcases
      as [(e & history & _ & _ & Htr & Hhist)
         |[(reboots & w1 & line & _ & _ & _ & Htr)
          |(reboots & w1 & line & push & tail & _ & _ & _ & Htr & Hpush
            & _ & Htail)]].
    + apply Hquiet. rewrite Htrace in Htr. apply app_inv_head in Htr.
      rewrite Htr, Forall_app. split; [exact Hph|].
      destruct Hhist as [-> | ->];
        repeat (constructor; [cbn; auto 6|]); constructor.
    + apply Hquiet. rewrite Htrace in Htr. apply app_inv_head in Htr.
      rewrite Htr, Forall_app. split; [exact Hph|].
      repeat (constructor; [cbn; auto 6|]). constructor.
    + rewrite Htrace in Htr. apply app_inv_head in Htr.
      set (before := pings ++ [OpenRead (log_file cfg); Today; Debug line])
        in *.
      set (after := (if nt env then [] else [System logger_command])
                    ++ push ++ [System (reboot_command env cfg)] ++ tail)
        in *.
      assert (Hbefore : Forall harmless before).
      { unfold before. rewrite Forall_app. split; [exact Hph|].
        repeat (constructor; [cbn; auto 6|]). constructor. }
      assert (Hafter : Forall harmless after).
      { unfold after. rewrite !Forall_app. repeat split.
        - destruct (nt env);
            repeat (constructor; [cbn; auto 6|]); constructor.
        - eapply Forall_impl; [exact Hpush|].
          intros e He. apply after_marker_event_harmless.
          apply push_after_marker_event. exact He.
        - repeat (constructor; [cbn; auto 6|]). constructor.
        - destruct Htail as [-> | ->];
            repeat (constructor; [cbn; auto 6|]); constructor. }
      rewrite Htr in Hlog. rewrite written_app in Hlog. cbn [written] in Hlog.
      rewrite <- !append_assoc in Hlog.
      destruct (harmless_written env Hstamp before (trace w) _ Hbefore Hold)
        as [Hterm1 Hcount1].
      destruct (marker_written env Hstamp (trace w ++ before) _ yesterday Hterm1)
        as (d & msecs & Hstamped & Hv & Hterm2 & Hcount2).
      destruct (harmless_written env Hstamp after
                  ((trace w ++ before) ++ [Fatal log_msg]) _ Hafter Hterm2)
        as [Hterm3 Hcount3].
      rewrite Hlog. split; [exact Hterm3|]. exists evs.
      split; [exact Htrace|]. right. exists before, after, d, msecs.
      split; [exact Htr|]. split.
      * unfold after. apply in_or_app. right. apply in_or_app. right.
        left. reflexivity.
      * split; [exact Hstamped|]. split; [exact Hv|].
        rewrite Hcount3, Hcount2, Hcount1. reflexivity.
Qed.

(** [notify_and_reboot] is what the last statement of [main] does when no
    round of pings is allowed. *)
Lemma notify_and_reboot_as_main env cfg w :
  exists cfg0,
    main env cfg0 w = notify_and_reboot env cfg w
    /\ reboot_command env cfg0 = reboot_command env cfg.
Proof.
  exists {| host := host cfg; attempts := attempts cfg;
            timeout := timeout cfg; retries := 0;
            retry_wait := retry_wait cfg;
            max_reboots_per_day := max_reboots_per_day cfg;
            reboot_cmd_nix := reboot_cmd_nix cfg;
            reboot_cmd_win := reboot_cmd_win cfg;
            pushover_user_key := pushover_user_key cfg;
            pushover_api_token := pushover_api_token cfg;
            log_file := log_file cfg; log_max_size := log_max_size cfg |}.
  split; [|reflexivity].
  unfold main, bind at 1, ping_host. rewrite ping_host_loop_unfold.
  reflexivity.
Qed.

(** X11: with the handler stamping its records in the default format and
    a log that is empty or ends with a line end, [ping_host] leaves such a
    log and the history count of the log as it was, for any reference
    time; and [notify_and_reboot] leaves such a log and either writes no
    marker and leaves the history count as it was, or writes one marker,
    followed by the reboot command, and adds one reboot to the history, at
    the time of the marker's stamp to the second. *)
Theorem notify_and_reboot_adds_reboot_to_history env cfg w yesterday :
  default_asctime env ->
  terminated (log_text env w) ->
  (forall res w1,
     ping_host env cfg w = (res, w1) ->
     terminated (log_text env w1)
     /\ history_count (log_text env w1) yesterday
        = history_count (log_text env w) yesterday)
  /\ (forall res w2,
        notify_and_reboot env cfg w = (res, w2) ->
        terminated (log_text env w2)
        /\ exists evs,
             trace w2 = trace w ++ evs
             /\ ((Forall (fun e => e <> Fatal log_msg) evs
                  /\ history_count (log_text env w2) yesterday
                     = history_count (log_text env w) yesterday)
                 \/ exists before after d msecs,
                      evs = before ++ Fatal log_msg :: after
                      /\ In (System (reboot_command env cfg)) after
                      /\ asctime env (trace w ++ before)
                         = format_asctime d msecs
                      /\ valid d = true
                      /\ history_count (log_text env w2) yesterday
                         = history_count (log_text env w) yesterday
                           + (if gt (seconds d) yesterday then 1 else 0))).
Proof.
  intros Hstamp Hold. split.
  - intros res w1 Hrun.
    destruct (appends_ping_host env cfg _ _ _ Hrun) as (evs & Htrace & Hlog & _).
    destruct (ping_host_trace env cfg _ _ _ Hrun) as (evs' & Htrace' & Hpe & _).
    rewrite Htrace in Htrace'. apply app_inv_head in Htrace'. subst evs'.
    assert (Hall : Forall harmless evs).
    { eapply Forall_impl; [exact Hpe|apply ping_event_harmless]. }
    destruct (harmless_written env Hstamp evs (trace w) _ Hall Hold)
      as [Hterm Hcount].
    rewrite Hlog. split; [exact Hterm|apply Hcount].
  - intros res w2 Hrun.
    destruct (notify_and_reboot_as_main env cfg w) as (cfg0 & Hmain & Hcmd).
    rewrite <- Hmain in Hrun. rewrite <- Hcmd.
    exact (main_history_step env cfg0 w res w2 yesterday Hstamp Hold Hrun).
Qed.

Lemma notify_and_reboot_adds_reboot_to_history_witness :
  default_asctime Scenario.env_down
  /\ terminated
       (log_text Scenario.env_down
          (snd (notify_and_reboot Scenario.env_down Scenario.cfg_default
                  Scenario.w_empty_log)))
  /\ history_count
       (log_text Scenario.env_down
          (snd (notify_and_reboot Scenario.env_down Scenario.cfg_default
                  Scenario.w_empty_log)))
       Scenario.ago_23h = 1.
Proof.
  assert (Hstamp : default_asctime Scenario.env_down).
  { intros history. exists Scenario.noon, 0.
    split; [reflexivity|]. split; [vm_compute; discriminate|reflexivity]. }
  split; [exact Hstamp|].
  destruct (notify_and_reboot_adds_reboot_to_history
              Scenario.env_down Scenario.cfg_default Scenario.w_empty_log
              Scenario.ago_23h Hstamp) as [_ Hreboot].
  - left. reflexivity.
  - destruct (Hreboot
                (fst (notify_and_reboot Scenario.env_down Scenario.cfg_default
                        Scenario.w_empty_log))
                (snd (notify_and_reboot Scenario.env_down Scenario.cfg_default
                        Scenario.w_empty_log)))
      as [Hterm _].
    + vm_compute; reflexivity.
    + split; [exact Hterm|]. vm_compute; reflexivity.
Defined.

(** * Further properties of the decision *)

(** X12: when the configured log file is not there, a cycle that judged
    the host unreachable ends with the [FileNotFoundError] of [open]: no
    notification is sent and no reboot command is run. *)
Theorem main_without_log_file env cfg w w0 :
  ping_host env cfg w = (Ok false, w0) ->
  files w !! log_file cfg = None ->
  main env cfg w
  = (Except FileNotFoundError,
     mk_world (trace w0 ++ [OpenRead (log_file cfg)]) (files w)).
Proof.
  intros Hhost Hfile.
  destruct (ping_host_trace env cfg _ _ _ Hhost) as (pings & _ & _ & Hok).
  destruct (Hok false eq_refl) as [_ Hfs].
  unfold main, bind at 1. rewrite Hhost.
  unfold notify_and_reboot, bind at 1.
  unfold num_reboots_24h, bind at 1, open_readlines.
  rewrite Hfs, Hfile. reflexivity.
Qed.

Lemma main_without_log_file_witness :
  fst (main Scenario.env_down Cases.cfg_other_log Scenario.w_empty_log)
  = Except FileNotFoundError.
Proof.
  rewrite (main_without_log_file Scenario.env_down Cases.cfg_other_log
             Scenario.w_empty_log
             (snd (ping_host Scenario.env_down Cases.cfg_other_log
                             Scenario.w_empty_log))).
  - reflexivity.
  - vm_compute; reflexivity.
  - vm_compute; reflexivity.
Defined.

Lemma count_after_bounds yesterday (dt_lst : list datetime) : forall counted,
  counted <= count_after yesterday dt_lst counted
  <= counted + Z.of_nat (length dt_lst).
Proof.
  induction dt_lst as [|d dt_lst IH]; intros counted; cbn [count_after length].
  - lia.
  - specialize (IH (if gt d yesterday then counted + 1 else counted)).
    destruct (gt d yesterday); lia.
Qed.

Lemma scan_lines_length (lines : list string) : forall dt_lst,
  (length (scan_lines lines dt_lst) <= length dt_lst + length lines)%nat.
Proof.
  induction lines as [|line lines IH]; intros dt_lst; cbn [scan_lines length].
  - lia.
  - destruct (try_line_spec line dt_lst) as [(t & _ & ->)|[_ [-> | ->]]].
    + specialize (IH (dt_lst ++ [t])). rewrite length_app in IH.
      cbn [length] in IH. lia.
    + specialize (IH dt_lst). lia.
    + specialize (IH dt_lst). lia.
Qed.

(** X13: the number [num_reboots_24h] returns is never negative and never
    more than the number of lines of the log; the call changes no file. *)
Theorem num_reboots_24h_bounds env cfg w reboots w' :
  num_reboots_24h env cfg w = (Ok reboots, w') ->
  exists contents,
    files w !! log_file cfg = Some contents
    /\ 0 <= reboots <= Z.of_nat (length (readlines contents))
    /\ files w' = files w.
Proof.
  intros Hnum.
  destruct (num_reboots_24h_spec env cfg _ _ _ Hnum)
    as [Hfs [(_ & [=] & _)|(contents & Hfile & _ & Hres)]].
  exists contents. split; [exact Hfile|]. split; [|exact Hfs].
  destruct (minus_24h _) as [yesterday|]; [|discriminate].
  injection Hres as ->. unfold history_count.
  pose proof (count_after_bounds yesterday
                (scan_lines (readlines contents) []) 0) as Hc.
  pose proof (scan_lines_length (readlines contents) []) as Hl.
  cbn [length] in Hl. lia.
Qed.

Lemma num_reboots_24h_bounds_witness :
  exists contents,
    files Scenario.w_three_ages !! log_file Scenario.cfg_default = Some contents
    /\ 0 <= 2 <= Z.of_nat (length (readlines contents)).
Proof.
  destruct (num_reboots_24h_bounds Scenario.env_down Scenario.cfg_default
              Scenario.w_three_ages 2
              (snd (num_reboots_24h Scenario.env_down Scenario.cfg_default
                      Scenario.w_three_ages)))
    as (contents & Hfile & Hbounds & _).
  - vm_compute; reflexivity.
  - exists contents. split; [exact Hfile|exact Hbounds].
Defined.

(** X14: with [max_reboots_per_day] at 0 or below, a cycle that judged
    the host unreachable never notifies and never reboots: after the
    verdict it sends no marker to the log or to the system logger, makes
    no request to the push service and runs no command, whatever the log
    holds. *)
Theorem main_never_reboots_without_allowance env cfg w w0 res w2 :
  max_reboots_per_day cfg <= 0 ->
  ping_host env cfg w = (Ok false, w0) ->
  main env cfg w = (res, w2) ->
  count is_local_notification (trace w2)
  = count is_local_notification (trace w0)
  /\ count is_push (trace w2) = count is_push (trace w0)
  /\ count is_command (trace w2) = count is_command (trace w0).
Proof.
  intros Hmax Hhost Hmain. unfold main, bind at 1 in Hmain.
  rewrite Hhost in Hmain.
  destruct (num_reboots_24h env cfg w0) as [[reboots|e] w1] eqn:Hnum.
  - destruct (num_reboots_24h_spec env cfg _ _ _ Hnum)
      as [_ [(_ & [=] & _)|(contents & _ & Htr1 & Hres)]].
    assert (Hpos : 0 <= reboots).
    { destruct (minus_24h _) as [yesterday|]; [|discriminate].
      injection Hres as ->. unfold history_count.
      pose proof (count_after_bounds yesterday
                    (scan_lines (readlines contents) []) 0). lia. }
    destruct (notify_and_reboot_throttled env cfg _ _ _ Hnum ltac:(lia))
      as (w2' & Hrun & Htr2).
    rewrite Hrun in Hmain. injection Hmain as <- <-.
    rewrite Htr2, Htr1, !count_app. cbn. lia.
  - rewrite (notify_and_reboot_raises env cfg _ _ _ Hnum) in Hmain.
    injection Hmain as <- <-.
    destruct (num_reboots_24h_spec env cfg _ _ _ Hnum)
      as [_ [(_ & _ & Htr1)|(contents & _ & Htr1 & _)]];
      rewrite Htr1, !count_app; cbn; lia.
Qed.

Lemma main_never_reboots_without_allowance_witness :
  count is_command
    (trace (snd (main Scenario.env_down Cases.cfg_never_reboot
                      Scenario.w_empty_log)))
  = 8%nat.
Proof.
  destruct (main_never_reboots_without_allowance
              Scenario.env_down Cases.cfg_never_reboot Scenario.w_empty_log
              (snd (ping_host Scenario.env_down Cases.cfg_never_reboot
                              Scenario.w_empty_log))
              (fst (main Scenario.env_down Cases.cfg_never_reboot
                         Scenario.w_empty_log))
              (snd (main Scenario.env_down Cases.cfg_never_reboot
                         Scenario.w_empty_log)))
    as (_ & _ & Hcmd).
  - vm_compute; discriminate.
  - vm_compute; reflexivity.
  - vm_compute; reflexivity.
  - rewrite Hcmd. vm_compute; reflexivity.
Defined.

(** X15: when [ping_host] returns [True], the cycle ends normally after
    one fatal record "no reboot required", appended to the log; up to
    there it has not opened a file for reading nor made a request to the
    push service, and it has changed no file. *)
Theorem main_stands_down env cfg w w0 :
  ping_host env cfg w = (Ok true, w0) ->
  main env cfg w
  = (Ok tt,
     mk_world (trace w0 ++ [Fatal "no reboot required"])
       (<[handler_file env :=
            (log_text env w
             ++ record_line (asctime env (trace w0)) "no reboot required")
            %string]> (files w)))
  /\ count is_read (trace w0) = count is_read (trace w)
  /\ count is_push (trace w0) = count is_push (trace w)
  /\ files w0 = files w.
Proof.
  intros Hhost.
  destruct (ping_host_trace env cfg _ _ _ Hhost) as (pings & Htr & _ & Hok).
  destruct (Hok true eq_refl) as [Hq Hfs].
  split; [|split; [|split]].
  - unfold main, bind at 1. rewrite Hhost. unfold fatal, log_text.
    rewrite Hfs. reflexivity.
  - rewrite Htr, count_app, (count_none is_read quiet_event pings); [lia| |exact Hq].
    intros [] He; try reflexivity; destruct He.
  - rewrite Htr, count_app, (count_none is_push quiet_event pings); [lia| |exact Hq].
    intros [] He; try reflexivity; destruct He.
  - exact Hfs.
Qed.

Lemma main_stands_down_witness :
  fst (main Scenario.env_up Scenario.cfg_default Scenario.w_empty_log) = Ok tt
  /\ log_text Scenario.env_up
       (snd (main Scenario.env_up Scenario.cfg_default Scenario.w_empty_log))
     = record_line "2021-08-12 12:00:00,000" "no reboot required".
Proof.
  destruct (main_stands_down Scenario.env_up Scenario.cfg_default
              Scenario.w_empty_log
              (snd (ping_host Scenario.env_up Scenario.cfg_default
                              Scenario.w_empty_log)))
    as (Hrun & _).
  - vm_compute; reflexivity.
  - rewrite Hrun. split; reflexivity.
Defined.

(** X16: when the history count is below [max_reboots_per_day],
    [notify_and_reboot] runs the reboot command once, as its last command,
    and returns normally whatever the exit status; a status other than 0
    adds the fatal record "reboot command failed" and nothing else. *)
Theorem reboot_command_runs_once env cfg w reboots w1 :
  num_reboots_24h env cfg w = (Ok reboots, w1) ->
  reboots < max_reboots_per_day cfg ->
  exists before w2,
    notify_and_reboot env cfg w = (Ok tt, w2)
    /\ trace w2
       = before ++ System (reboot_command env cfg)
         :: (if system env before (reboot_command env cfg) =? 0 then []
             else [Fatal "reboot command failed"])
    /\ exists notified,
         before = trace w1 ++ notified
         /\ In (Fatal log_msg) notified.
Proof.
  intros Hnum Hlt. unfold notify_and_reboot, bind at 1. rewrite Hnum.
  unfold bind at 1. unfold debug at 1, emit at 1.
  destruct (Z.leb_spec (max_reboots_per_day cfg) reboots); [lia|].
  set (line := Debug _).
  set (wd := mk_world _ (files w1)).
  assert (Hlog : exists wl, MyLog_notify env wd = (Ok tt, wl)
             /\ trace wl = trace wd ++ [Fatal log_msg]
                  ++ (if nt env then [] else [System logger_command])).
  { unfold MyLog_notify, bind at 1, fatal. cbn [trace files].
    destruct (nt env); cbn [negb].
    - eexists. split; [reflexivity|]. reflexivity.
    - unfold bind, os_system, ret. cbn [trace files].
      eexists. split; [reflexivity|]. cbn [trace].
      rewrite <- app_assoc. reflexivity. }
  destruct Hlog as (wl & Hlog & Htrl).
  unfold bind at 1. rewrite Hlog.
  destruct (Pushover_notify_spec env (pushover_user_key cfg)
              (pushover_api_token cfg) wl) as (push & Hpush & _).
  unfold bind at 1. rewrite Hpush.
  unfold send_reboot_cmd, bind, os_system. cbn [trace files snd].
  exists (trace wl ++ push).
  destruct (system env (trace wl ++ push) (reboot_command env cfg) =? 0);
    cbn [negb]; unfold ret, fatal; cbn [trace files];
    eexists; (split; [reflexivity|]); cbn [trace];
    rewrite <- ?app_assoc; (split; [reflexivity|]);
    exists ([line; Fatal log_msg]
            ++ (if nt env then [] else [System logger_command]) ++ push);
    (split; [rewrite Htrl; subst wd; cbn [trace];
             rewrite <- !app_assoc; reflexivity|]);
    right; left; reflexivity.
Qed.

Lemma reboot_command_runs_once_witness :
  exists before,
    trace (snd (notify_and_reboot Cases.env_created Scenario.cfg_push
                  Scenario.w_empty_log))
    = before ++ [System "true"; Fatal "reboot command failed"].
Proof.
  destruct (reboot_command_runs_once Cases.env_created Scenario.cfg_push
              Scenario.w_empty_log 0
              (snd (num_reboots_24h Cases.env_created Scenario.cfg_push
                      Scenario.w_empty_log)))
    as (before & w2 & Hrun & Htrace & _).
  - vm_compute; reflexivity.
  - vm_compute; reflexivity.
  - exists before. rewrite Hrun. cbn [snd]. rewrite Htrace. reflexivity.
Defined.

(** * The set-up of the log *)

Section Rotation.
Variable env : environment.
Variable getsize : string -> Z.

(** X17: on a log that is there, [_log_rotate] returns normally after one
    debug line and touches no other file; it leaves the log as it was when
    rotation is disabled ([log_max_size] at 0 or below) or the log is not
    larger than [log_max_size], and empties it otherwise; so with
    rotation enabled and empty files of size 0 the log is never larger
    than [log_max_size] afterwards. *)
Theorem log_rotate_keeps_log_small log_max_size w contents :
  files w !! handler_file env = Some contents ->
  exists line w',
    _log_rotate env getsize log_max_size w = (Ok tt, w')
    /\ trace w' = trace w ++ [Debug line]
    /\ (forall path,
          path <> handler_file env -> files w' !! path = files w !! path)
    /\ (log_max_size <= 0 \/ getsize contents <= log_max_size ->
        files w' = files w)
    /\ (0 < log_max_size < getsize contents ->
        files w' !! handler_file env = Some EmptyString)
    /\ (getsize EmptyString = 0 -> 0 < log_max_size ->
        getsize (log_text env w') <= log_max_size).
Proof.
  intros Hfile. unfold _log_rotate.
  destruct (Z.ltb_spec 0 log_max_size) as [Hon|Hoff].
  - rewrite Hfile. cbv zeta.
    destruct (Z.ltb_spec log_max_size (getsize contents)) as [Hbig|Hsmall].
    + unfold bind, debug, emit, truncate. cbn [trace files].
      eexists _, _. split; [reflexivity|]. cbn [trace files].
      split; [reflexivity|]. split.
      * intros path Hpath. rewrite lookup_insert_ne by congruence. reflexivity.
      * split; [intros [?|?]; lia|]. split.
        -- intros _. apply lookup_insert_eq.
        -- intros Hempty _. unfold log_text. cbn [files].
           rewrite lookup_insert_eq. cbn [default id]. lia.
    + unfold debug, emit. eexists _, _. split; [reflexivity|].
      cbn [trace files]. split; [reflexivity|]. split; [reflexivity|].
      split; [reflexivity|]. split; [lia|].
      intros _ _. unfold log_text. cbn [files]. rewrite Hfile. exact Hsmall.
  - unfold debug, emit. eexists _, _. split; [reflexivity|].
    cbn [trace files]. split; [reflexivity|]. split; [reflexivity|].
    split; [reflexivity|]. split; lia.
Qed.

(** X19: when the log is larger than a positive [log_max_size], the
    set-up empties it, and the history count of a cycle that follows finds
    no reboot, whatever the log recorded: the daily allowance starts
    over. *)
Theorem log_rotation_forgets_history log_max_size cfg w contents yesterday :
  files w !! handler_file env = Some contents ->
  0 < log_max_size < getsize contents ->
  log_file cfg = handler_file env ->
  minus_24h
    (now env (trace w
              ++ [Debug "log file too large. trucating log file";
                  OpenRead (log_file cfg)]))
  = Some yesterday ->
  exists w1 w2,
    __init__ env getsize log_max_size w = (Ok tt, w1)
    /\ num_reboots_24h env cfg w1 = (Ok 0, w2).
Proof.
  intros Hfile Hbig Hcfg Hy.
  unfold __init__, bind, _log_setup. rewrite Hfile.
  unfold _log_rotate. destruct (Z.ltb_spec 0 log_max_size); [|lia].
  rewrite Hfile. cbv zeta.
  destruct (Z.ltb_spec log_max_size (getsize contents)); [|lia].
  unfold bind, debug, emit, truncate. cbn [trace files].
  eexists _, _. split; [reflexivity|].
  unfold num_reboots_24h, bind, open_readlines. cbn [trace files].
  rewrite Hcfg, lookup_insert_eq. unfold datetime_today. cbn [trace files].
  rewrite Hcfg in Hy. rewrite <- app_assoc. cbn [app]. rewrite Hy.
  reflexivity.
Qed.

End Rotation.

Lemma log_rotate_keeps_log_small_witness :
  exists w',
    fst (_log_rotate Scenario.env_down Cases.size_in_characters 10
           Scenario.w_three_reboots) = Ok tt
    /\ Cases.size_in_characters
         (log_text Scenario.env_down
            (snd (_log_rotate Scenario.env_down Cases.size_in_characters 10
                    Scenario.w_three_reboots))) <= 10
    /\ w' = snd (_log_rotate Scenario.env_down Cases.size_in_characters 10
                   Scenario.w_three_reboots).
Proof.
  destruct (log_rotate_keeps_log_small Scenario.env_down
              Cases.size_in_characters 10 Scenario.w_three_reboots
              (log_text Scenario.env_down Scenario.w_three_reboots))
    as (line & w' & Hrun & _ & _ & _ & _ & Hsmall).
  - vm_compute; reflexivity.
  - exists w'. rewrite Hrun. cbn [fst snd].
    split; [reflexivity|]. split; [|reflexivity].
    apply Hsmall; [reflexivity|lia].
Defined.

Lemma log_rotation_forgets_history_witness :
  history_count (log_text Scenario.env_down Scenario.w_three_reboots)
    Scenario.ago_23h = 3
  /\ exists w1 w2,
       __init__ Scenario.env_down Cases.size_in_characters 10
         Scenario.w_three_reboots = (Ok tt, w1)
       /\ num_reboots_24h Scenario.env_down Scenario.cfg_default w1
          = (Ok 0, w2).
Proof.
  split; [vm_compute; reflexivity|].
  apply (log_rotation_forgets_history Scenario.env_down
           Cases.size_in_characters 10 Scenario.cfg_default
           Scenario.w_three_reboots
           (log_text Scenario.env_down Scenario.w_three_reboots)
           (mk_datetime 2021 8 11 12 0 0 0)).
  - vm_compute; reflexivity.
  - vm_compute. split; reflexivity.
  - reflexivity.
  - reflexivity.
Defined.


(** * Timestamps the history scan does not read *)

Lemma format_regex_strftime_then d rest :
  valid d = true -> 1000 <= year d ->
  match format_regex (strftime d ++ rest)%string with
  | (found, rest') :: _ => found = seconds d /\ rest' = rest
  | [] => False
  end.
Proof.
  intros Hv Hy. pose proof (valid_year d Hv) as Hy9.
  apply valid_fields in Hv as ((Hy1 & Hm & Hd) & Hh & Hmi & Hs & _).
  pose proof (days_in_month_pos (year d) (month d)) as Hdim.
  unfold format_regex, strftime.
  rewrite !append_assoc, !lit_append.
  rewrite re_Y_pad4 by lia. cbn [mbind list_bind].
  rewrite chr_same. cbn [mbind list_bind].
  match goal with |- context [re_m (pad2 ?m ++ ?r)%string] =>
    destruct (re_m_pad2 m r ltac:(lia)) as [more1 ->] end.
  cbn [mbind list_bind]. rewrite chr_same. cbn [mbind list_bind].
  match goal with |- context [re_d (pad2 ?m ++ ?r)%string] =>
    destruct (re_d_pad2 m r ltac:(lia)) as [more2 ->] end.
  cbn [mbind list_bind]. rewrite spaces_pad2. cbn [mbind list_bind].
  match goal with |- context [re_H (pad2 ?m ++ ?r)%string] =>
    destruct (re_H_pad2 m r ltac:(lia)) as [more3 ->] end.
  cbn [mbind list_bind]. rewrite chr_same. cbn [mbind list_bind].
  match goal with |- context [re_M (pad2 ?m ++ ?r)%string] =>
    destruct (re_M_pad2 m r ltac:(lia)) as [more4 ->] end.
  cbn [mbind list_bind]. rewrite chr_same. cbn [mbind list_bind].
  match goal with |- context [re_S (pad2 ?m ++ ?r)%string] =>
    destruct (re_S_pad2 m r ltac:(lia)) as [more5 ->] end.
  cbn [mbind list_bind app]. split; reflexivity.
Qed.

(** Text after the seconds remains unconverted. *)
Lemma strptime_unconverted d c tail :
  valid d = true -> 1000 <= year d ->
  strptime (strftime d ++ String c tail)%string = None.
Proof.
  intros Hv Hy. unfold strptime.
  pose proof (format_regex_strftime_then d (String c tail) Hv Hy) as Hfound.
  destruct (format_regex (strftime d ++ String c tail))
    as [|[found rest] more]; [reflexivity|].
  destruct Hfound as [_ ->]. reflexivity.
Qed.

Lemma strip_fraction_whole (s : string) :
  lacks "," s -> lacks "." s -> strip_fraction s = s.
Proof.
  unfold lacks. induction s as [|x s IH]; cbn [occurrences strip_fraction];
    [reflexivity|].
  destruct (Ascii.eqb x ","); [discriminate|].
  destruct (Ascii.eqb x "."); [discriminate|].
  cbn [orb]. intros Hc Hp. rewrite (IH Hc Hp). reflexivity.
Qed.

Lemma lacks_strftime d c : clock_char c = false -> lacks c (strftime d).
Proof. apply string_all_lacks, string_all_strftime. Qed.

Lemma lacks_app c (a b : string) :
  lacks c a -> lacks c b -> lacks c (a ++ b)%string.
Proof. unfold lacks. rewrite occurrences_app. lia. Qed.

(** X20: a marker line whose timestamp field goes on after the seconds
    with anything but a comma or period fraction, the one space that
    [' | '] puts before the delimiter included, makes [strptime] fail:
    the scan skips the line and no reboot is counted for it; the same
    line with the delimiter right after the seconds is read. *)
Theorem stamp_without_fraction_skipped d c tail lines dt_lst :
  valid d = true -> 1000 <= year d ->
  lacks "|" (String c tail) ->
  lacks "," (String c tail) ->
  lacks "." (String c tail) ->
  try_line
    (strftime d ++ String c tail ++ "|" ++ " " ++ log_msg ++ newline)%string
    dt_lst
  = Except ValueError
  /\ scan_lines
       ((strftime d ++ String c tail ++ "|" ++ " " ++ log_msg ++ newline)%string
        :: lines) dt_lst
     = scan_lines lines dt_lst
  /\ (forall t,
        ~ reboot_event
            (strftime d ++ String c tail ++ "|" ++ " " ++ log_msg
             ++ newline)%string t)
  /\ try_line (strftime d ++ "|" ++ " " ++ log_msg ++ newline)%string dt_lst
     = Ok (dt_lst ++ [seconds d]).
Proof.
  intros Hv Hy Hbar Hcomma Hperiod.
  assert (Hskip :
    try_line
      (strftime d ++ String c tail ++ "|" ++ " " ++ log_msg ++ newline)%string
      dt_lst
    = Except ValueError).
  { unfold try_line.
    replace (strftime d ++ String c tail ++ "|" ++ " " ++ log_msg ++ newline)%string
      with ((strftime d ++ String c tail)
            ++ String "|" (" " ++ log_msg ++ newline))%string
      by (rewrite append_assoc; reflexivity).
    rewrite split_delimiter
      by (apply lacks_app; [apply lacks_strftime; reflexivity|exact Hbar]).
    rewrite split_lacks by reflexivity.
    replace (find (" " ++ log_msg ++ newline) log_msg =? -1) with false
      by (vm_compute; reflexivity).
    cbn [negb].
    destruct (split_strip_fraction (strftime d ++ String c tail))
      as (fields1 & fields2 & field1 & -> & ->).
    rewrite strip_fraction_whole
      by (apply lacks_app; [apply lacks_strftime; reflexivity|assumption]).
    rewrite (strptime_unconverted d c tail Hv Hy). reflexivity. }
  split; [exact Hskip|]. split; [cbn [scan_lines]; rewrite Hskip; reflexivity|].
  split.
  - intros t Hev.
    destruct (try_line_spec
                (strftime d ++ String c tail ++ "|" ++ " " ++ log_msg
                 ++ newline)%string dt_lst)
      as [(t' & _ & Hok)|[Hno _]].
    + rewrite Hskip in Hok. discriminate.
    + exact (Hno t Hev).
  - unfold try_line.
    change (strftime d ++ "|" ++ " " ++ log_msg ++ newline)%string
      with (strftime d ++ String "|" (" " ++ log_msg ++ newline))%string.
    rewrite split_delimiter by (apply lacks_strftime; reflexivity).
    rewrite split_lacks by reflexivity.
    replace (find (" " ++ log_msg ++ newline) log_msg =? -1) with false
      by (vm_compute; reflexivity).
    cbn [negb].
    destruct (split_strip_fraction (strftime d))
      as (fields1 & fields2 & field1 & -> & ->).
    rewrite strip_fraction_whole by (apply lacks_strftime; reflexivity).
    rewrite (strptime_strftime d Hv Hy). reflexivity.
Qed.

Lemma stamp_without_fraction_skipped_witness :
  scan_lines
    [("2021-08-12 12:00:00 | " ++ log_msg ++ newline)%string] []
  = []
  /\ try_line ("2021-08-12 12:00:00| " ++ log_msg ++ newline)%string []
     = Ok [Scenario.noon].
Proof.
  destruct (stamp_without_fraction_skipped Scenario.noon " " EmptyString [] [])
    as (_ & Hscan & _ & Hread).
  - reflexivity.
  - vm_compute; discriminate.
  - reflexivity.
  - reflexivity.
  - reflexivity.
  - split; [exact Hscan|exact Hread].
Defined.

(** * What a cycle does to the outside *)

Section Confined.
Variable env : environment.
Variable cfg : config.
Variable P : event -> Prop.

Lemma confined_ret {A} (a : A) : confined P (ret a).
Proof.
  intros w res w' [= <- <-]. exists []. rewrite app_nil_r.
  split; [reflexivity|constructor].
Qed.

Lemma confined_raise {A} (e : exn) : confined P (@raise A e).
Proof.
  intros w res w' [= <- <-]. exists []. rewrite app_nil_r.
  split; [reflexivity|constructor].
Qed.

Lemma confined_event {A} (e : event) (res0 : world -> result A)
    (files0 : world -> gmap string string) :
  P e ->
  confined P (fun w => (res0 w, mk_world (trace w ++ [e]) (files0 w))).
Proof.
  intros He w res w' [= <- <-]. exists [e]. cbn [trace].
  split; [reflexivity|]. constructor; [exact He|constructor].
Qed.

Lemma confined_bind {A B} (m : M A) (k : A -> M B) :
  confined P m -> (forall a, confined P (k a)) -> confined P (bind m k).
Proof.
  intros Hm Hk w res w'. unfold bind.
  destruct (m w) as [[a|e] w1] eqn:Hrun;
    destruct (Hm _ _ _ Hrun) as (evs1 & Ht1 & Hp1).
  - intros Hrest. destruct (Hk a _ _ _ Hrest) as (evs2 & Ht2 & Hp2).
    exists (evs1 ++ evs2). rewrite Ht2, Ht1, app_assoc.
    split; [reflexivity|]. apply List.Forall_app. split; assumption.
  - intros [= <- <-]. exists evs1. split; assumption.
Qed.

Lemma confined_try_except {A} (body handler : M A) :
  confined P body -> confined P handler ->
  confined P (try_except body handler).
Proof.
  intros Hb Hh w res w'. unfold try_except.
  destruct (body w) as [[a|e] w1] eqn:Hrun;
    destruct (Hb _ _ _ Hrun) as (evs1 & Ht1 & Hp1).
  - intros [= <- <-]. exists evs1. split; assumption.
  - intros Hrest. destruct (Hh _ _ _ Hrest) as (evs2 & Ht2 & Hp2).
    exists (evs1 ++ evs2). rewrite Ht2, Ht1, app_assoc.
    split; [reflexivity|]. apply List.Forall_app. split; assumption.
Qed.

End Confined.

Section Permitted.
Variable env : environment.
Variable cfg : config.

Lemma permitted_debug msg : confined (permitted env cfg) (debug msg).
Proof. apply (confined_event _ (Debug msg) (fun _ => Ok tt) files). exact I. Qed.

Lemma permitted_fatal msg : confined (permitted env cfg) (fatal env msg).
Proof.
  intros w res w'. unfold fatal. intros [= <- <-]. exists [Fatal msg].
  cbn [trace]. split; [reflexivity|]. constructor; [exact I|constructor].
Qed.

Lemma permitted_os_system cmd :
  permitted env cfg (System cmd) ->
  confined (permitted env cfg) (os_system env cmd).
Proof.
  intros Hcmd.
  exact (confined_event _ (System cmd)
           (fun w => Ok (system env (trace w) cmd)) files Hcmd).
Qed.

Lemma permitted_sleep : confined (permitted env cfg) (sleep (retry_wait cfg)).
Proof.
  unfold sleep. destruct (Z.ltb_spec (retry_wait cfg) 0);
    [apply confined_raise|].
  apply (confined_event _ (Sleep (retry_wait cfg)) (fun _ => Ok tt) files).
  split; [reflexivity|assumption].
Qed.

Lemma permitted_ping_loop n : forall failed,
  confined (permitted env cfg) (ping_loop env cfg n failed).
Proof.
  induction n as [|n IH]; intros failed; cbn [ping_loop].
  - apply confined_ret.
  - apply confined_bind; [apply permitted_debug|]. intros _.
    apply confined_bind; [|intros result; apply IH].
    apply permitted_os_system. left. reflexivity.
Qed.

Lemma permitted_ping_attempts :
  confined (permitted env cfg) (ping_attempts env cfg).
Proof.
  unfold ping_attempts. apply confined_bind.
  - exact (confined_event _ (Which "ping")
             (fun w => Ok (which env (trace w) "ping")) files eq_refl).
  - intros tool. destruct (negb tool); [|apply permitted_ping_loop].
    apply confined_bind; [apply permitted_fatal|]. intros _.
    apply confined_raise.
Qed.

Lemma permitted_ping_round counter :
  confined (permitted env cfg) (ping_round env cfg counter).
Proof.
  unfold ping_round. apply confined_bind.
  - destruct (0 <? counter); [|apply confined_ret].
    apply confined_bind; [apply permitted_debug|]. intros _.
    apply permitted_sleep.
  - intros _. apply confined_bind; [apply permitted_ping_attempts|].
    intros f. apply confined_bind; [apply permitted_debug|]. intros _.
    apply confined_ret.
Qed.

Lemma permitted_ping_host_loop n : forall counter,
  Z.to_nat (retries cfg - counter) = n ->
  confined (permitted env cfg) (ping_host_loop env cfg counter).
Proof.
  induction n as [|n IH]; intros counter Hn w res w';
    rewrite ping_host_loop_unfold.
  - destruct (Z.ltb_spec counter (retries cfg)); [lia|].
    apply (confined_ret _ false).
  - destruct (Z.ltb_spec counter (retries cfg)); [|lia].
    destruct (ping_round env cfg counter w) as [[f|e] w1] eqn:Hround;
      destruct (permitted_ping_round counter _ _ _ Hround)
        as (evs1 & Ht1 & Hp1).
    + destruct (f <=? attempts cfg).
      * intros [= <- <-]. exists evs1. split; assumption.
      * intros Hrest.
        destruct (IH (counter + 1) ltac:(lia) _ _ _ Hrest)
          as (evs2 & Ht2 & Hp2).
        exists (evs1 ++ evs2). rewrite Ht2, Ht1, app_assoc.
        split; [reflexivity|]. apply List.Forall_app. split; assumption.
    + intros [= <- <-]. exists evs1. split; assumption.
Qed.

Lemma permitted_ping_host : confined (permitted env cfg) (ping_host env cfg).
Proof.
  apply permitted_ping_host_loop with (n := Z.to_nat (retries cfg - 0)).
  reflexivity.
Qed.

Lemma permitted_num_reboots_24h :
  confined (permitted env cfg) (num_reboots_24h env cfg).
Proof.
  unfold num_reboots_24h. apply confined_bind.
  - intros w res w'. unfold open_readlines.
    destruct (files w !! log_file cfg); intros [= <- <-];
      exists [OpenRead (log_file cfg)]; cbn [trace];
      (split; [reflexivity|]); constructor; (reflexivity || constructor).
  - intros lines. apply confined_bind.
    + exact (confined_event _ Today (fun w => Ok (now env (trace w))) files I).
    + intros today.
      destruct (minus_24h today); [apply confined_ret|apply confined_raise].
Qed.

Lemma permitted_MyLog_notify : confined (permitted env cfg) (MyLog_notify env).
Proof.
  unfold MyLog_notify. apply confined_bind; [apply permitted_fatal|]. intros _.
  destruct (nt env) eqn:Hnt; cbn [negb]; [apply confined_ret|].
  apply confined_bind; [|intros _; apply confined_ret].
  apply permitted_os_system. right. left. split; [exact Hnt|reflexivity].
Qed.

Lemma permitted_Pushover_notify :
  confined (permitted env cfg)
    (Pushover_notify env (pushover_user_key cfg) (pushover_api_token cfg)).
Proof.
  unfold Pushover_notify.
  destruct (Z.ltb_spec (Z.of_nat (String.length (pushover_user_key cfg))) 30)
    as [|Hkey]; cbn [orb]; [apply permitted_debug|].
  destruct (Z.ltb_spec (Z.of_nat (String.length (pushover_api_token cfg))) 30)
    as [|Htoken]; [apply permitted_debug|].
  apply confined_bind.
  - apply confined_try_except; [|apply confined_ret].
    intros w res w'. unfold pushover_exchange.
    destruct (pushover env (trace w)); intros [= <- <-];
      eexists [_]; cbn [trace]; (split; [reflexivity|]);
      (constructor; [|constructor]); cbn [permitted];
      repeat (split; [first [reflexivity|lia]|]); reflexivity.
  - intros sent. destruct (negb sent); apply permitted_debug.
Qed.

Lemma permitted_send_reboot_cmd :
  confined (permitted env cfg) (send_reboot_cmd env cfg).
Proof.
  unfold send_reboot_cmd. apply confined_bind.
  - apply permitted_os_system. right. right. reflexivity.
  - intros result. destruct (negb _); apply confined_ret.
Qed.

Lemma permitted_notify_and_reboot :
  confined (permitted env cfg) (notify_and_reboot env cfg).
Proof.
  unfold notify_and_reboot.
  apply confined_bind; [apply permitted_num_reboots_24h|].
  intros reboots. apply confined_bind; [apply permitted_debug|]. intros _.
  destruct (_ <=? _); [apply permitted_fatal|].
  apply confined_bind; [apply permitted_MyLog_notify|]. intros _.
  apply confined_bind; [apply permitted_Pushover_notify|]. intros _.
  apply confined_bind; [apply permitted_send_reboot_cmd|]. intros sent.
  destruct (negb sent); [apply permitted_fatal|apply confined_ret].
Qed.

(** X21: whatever the environment answers and however the call ends,
    [ping_host] and [notify_and_reboot] do nothing to the outside but
    this: they look up no tool but ping; the commands they run are the
    ping command, the logger command (never on Windows) and the reboot
    command of the platform; they sleep only for a non-negative
    [retry_wait]; they open no file for reading but the configured log;
    and they post only the reboot message, with the configured key and
    token, both of 30 characters or more. *)
Theorem ping_and_reboot_confined_to_their_means :
  confined (permitted env cfg) (ping_host env cfg)
  /\ confined (permitted env cfg) (notify_and_reboot env cfg).
Proof.
  split; intros w res w'.
  - apply permitted_ping_host.
  - apply permitted_notify_and_reboot.
Qed.

End Permitted.

Lemma ping_and_reboot_confined_to_their_means_witness :
  In (System "true")
    (trace (snd (notify_and_reboot Cases.env_created Scenario.cfg_push
                   Scenario.w_empty_log)))
  /\ exists evs,
       trace (snd (notify_and_reboot Cases.env_created Scenario.cfg_push
                     Scenario.w_empty_log))
       = trace Scenario.w_empty_log ++ evs
       /\ Forall (permitted Cases.env_created Scenario.cfg_push) evs.
Proof.
  split; [vm_compute; tauto|].
  destruct (ping_and_reboot_confined_to_their_means
              Cases.env_created Scenario.cfg_push) as [_ Hconfined].
  apply (Hconfined Scenario.w_empty_log
           (fst (notify_and_reboot Cases.env_created Scenario.cfg_push
                   Scenario.w_empty_log))).
  vm_compute; reflexivity.
Defined.
